(** * Smart Medicine Box: the data service and the device client

    A shallow embedding of [services/dataService.ts] (the alert and
    schedule engine, the CRUD operations on boxes, medicines and alerts)
    and of [ESP32Service.disconnect] from [services/esp32Service.ts],
    with the properties of the specification proved about them.

    Conventions of the model:
    - a JavaScript string is a [string]; its characters stand for code
      units below 256;
    - a [number] holding a pill count or a dose frequency is a [Z] (the
      forms build them with [parseInt]); the one real-valued quotient of
      the code, [daysRemaining], is a [jsnum] over [Q].  JavaScript
      numbers are double-precision floats, so this arithmetic is the
      code's on a range only: [currentCount - 1] for counts up to
      [2 ^ 53], the comparisons of [currentCount / timesPerDay] for
      operands below [2 ^ 52] in absolute value.  The properties that
      depend on the arithmetic are stated on these ranges
      ([exactDecrement], [exactQuotient]);
    - a [Date] is the instant it denotes, in milliseconds since the epoch
      ([getTime]); the JSON round trip through localStorage keeps it;
    - [localStorage] is the pair of collections of a [World]; every
      [saveToStorage] is recorded in the world's effect log;
    - [Math.random().toString(36).substr(2, 9)] draws from a stream of
      identifiers carried by the world;
    - a rejected promise (a [throw] inside an [async] method) is the
      left summand of the result. *)

From Stdlib Require Import List String Ascii ZArith QArith Bool Lia.
From Stdlib Require Import DecimalString.
Import ListNotations.

Local Open Scope string_scope.
Local Open Scope Z_scope.

(** ** JavaScript strings *)

Module JsString.

(** [s.split(',')] for a one-character separator: never empty. *)
Fixpoint split (sep : ascii) (s : string) : list string :=
  match s with
  | EmptyString => [EmptyString]
  | String c r =>
      if Ascii.eqb c sep then EmptyString :: split sep r
      else match split sep r with
           | h :: t => String c h :: t
           | [] => [String c EmptyString]
           end
  end.

(** White space of [String.prototype.trim] among the code units below
    256: TAB, LF, VT, FF, CR, SPACE and NBSP. *)
Definition isWhiteSpace (c : ascii) : bool :=
  let n := nat_of_ascii c in
  (Nat.leb 9 n && Nat.leb n 13) || Nat.eqb n 32 || Nat.eqb n 160.

Fixpoint trimStart (s : string) : string :=
  match s with
  | EmptyString => EmptyString
  | String c r => if isWhiteSpace c then trimStart r else s
  end.

Fixpoint trimEnd (s : string) : string :=
  match s with
  | EmptyString => EmptyString
  | String c r =>
      match trimEnd r with
      | EmptyString => if isWhiteSpace c then EmptyString else String c EmptyString
      | r' => String c r'
      end
  end.

Definition trim (s : string) : string := trimEnd (trimStart s).

(** [s.includes(needle)]. *)
Fixpoint includes (s needle : string) : bool :=
  String.prefix needle s ||
  match s with
  | EmptyString => false
  | String _ r => includes r needle
  end.

(** [s.slice(0, 5)]. *)
Definition slice05 (s : string) : string := String.substring 0 5 s.

(** [String(n)] for an integer [n] (below 1e21 in magnitude). *)
Definition ofNumber (n : Z) : string := NilZero.string_of_int (Z.to_int n).

End JsString.

(** ** The data model ([types/index.ts]) *)

Module Medicine.
Record t : Type := mk {
  id : string;
  name : string;
  timesPerDay : Z;
  totalCount : Z;
  currentCount : Z;
  customMessage : option string;
  scheduleTime : string;
  createdAt : Z;
  updatedAt : Z
}.

Definition with_currentCount (m : t) (c : Z) : t :=
  mk (id m) (name m) (timesPerDay m) (totalCount m) c (customMessage m)
     (scheduleTime m) (createdAt m) (updatedAt m).

Definition with_updatedAt (m : t) (d : Z) : t :=
  mk (id m) (name m) (timesPerDay m) (totalCount m) (currentCount m)
     (customMessage m) (scheduleTime m) (createdAt m) d.
End Medicine.

Module MedicineBox.
Record t : Type := mk {
  id : string;
  name : string;
  boxId : string;
  ipAddress : string;
  userId : string;
  medicines : list Medicine.t;
  isConnected : bool;
  lastSyncAt : option Z;
  createdAt : Z;
  updatedAt : Z
}.

Definition with_medicines (b : t) (ms : list Medicine.t) : t :=
  mk (id b) (name b) (boxId b) (ipAddress b) (userId b) ms
     (isConnected b) (lastSyncAt b) (createdAt b) (updatedAt b).

Definition with_updatedAt (b : t) (d : Z) : t :=
  mk (id b) (name b) (boxId b) (ipAddress b) (userId b) (medicines b)
     (isConnected b) (lastSyncAt b) (createdAt b) d.
End MedicineBox.

Inductive AlertType : Type :=
  | low_count
  | refill_needed
  | schedule_reminder
  | medicine_time
  | out_of_stock
  | sync_success.

Definition AlertType_eqb (a b : AlertType) : bool :=
  match a, b with
  | low_count, low_count
  | refill_needed, refill_needed
  | schedule_reminder, schedule_reminder
  | medicine_time, medicine_time
  | out_of_stock, out_of_stock
  | sync_success, sync_success => true
  | _, _ => false
  end.

Module Alert.
Record t : Type := mk {
  id : string;
  medicineId : string;
  medicineName : string;
  boxName : string;
  type : AlertType;
  message : string;
  isRead : bool;
  createdAt : Z
}.

Definition with_isRead (a : t) (r : bool) : t :=
  mk (id a) (medicineId a) (medicineName a) (boxName a) (type a)
     (message a) r (createdAt a).
End Alert.

(** ** Rendering an instant in UTC

    [Date.prototype.toTimeString] and [toDateString] depend on the time
    zone of the browser; the engine below takes them as parameters.  The
    UTC renderings defined here instantiate them on concrete inputs. *)

Module Utc.

Definition msPerDay : Z := 86400000.

Definition pad2 (n : Z) : string :=
  if n <? 10 then "0" ++ JsString.ofNumber n else JsString.ofNumber n.

Definition pad4 (n : Z) : string :=
  if n <? 10 then "000" ++ JsString.ofNumber n
  else if n <? 100 then "00" ++ JsString.ofNumber n
  else if n <? 1000 then "0" ++ JsString.ofNumber n
  else JsString.ofNumber n.

Definition dayName (d : Z) : string :=
  nth (Z.to_nat d) ["Sun"; "Mon"; "Tue"; "Wed"; "Thu"; "Fri"; "Sat"] "".

Definition monthName (m : Z) : string :=
  nth (Z.to_nat (m - 1))
      ["Jan"; "Feb"; "Mar"; "Apr"; "May"; "Jun";
       "Jul"; "Aug"; "Sep"; "Oct"; "Nov"; "Dec"] "".

(** Year, month and day of the proleptic Gregorian calendar from the
    number of days since 1970-01-01. *)
Definition civil (days : Z) : Z * Z * Z :=
  let z := days + 719468 in
  let era := z / 146097 in
  let doe := z - era * 146097 in
  let yoe := (doe - doe / 1460 + doe / 36524 - doe / 146096) / 365 in
  let doy := doe - (365 * yoe + yoe / 4 - yoe / 100) in
  let mp := (5 * doy + 2) / 153 in
  let d := doy - (153 * mp + 2) / 5 + 1 in
  let m := if mp <? 10 then mp + 3 else mp - 9 in
  let y := yoe + era * 400 + (if m <=? 2 then 1 else 0) in
  (y, m, d).

Definition toDateString (t : Z) : string :=
  let days := t / msPerDay in
  let '(y, m, d) := civil days in
  dayName ((days + 4) mod 7) ++ " " ++ monthName m ++ " " ++ pad2 d
    ++ " " ++ pad4 y.

Definition toTimeString (t : Z) : string :=
  let ms := t mod msPerDay in
  pad2 (ms / 3600000) ++ ":" ++ pad2 (ms / 60000 mod 60) ++ ":"
    ++ pad2 (ms / 1000 mod 60) ++ " GMT+0000 (Coordinated Universal Time)".

End Utc.

(** ** The world: localStorage, the identifier stream, the effect log *)

Inductive StorageKey : Type := MEDICINE_BOXES | ALERTS.

Inductive Effect : Type :=
  | Saved (key : StorageKey)
  | Warned (msg : string)
  | Reloaded.

Record World : Type := mkWorld {
  stored_boxes : list MedicineBox.t;
  stored_alerts : list Alert.t;
  random : nat -> string;
  drawn : nat;
  effects : list Effect
}.

(** What survives in localStorage. *)
Definition persisted (w : World) : list MedicineBox.t * list Alert.t :=
  (stored_boxes w, stored_alerts w).

(** A computation over the world that may throw an [Error]. *)
Definition M (A : Type) : Type := World -> (string + A) * World.

Definition ret {A} (a : A) : M A := fun w => (inr a, w).

Definition bind {A B} (c : M A) (k : A -> M B) : M B :=
  fun w => match c w with
           | (inl e, w') => (inl e, w')
           | (inr a, w') => k a w'
           end.

Definition throw {A} (msg : string) : M A := fun w => (inl msg, w).

Notation "x <- c ;; k" := (bind c (fun x => k))
  (at level 61, c at next level, right associativity).
Notation "c ;;; k" := (bind c (fun _ => k))
  (at level 61, right associativity).

Definition getMedicineBoxesFromStorage : M (list MedicineBox.t) :=
  fun w => (inr (stored_boxes w), w).

Definition getAlertsFromStorage : M (list Alert.t) :=
  fun w => (inr (stored_alerts w), w).

Definition saveBoxes (v : list MedicineBox.t) : M unit :=
  fun w => (inr tt, mkWorld v (stored_alerts w) (random w) (drawn w)
                            (effects w ++ [Saved MEDICINE_BOXES])).

Definition saveAlerts (v : list Alert.t) : M unit :=
  fun w => (inr tt, mkWorld (stored_boxes w) v (random w) (drawn w)
                            (effects w ++ [Saved ALERTS])).

Definition randomId : M string :=
  fun w => (inr (random w (drawn w)),
            mkWorld (stored_boxes w) (stored_alerts w) (random w)
                    (S (drawn w)) (effects w)).

Definition setDrawn (n : nat) : M unit :=
  fun w => (inr tt, mkWorld (stored_boxes w) (stored_alerts w) (random w)
                            n (effects w)).

Definition emit (e : Effect) : M unit :=
  fun w => (inr tt, mkWorld (stored_boxes w) (stored_alerts w) (random w)
                            (drawn w) (effects w ++ [e])).

(** [xs.findIndex(p)], with [None] for -1. *)
Fixpoint findIndex {A} (p : A -> bool) (xs : list A) : option nat :=
  match xs with
  | [] => None
  | x :: r => if p x then Some O
              else match findIndex p r with
                   | Some i => Some (S i)
                   | None => None
                   end
  end.

(** [xs[i] = f(xs[i])] for an index inside the array. *)
Fixpoint updateAt {A} (i : nat) (f : A -> A) (xs : list A) : list A :=
  match xs, i with
  | [], _ => []
  | x :: r, O => f x :: r
  | x :: r, S j => x :: updateAt j f r
  end.

(** [o || d] for an optional string: undefined and the empty string are
    falsy. *)
Definition orElse (o : option string) (d : string) : string :=
  match o with
  | Some s => if String.eqb s "" then d else s
  | None => d
  end.

(** ** The alert and schedule engine *)

(** How the browser renders an instant in local time. *)
Record Locale : Type := mkLocale {
  toTimeString : Z -> string;
  toDateString : Z -> string
}.

Definition utc : Locale := mkLocale Utc.toTimeString Utc.toDateString.

(** The two arrays a tick fills, [alerts] (loaded from storage) and
    [newAlerts], and the number of identifiers drawn so far. *)
Record Tick : Type := mkTick {
  alerts : list Alert.t;
  newAlerts : list Alert.t;
  draws : nat
}.

(** [newAlerts.push(a); alerts.push(a)] after drawing the alert's id. *)
Definition push (a : Alert.t) (tk : Tick) : Tick :=
  mkTick (alerts tk ++ [a]) (newAlerts tk ++ [a]) (S (draws tk)).

(** [medicine.scheduleTime.split(',').map(time => time.trim())]. *)
Definition scheduleTimes (medicine : Medicine.t) : list string :=
  map JsString.trim (JsString.split ","%char (Medicine.scheduleTime medicine)).

Definition currentTime (L : Locale) (now : Z) : string :=
  JsString.slice05 (toTimeString L now).

Definition currentDate (L : Locale) (now : Z) : string :=
  toDateString L now.

(** The predicate of [existingTimeAlert]: the de-duplication key of a
    dose. *)
Definition isTimeAlertFor (L : Locale) (now : Z) (medicineId scheduleTime : string)
    (alert : Alert.t) : bool :=
  String.eqb (Alert.medicineId alert) medicineId
  && AlertType_eqb (Alert.type alert) medicine_time
  && String.eqb (toDateString L (Alert.createdAt alert)) (currentDate L now)
  && JsString.includes (Alert.message alert) scheduleTime.

(** The predicate of [existingLowAlert] in the dose tick and in
    [addMedicine]: an unread low-count alert of the medicine. *)
Definition isUnreadLowAlertFor (medicineId : string) (alert : Alert.t) : bool :=
  String.eqb (Alert.medicineId alert) medicineId
  && AlertType_eqb (Alert.type alert) low_count
  && negb (Alert.isRead alert).

Definition timeAlert (now : Z) (id : string) (box : MedicineBox.t)
    (medicine : Medicine.t) (scheduleTime : string) : Alert.t :=
  Alert.mk id (Medicine.id medicine) (Medicine.name medicine)
    (MedicineBox.name box) medicine_time
    ("Time to take your " ++ Medicine.name medicine ++ " (" ++ scheduleTime
       ++ "). " ++ orElse (Medicine.customMessage medicine) "Take as prescribed.")
    false now.

Definition lowCountAlert (now : Z) (id : string) (box : MedicineBox.t)
    (medicine : Medicine.t) : Alert.t :=
  Alert.mk id (Medicine.id medicine) (Medicine.name medicine)
    (MedicineBox.name box) low_count
    (Medicine.name medicine ++ " is running low ("
       ++ JsString.ofNumber (Medicine.currentCount medicine)
       ++ " pills remaining). Time to refill!")
    false now.

Definition outOfStockAlert (now : Z) (id : string) (box : MedicineBox.t)
    (medicine : Medicine.t) : Alert.t :=
  Alert.mk id (Medicine.id medicine) (Medicine.name medicine)
    (MedicineBox.name box) out_of_stock
    (Medicine.name medicine ++ " is out of stock! Please refill immediately.")
    false now.

(** The body of [scheduleTimes.forEach] in [checkMedicineTimes].
    [Math.max(0, medicine.currentCount - 1)] is computed on integers: it
    is the code's value for every count up to [2 ^ 53], where the
    difference of the two floats is exact. *)
Definition stepScheduleTime (L : Locale) (now : Z) (rand : nat -> string)
    (box : MedicineBox.t) (st : Medicine.t * Tick) (scheduleTime : string)
    : Medicine.t * Tick :=
  let (medicine, tk) := st in
  if String.eqb scheduleTime (currentTime L now)
     && (0 <? Medicine.currentCount medicine)
  then
    if existsb (isTimeAlertFor L now (Medicine.id medicine) scheduleTime) (alerts tk)
    then st
    else
      let medicine :=
        Medicine.with_updatedAt
          (Medicine.with_currentCount medicine
             (Z.max 0 (Medicine.currentCount medicine - 1)))
          now in
      let tk := push (timeAlert now (rand (draws tk)) box medicine scheduleTime) tk in
      let tk :=
        if (Medicine.currentCount medicine <=? 3) && (0 <? Medicine.currentCount medicine)
        then
          if existsb (isUnreadLowAlertFor (Medicine.id medicine)) (alerts tk)
          then tk
          else push (lowCountAlert now (rand (draws tk)) box medicine) tk
        else tk in
      let tk :=
        if Medicine.currentCount medicine =? 0
        then push (outOfStockAlert now (rand (draws tk)) box medicine) tk
        else tk in
      (medicine, tk)
  else st.

(** The body of [box.medicines.forEach]: the medicine object is mutated
    in place while its schedule tokens are walked. *)
Definition stepMedicine (L : Locale) (now : Z) (rand : nat -> string)
    (box : MedicineBox.t) (medicine : Medicine.t) (tk : Tick)
    : Medicine.t * Tick :=
  fold_left (stepScheduleTime L now rand box) (scheduleTimes medicine)
            (medicine, tk).

Fixpoint forEachMedicine (L : Locale) (now : Z) (rand : nat -> string)
    (box : MedicineBox.t) (ms : list Medicine.t) (tk : Tick)
    : list Medicine.t * Tick :=
  match ms with
  | [] => ([], tk)
  | m :: rest =>
      let (m', tk1) := stepMedicine L now rand box m tk in
      let (rest', tk2) := forEachMedicine L now rand box rest tk1 in
      (m' :: rest', tk2)
  end.

Fixpoint forEachBox (L : Locale) (now : Z) (rand : nat -> string)
    (bs : list MedicineBox.t) (tk : Tick) : list MedicineBox.t * Tick :=
  match bs with
  | [] => ([], tk)
  | b :: rest =>
      let (ms', tk1) := forEachMedicine L now rand b (MedicineBox.medicines b) tk in
      let (rest', tk2) := forEachBox L now rand rest tk1 in
      (MedicineBox.with_medicines b ms' :: rest', tk2)
  end.

(** [dataService.checkMedicineTimes()], run at the instant [now]. *)
Definition checkMedicineTimes (L : Locale) (now : Z) : M (list Alert.t) :=
  boxes <- getMedicineBoxesFromStorage ;;
  stored <- getAlertsFromStorage ;;
  fun w =>
    let (boxes', tk) :=
      forEachBox L now (random w) boxes (mkTick stored [] (drawn w)) in
    (setDrawn (draws tk) ;;;
     saveBoxes boxes' ;;;
     saveAlerts (alerts tk) ;;;
     ret (newAlerts tk)) w.

(** *** The low-stock tick *)

(** The value of a division of two integers as a JavaScript number, before
    it is rounded to a float: the exact quotient, or what a zero divisor
    gives.  For operands below [2 ^ 52] in absolute value the rounded
    quotient compares with 0, 3 and 7 as the exact one does. *)
Inductive jsnum : Type :=
  | Finite (q : Q)
  | PosInfinity
  | NegInfinity
  | NaN.

Definition jsdiv (a b : Z) : jsnum :=
  if b =? 0 then
    if 0 <? a then PosInfinity else if a <? 0 then NegInfinity else NaN
  else Finite (inject_Z a / inject_Z b)%Q.

(** [x <= 3] and [x > 0] on a JavaScript number. *)
Definition jsle3 (x : jsnum) : bool :=
  match x with
  | Finite q => Qle_bool q 3
  | NegInfinity => true
  | PosInfinity | NaN => false
  end.

Definition jsgt0 (x : jsnum) : bool :=
  match x with
  | Finite q => negb (Qle_bool q 0)
  | PosInfinity => true
  | NegInfinity | NaN => false
  end.

Definition daysRemaining (medicine : Medicine.t) : jsnum :=
  jsdiv (Medicine.currentCount medicine) (Medicine.timesPerDay medicine).

(** The predicate of [existingAlert] in [checkLowMedicines]: read or not. *)
Definition isLowAlertFor (medicineId : string) (alert : Alert.t) : bool :=
  String.eqb (Alert.medicineId alert) medicineId
  && AlertType_eqb (Alert.type alert) low_count.

(** The body of [box.medicines.forEach] in [checkLowMedicines]. *)
Definition stepLowMedicine (now : Z) (rand : nat -> string)
    (box : MedicineBox.t) (tk : Tick) (medicine : Medicine.t) : Tick :=
  if jsle3 (daysRemaining medicine) && jsgt0 (daysRemaining medicine) then
    if existsb (isLowAlertFor (Medicine.id medicine)) (alerts tk) then tk
    else push (lowCountAlert now (rand (draws tk)) box medicine) tk
  else tk.

Definition stepLowBox (now : Z) (rand : nat -> string) (tk : Tick)
    (box : MedicineBox.t) : Tick :=
  fold_left (stepLowMedicine now rand box) (MedicineBox.medicines box) tk.

(** [dataService.checkLowMedicines()], run at the instant [now]. *)
Definition checkLowMedicines (now : Z) : M (list Alert.t) :=
  boxes <- getMedicineBoxesFromStorage ;;
  stored <- getAlertsFromStorage ;;
  fun w =>
    let tk := fold_left (stepLowBox now (random w)) boxes
                        (mkTick stored [] (drawn w)) in
    (setDrawn (draws tk) ;;;
     saveAlerts (alerts tk) ;;;
     ret (newAlerts tk)) w.

(** ** The data service: boxes, medicines, alerts *)

Definition hasId (id : string) (box : MedicineBox.t) : bool :=
  String.eqb (MedicineBox.id box) id.

Definition medHasId (id : string) (med : Medicine.t) : bool :=
  String.eqb (Medicine.id med) id.

(** [updates] stands for the spread [{...box, ...updates}] of a
    [Partial<MedicineBox>] over a box. *)
Definition updateMedicineBox (now : Z) (id : string)
    (updates : MedicineBox.t -> MedicineBox.t) : M MedicineBox.t :=
  boxes <- getMedicineBoxesFromStorage ;;
  match findIndex (hasId id) boxes with
  | None => throw "Medicine box not found"
  | Some index =>
      let boxes :=
        updateAt index (fun b => MedicineBox.with_updatedAt (updates b) now) boxes in
      saveBoxes boxes ;;;
      match nth_error boxes index with
      | Some b => ret b
      | None => throw "TypeError"
      end
  end.

(** The predicate [belongsToDeletedBox] of [deleteMedicineBox]. *)
Definition belongsToDeletedBox (boxToDelete : MedicineBox.t) (alert : Alert.t) : bool :=
  String.eqb (Alert.boxName alert) (MedicineBox.name boxToDelete)
  || existsb (fun med => String.eqb (Medicine.id med) (Alert.medicineId alert))
             (MedicineBox.medicines boxToDelete).

Definition deleteMedicineBox (id : string) : M unit :=
  boxes <- getMedicineBoxesFromStorage ;;
  match find (hasId id) boxes with
  | None => emit (Warned ("No medicine box found with id: " ++ id))
  | Some boxToDelete =>
      saveBoxes (filter (fun box => negb (hasId id box)) boxes) ;;;
      stored <- getAlertsFromStorage ;;
      saveAlerts (filter (fun alert => negb (belongsToDeletedBox boxToDelete alert))
                         stored) ;;;
      emit Reloaded
  end.

(** [medicineData] carries the fields of the form; its [id], [createdAt]
    and [updatedAt] are overwritten. *)
Definition addMedicine (now : Z) (boxId : string) (medicineData : Medicine.t)
    : M Medicine.t :=
  boxes <- getMedicineBoxesFromStorage ;;
  newId <- randomId ;;
  let newMedicine :=
    Medicine.mk newId (Medicine.name medicineData)
      (Medicine.timesPerDay medicineData) (Medicine.totalCount medicineData)
      (Medicine.currentCount medicineData) (Medicine.customMessage medicineData)
      (Medicine.scheduleTime medicineData) now now in
  match findIndex (hasId boxId) boxes with
  | None => throw "Medicine box not found"
  | Some boxIndex =>
      match nth_error boxes boxIndex with
      | None => throw "TypeError"
      | Some box =>
          let boxes :=
            updateAt boxIndex
              (fun b => MedicineBox.with_updatedAt
                          (MedicineBox.with_medicines b
                             (MedicineBox.medicines b ++ [newMedicine])) now)
              boxes in
          stored <- getAlertsFromStorage ;;
          stored <-
            (if (Medicine.currentCount newMedicine <=? 3)
                && (0 <? Medicine.currentCount newMedicine)
             then
               if existsb (isUnreadLowAlertFor (Medicine.id newMedicine)) stored
               then ret stored
               else alertId <- randomId ;;
                    ret (stored ++ [lowCountAlert now alertId box newMedicine])%list
             else ret stored) ;;
          saveBoxes boxes ;;;
          saveAlerts stored ;;;
          ret newMedicine
      end
  end.

(** [updates] stands for the spread of a [Partial<Medicine>]. *)
Definition updateMedicine (now : Z) (boxId medicineId : string)
    (updates : Medicine.t -> Medicine.t) : M Medicine.t :=
  boxes <- getMedicineBoxesFromStorage ;;
  match findIndex (hasId boxId) boxes with
  | None => throw "Medicine box not found"
  | Some boxIndex =>
      match nth_error boxes boxIndex with
      | None => throw "TypeError"
      | Some box =>
          match findIndex (medHasId medicineId) (MedicineBox.medicines box) with
          | None => throw "Medicine not found"
          | Some medicineIndex =>
              let meds :=
                updateAt medicineIndex
                  (fun m => Medicine.with_updatedAt (updates m) now)
                  (MedicineBox.medicines box) in
              saveBoxes
                (updateAt boxIndex
                   (fun b => MedicineBox.with_updatedAt
                               (MedicineBox.with_medicines b meds) now)
                   boxes) ;;;
              match nth_error meds medicineIndex with
              | Some m => ret m
              | None => throw "TypeError"
              end
          end
      end
  end.

Definition deleteMedicine (now : Z) (boxId medicineId : string) : M unit :=
  boxes <- getMedicineBoxesFromStorage ;;
  match findIndex (hasId boxId) boxes with
  | None => throw "Medicine box not found"
  | Some boxIndex =>
      saveBoxes
        (updateAt boxIndex
           (fun b => MedicineBox.with_updatedAt
                       (MedicineBox.with_medicines b
                          (filter (fun med => negb (medHasId medicineId med))
                                  (MedicineBox.medicines b))) now)
           boxes) ;;;
      stored <- getAlertsFromStorage ;;
      saveAlerts
        (filter (fun alert => negb (String.eqb (Alert.medicineId alert) medicineId))
                stored)
  end.

(** [dataService.getAlerts(userId)], run at the instant [now]. *)
Definition getAlerts (now : Z) (userId : string) : M (list Alert.t) :=
  stored <- getAlertsFromStorage ;;
  let oneDayAgo := now - 24 * 60 * 60 * 1000 in
  let recentAlerts := filter (fun alert => oneDayAgo <? Alert.createdAt alert) stored in
  (if negb (Nat.eqb (List.length recentAlerts) (List.length stored))
   then saveAlerts recentAlerts
   else ret tt) ;;;
  ret recentAlerts.

(** [alerts.find] yields the array's own element, so [alert.isRead = true]
    writes through to the array that is filtered and saved. *)
Definition markAlertAsRead (alertId : string) : M unit :=
  stored <- getAlertsFromStorage ;;
  match findIndex (fun a => String.eqb (Alert.id a) alertId) stored with
  | Some i =>
      saveAlerts
        (filter (fun a => negb (Alert.isRead a))
                (updateAt i (fun a => Alert.with_isRead a true) stored))
  | None => ret tt
  end.

(** ** The device client ([ESP32Service]) *)

Module ESP32Service.

(** How the [fetch] of a request ends: a response with its status, a
    network error, or the abort of [AbortSignal.timeout]. *)
Inductive FetchOutcome : Type :=
  | Responded (status : Z) (statusText : string)
  | NetworkError
  | TimedOut.

(** [response.ok]. *)
Definition ok (status : Z) : bool := (200 <=? status) && (status <=? 299).

Record Result : Type := mkResult {
  success : bool;
  message : string
}.

Definition disconnect (ipAddress : string) (outcome : FetchOutcome) : Result :=
  match outcome with
  | Responded status _ =>
      mkResult (ok status)
               (if ok status then "Disconnected successfully"
                else "Disconnect signal failed")
  | NetworkError | TimedOut =>
      mkResult true "Disconnected (device unreachable)"
  end.

End ESP32Service.

(** ** The wording of the specification *)

(** Every medicine of every box, in the order the ticks walk them. *)
Definition allMedicines (boxes : list MedicineBox.t) : list Medicine.t :=
  flat_map MedicineBox.medicines boxes.

(** The medicine at index [j] of the box at index [i]. *)
Definition medicineAt (boxes : list MedicineBox.t) (i j : nat) : option Medicine.t :=
  match nth_error boxes i with
  | Some b => nth_error (MedicineBox.medicines b) j
  | None => None
  end.

(** "0 < daysRemaining <= 3", with [daysRemaining] the real-valued
    quotient [currentCount / timesPerDay]. *)
Definition lowStockSpec (medicine : Medicine.t) : Prop :=
  (0 < inject_Z (Medicine.currentCount medicine)
       / inject_Z (Medicine.timesPerDay medicine)
   /\ inject_Z (Medicine.currentCount medicine)
       / inject_Z (Medicine.timesPerDay medicine) <= 3)%Q.

(** "A [medicine_time] alert for this medicine, this schedule token and
    today's date exists": the de-duplication key of the dose tick. *)
Definition timeAlertExists (L : Locale) (now : Z) (medicineId token : string)
    (stored : list Alert.t) : Prop :=
  exists a, In a stored
    /\ Alert.medicineId a = medicineId
    /\ Alert.type a = medicine_time
    /\ toDateString L (Alert.createdAt a) = toDateString L now
    /\ JsString.includes (Alert.message a) token = true.

(** The alerts of a list that reference a medicine id. *)
Definition alertsOf (medicineId : string) (l : list Alert.t) : list Alert.t :=
  filter (fun a => String.eqb (Alert.medicineId a) medicineId) l.

(** ** Notions of the proofs *)

(** The filter of [markAlertAsRead]. *)
Definition unread (a : Alert.t) : bool := negb (Alert.isRead a).

(** The guard of [checkLowMedicines]: [daysRemaining <= 3 && daysRemaining > 0]. *)
Definition lowStock (medicine : Medicine.t) : bool :=
  jsle3 (daysRemaining medicine) && jsgt0 (daysRemaining medicine).

(** What walking the medicines [ms] does to the two arrays. *)
Definition LowRun (ms : list Medicine.t) (tk tk' : Tick) : Prop :=
  exists added,
    alerts tk' = (alerts tk ++ added)%list
    /\ newAlerts tk' = (newAlerts tk ++ added)%list
    /\ (forall a, In a added ->
          Alert.type a = low_count
          /\ exists m, In m ms /\ Alert.medicineId a = Medicine.id m
                       /\ lowStock m = true
                       /\ existsb (isLowAlertFor (Medicine.id m)) (alerts tk) = false)
    /\ (forall m, In m ms -> lowStock m = true ->
          existsb (isLowAlertFor (Medicine.id m)) (alerts tk') = true).

(** The kinds of the alerts a deduction emits, from the count it leaves
    and whether an unread low-count alert is already there. *)
Definition emitted (count : Z) (unreadLow : bool) : list AlertType :=
  (medicine_time
     :: (if (count <=? 3) && (0 <? count)
         then if unreadLow then [] else [low_count]
         else [])
     ++ (if count =? 0 then [out_of_stock] else []))%list.

(** The arrays grew by alerts of other medicines only. *)
Definition Miss (i : string) (tk tk' : Tick) : Prop :=
  exists added,
    alerts tk' = (alerts tk ++ added)%list
    /\ newAlerts tk' = (newAlerts tk ++ added)%list
    /\ (forall a, In a added -> Alert.medicineId a <> i).

(** The arrays grew, and the new alerts of medicine [m] are those of one
    deduction. *)
Definition Hit (m : Medicine.t) (unreadLow : bool) (tk tk' : Tick) : Prop :=
  exists added,
    alerts tk' = (alerts tk ++ added)%list
    /\ newAlerts tk' = (newAlerts tk ++ added)%list
    /\ map Alert.type (alertsOf (Medicine.id m) added)
       = emitted (Medicine.currentCount m - 1) unreadLow.

(** The ranges on which the integer arithmetic of the model is the
    floating-point arithmetic of the code.  Up to [2 ^ 53] every integer
    is a float and so is its predecessor; above, [currentCount - 1] is
    rounded to an even neighbour (at [2 ^ 53 + 2] the code stores
    [2 ^ 53]). *)
Definition exactDecrement (medicine : Medicine.t) : Prop :=
  Medicine.currentCount medicine <= 2 ^ 53.

(** With both operands below [2 ^ 52] in absolute value, a quotient
    [currentCount / timesPerDay] above 3 (or 7) exceeds it by more than
    half the distance to the next float, so the rounded quotient is above
    3 (or 7) too; beyond, it need not be ([3 * t + 1] over
    [t = 2 ^ 52 + 1] rounds to 3). *)
Definition exactQuotient (medicine : Medicine.t) : Prop :=
  Z.abs (Medicine.currentCount medicine) < 2 ^ 52
  /\ Z.abs (Medicine.timesPerDay medicine) < 2 ^ 52.

Section Notions.
Variable L : Locale.
Variable now : Z.

(** The dose of the current minute is recorded for this medicine. *)
Definition hasTimeAlert (medicineId : string) (l : list Alert.t) : bool :=
  existsb (isTimeAlertFor L now medicineId (currentTime L now)) l.

(** A medicine is due when the current minute is one of its schedule
    tokens, it has pills left, and the dose has not been recorded. *)
Definition due (m : Medicine.t) (l : list Alert.t) : bool :=
  existsb (String.eqb (currentTime L now)) (scheduleTimes m)
  && (0 <? Medicine.currentCount m)
  && negb (hasTimeAlert (Medicine.id m) l).

(** The medicine after a deduction. *)
Definition deducted (m : Medicine.t) : Medicine.t :=
  Medicine.with_updatedAt
    (Medicine.with_currentCount m (Z.max 0 (Medicine.currentCount m - 1))) now.

(** What a deduction leaves behind, seen from the medicine it hits. *)
Definition Fired (m : Medicine.t) (tk tk' : Tick) : Prop :=
  exists added,
    alerts tk' = (alerts tk ++ added)%list
    /\ newAlerts tk' = (newAlerts tk ++ added)%list
    /\ (forall a, In a added -> Alert.medicineId a = Medicine.id m)
    /\ map Alert.type added
       = emitted (Medicine.currentCount m - 1)
                 (existsb (isUnreadLowAlertFor (Medicine.id m)) (alerts tk))
    /\ hasTimeAlert (Medicine.id m) (alerts tk') = true.

(** A medicine after the tick: as it was, or one pill lower. *)
Definition Stepped (m m' : Medicine.t) : Prop :=
  m' = m \/ (0 < Medicine.currentCount m /\ m' = deducted m).

(** What walking the medicines [ms] does to them and to the two arrays. *)
Definition DoseRun (ms ms' : list Medicine.t) (tk tk' : Tick) : Prop :=
  exists added,
    alerts tk' = (alerts tk ++ added)%list
    /\ newAlerts tk' = (newAlerts tk ++ added)%list
    /\ Forall2 Stepped ms ms'
    /\ (forall a, In a added -> exists x, In x ms /\ Alert.medicineId a = Medicine.id x)
    /\ (forall m', In m' ms' -> due m' (alerts tk') = false).

(** A box after the tick: the same box around its stepped medicines. *)
Definition BoxStepped (b b' : MedicineBox.t) : Prop :=
  exists ms', b' = MedicineBox.with_medicines b ms'
              /\ Forall2 Stepped (MedicineBox.medicines b) ms'.

End Notions.

(** ** Sample data: the default boxes and alerts of the service *)

Module Sample.

(** Mon Nov 02 2026, 08:00:00 UTC. *)
Definition eightOClock : Z := 1793606400000.

Definition jan (d : Z) : Z := 1704067200000 + (d - 1) * 86400000.

Definition kitchen : MedicineBox.t :=
  MedicineBox.mk "1" "Kitchen Medicine Box" "ESP32_001_AA:BB:CC:DD:EE:FF"
    "192.168.1.101" "1"
    [ Medicine.mk "1" "Vitamin D" 1 30 5 (Some "Take with breakfast")
        "08:00" (jan 1) (jan 1);
      Medicine.mk "2" "Blood Pressure Pills" 2 60 15 (Some "Take with water")
        "08:00,20:00" (jan 1) (jan 1) ]
    true (Some (jan 10)) (jan 1) (jan 1).

Definition bedroom : MedicineBox.t :=
  MedicineBox.mk "2" "Bedroom Medicine Box" "ESP32_002_FF:EE:DD:CC:BB:AA"
    "192.168.1.102" "1"
    [ Medicine.mk "3" "Melatonin" 1 30 20 (Some "Take 30 minutes before bed")
        "22:00" (jan 2) (jan 2) ]
    true (Some (jan 10)) (jan 2) (jan 2).

Definition travel : MedicineBox.t :=
  MedicineBox.mk "3" "Travel Medicine Box" "ESP32_003_11:22:33:44:55:66"
    "192.168.1.103" "1"
    [ Medicine.mk "4" "Pain Relief" 3 24 8 (Some "Take with food")
        "08:00,14:00,20:00" (jan 3) (jan 3) ]
    false None (jan 3) (jan 3).

Definition boxes : list MedicineBox.t := [kitchen; bedroom; travel].

Definition lowVitaminD (isRead : bool) (createdAt : Z) : Alert.t :=
  Alert.mk "1" "1" "Vitamin D" "Kitchen Medicine Box" low_count
    "Vitamin D is running low (5 pills remaining). Time to refill!"
    isRead createdAt.

Definition ids (n : nat) : string := "id" ++ JsString.ofNumber (Z.of_nat n).

Definition world : World :=
  mkWorld boxes [lowVitaminD false (eightOClock - 3600000)] ids 0 [].

(** A shelf whose medicines hold four pills and one pill. *)
Definition shelf : MedicineBox.t :=
  MedicineBox.mk "9" "Shelf" "ESP32_009" "192.168.1.109" "1"
    [ Medicine.mk "a" "Aspirin" 1 30 4 None "08:00" (jan 4) (jan 4);
      Medicine.mk "b" "Biotin" 1 30 1 None "07:30, 08:00" (jan 4) (jan 4) ]
    true None (jan 4) (jan 4).

Definition shelfWorld : World := mkWorld [kitchen; shelf] [] ids 0 [].

(** An alert created 25 hours before [eightOClock], one 23 hours before,
    the second already read. *)
Definition agedWorld : World :=
  mkWorld boxes
    [ lowVitaminD false (eightOClock - 25 * 3600000);
      Alert.mk "2" "4" "Pain Relief" "Travel Medicine Box" refill_needed
        "Pain Relief needs a refill" true (eightOClock - 23 * 3600000) ]
    ids 0 [].

End Sample.

(** ** The rest of the data service *)

(** [xs.join(sep)]. *)
Fixpoint join (sep : string) (xs : list string) : string :=
  match xs with
  | [] => ""
  | [x] => x
  | x :: rest => x ++ sep ++ join sep rest
  end.

Definition setIsConnected (b : MedicineBox.t) (c : bool) : MedicineBox.t :=
  MedicineBox.mk (MedicineBox.id b) (MedicineBox.name b) (MedicineBox.boxId b)
    (MedicineBox.ipAddress b) (MedicineBox.userId b) (MedicineBox.medicines b)
    c (MedicineBox.lastSyncAt b) (MedicineBox.createdAt b) (MedicineBox.updatedAt b).

Definition setLastSyncAt (b : MedicineBox.t) (d : option Z) : MedicineBox.t :=
  MedicineBox.mk (MedicineBox.id b) (MedicineBox.name b) (MedicineBox.boxId b)
    (MedicineBox.ipAddress b) (MedicineBox.userId b) (MedicineBox.medicines b)
    (MedicineBox.isConnected b) d (MedicineBox.createdAt b) (MedicineBox.updatedAt b).

(** [box => box.boxId === boxId]: the device identifier, not the box id. *)
Definition hasBoxId (boxId : string) (box : MedicineBox.t) : bool :=
  String.eqb (MedicineBox.boxId box) boxId.

Definition getMedicineBoxes (userId : string) : M (list MedicineBox.t) :=
  boxes <- getMedicineBoxesFromStorage ;;
  ret (filter (fun box => String.eqb (MedicineBox.userId box) userId) boxes).

(** [boxData] carries the fields of the form; its [id], [createdAt] and
    [updatedAt] are overwritten. *)
Definition createMedicineBox (now : Z) (boxData : MedicineBox.t) : M MedicineBox.t :=
  boxes <- getMedicineBoxesFromStorage ;;
  newId <- randomId ;;
  let newBox :=
    MedicineBox.mk newId (MedicineBox.name boxData) (MedicineBox.boxId boxData)
      (MedicineBox.ipAddress boxData) (MedicineBox.userId boxData)
      (MedicineBox.medicines boxData) (MedicineBox.isConnected boxData)
      (MedicineBox.lastSyncAt boxData) now now in
  saveBoxes (boxes ++ [newBox]) ;;;
  ret newBox.

Definition markAllAlertsAsRead (userId : string) : M unit :=
  stored <- getAlertsFromStorage ;;
  saveAlerts (map (fun alert => Alert.with_isRead alert true) stored).

Definition deleteAlert (alertId : string) : M unit :=
  stored <- getAlertsFromStorage ;;
  saveAlerts (filter (fun alert => negb (String.eqb (Alert.id alert) alertId)) stored).

(** [boxes.find] yields the array's own element, which is then mutated
    and saved with the array. *)
Definition toggleESP32Connection (now : Z) (boxId : string) : M MedicineBox.t :=
  boxes <- getMedicineBoxesFromStorage ;;
  match findIndex (hasBoxId boxId) boxes with
  | None => throw "Medicine box not found"
  | Some i =>
      let boxes :=
        updateAt i
          (fun box =>
             let box :=
               MedicineBox.with_updatedAt
                 (setIsConnected box (negb (MedicineBox.isConnected box))) now in
             if MedicineBox.isConnected box then setLastSyncAt box (Some now)
             else box)
          boxes in
      saveBoxes boxes ;;;
      match nth_error boxes i with
      | Some box => ret box
      | None => throw "TypeError"
      end
  end.

(** ** The other requests of the device client *)

Module SyncData.
Record entry : Type := mkEntry {
  id : string;
  name : string;
  times : list string;
  message : string
}.

Record t : Type := mk {
  boxId : string;
  medicines : list entry
}.
End SyncData.

(** A body of [POST /sync] other than [null], as [syncMedicines] reads
    it: whether its [status] is "success" ([error] stands for every other
    status), and its [message], empty when it has none. *)
Module ESP32Response.
Inductive Status : Type := success | error.

Record t : Type := mk {
  boxId : string;
  status : Status;
  message : string;
  currentSchedule : option SyncData.t
}.
End ESP32Response.

Module ESP32.

(** How a request ends: a response with its status and, when
    [response.json()] resolves, its parsed body; a network error; the
    abort of [AbortSignal.timeout]. *)
Inductive Reply (B : Type) : Type :=
  | Answered (status : Z) (statusText : string) (body : option B)
  | Unreachable
  | Aborted.

Arguments Answered {B} status statusText body.
Arguments Unreachable {B}.
Arguments Aborted {B}.

(** What [response.json()] resolves to, as the requests that read a
    property of it see it: [null], on which reading a property throws a
    [TypeError], or any other value, with the properties the code reads. *)
Inductive Body (B : Type) : Type :=
  | Null
  | Value (data : B).

Arguments Null {B}.
Arguments Value {B} data.

(** A body of [GET /health] other than [null], as [testConnection] reads
    it: the text of its [boxId], when it has one. *)
Record HealthData : Type := mkHealth { boxId : option string }.

Record StatusResult (D : Type) : Type := mkStatusResult {
  success : bool;
  data : option D;
  message : string
}.

Arguments mkStatusResult {D} success data message.
Arguments success {D} s.
Arguments data {D} s.
Arguments message {D} s.

Definition testConnection (ipAddress : string) (reply : Reply (Body HealthData))
    : ESP32Service.Result :=
  match reply with
  | Answered status statusText body =>
      if ESP32Service.ok status then
        match body with
        | Some (Value data) =>
            ESP32Service.mkResult true
              ("Connected to ESP32 (" ++ orElse (boxId data) "Unknown ID" ++ ")")
        | Some Null | None =>
            ESP32Service.mkResult false "Connection failed: Device unreachable"
        end
      else
        ESP32Service.mkResult false
          ("HTTP " ++ JsString.ofNumber status ++ ": " ++ statusText)
  | Unreachable | Aborted =>
      ESP32Service.mkResult false "Connection failed: Device unreachable"
  end.

(** The request body of [POST /sync]. *)
Definition syncData (box : MedicineBox.t) : SyncData.t :=
  SyncData.mk (MedicineBox.boxId box)
    (map (fun medicine =>
            SyncData.mkEntry (Medicine.id medicine) (Medicine.name medicine)
              (JsString.split ","%char (Medicine.scheduleTime medicine))
              (orElse (Medicine.customMessage medicine)
                      ("Time to take " ++ Medicine.name medicine)))
         (MedicineBox.medicines box)).

(** [device] is the box at [box.ipAddress]: what it answers to a request
    body. *)
Definition syncMedicines (box : MedicineBox.t)
    (device : SyncData.t -> Reply (Body ESP32Response.t)) : ESP32Service.Result :=
  match device (syncData box) with
  | Answered status _ body =>
      if ESP32Service.ok status then
        match body with
        | Some (Value result) =>
            ESP32Service.mkResult
              (match ESP32Response.status result with
               | ESP32Response.success => true
               | ESP32Response.error => false
               end)
              (orElse (Some (ESP32Response.message result))
                      "Sync completed successfully")
        | Some Null | None =>
            ESP32Service.mkResult false "Sync failed: Unable to reach device"
        end
      else
        ESP32Service.mkResult false
          ("Sync failed: HTTP " ++ JsString.ofNumber status)
  | Unreachable | Aborted =>
      ESP32Service.mkResult false "Sync failed: Unable to reach device"
  end.

(** [getStatus] reads no property of the body: [D] is the type of what
    [response.json()] resolves to, [null] included. *)
Definition getStatus {D : Type} (ipAddress : string) (reply : Reply D)
    : StatusResult D :=
  match reply with
  | Answered status _ body =>
      if ESP32Service.ok status then
        match body with
        | Some d => mkStatusResult true (Some d) "Status retrieved successfully"
        | None => mkStatusResult false None "Status check failed: Device unreachable"
        end
      else
        mkStatusResult false None
          ("Failed to get status: HTTP " ++ JsString.ofNumber status)
  | Unreachable | Aborted =>
      mkStatusResult false None "Status check failed: Device unreachable"
  end.

End ESP32.


Module SyncOutcome.
Record t : Type := mk {
  boxId : string;
  status : string;
  message : string;
  syncedAt : string
}.
End SyncOutcome.



(** A string without a comma, as the time inputs of the form produce. *)
Definition commaFree (t : string) : Prop :=
  ~ In ","%char (list_ascii_of_string t).

(** ** The components that call the services *)

(** [try { ... } catch (error) { toast.error(...) }]: the handler ends
    normally, with the state the failed call left. *)
Definition attempt {A} (c : M A) : M unit :=
  fun w => (inr tt, snd (c w)).

Module MedicineForm.

Record FormData : Type := mkFormData {
  name : string;
  timesPerDay : Z;
  totalCount : Z;
  currentCount : Z;
  customMessage : string;
  scheduleTime : string
}.

(** The two pieces of state of the form. *)
Record State : Type := mkState {
  formData : FormData;
  scheduleTimes : list string
}.

Definition initial : State :=
  mkState (mkFormData "" 1 0 0 "" "") ["08:00"].

(** The effect on [editingMedicine]. *)
Definition edit (editingMedicine : Medicine.t) : State :=
  mkState
    (mkFormData (Medicine.name editingMedicine)
       (Medicine.timesPerDay editingMedicine)
       (Medicine.totalCount editingMedicine)
       (Medicine.currentCount editingMedicine)
       (orElse (Medicine.customMessage editingMedicine) "")
       (Medicine.scheduleTime editingMedicine))
    (JsString.split ","%char (Medicine.scheduleTime editingMedicine)).

(** [defaultTimes[times] || ['08:00']]. *)
Definition defaultTimes (times : Z) : list string :=
  if times =? 1 then ["08:00"]
  else if times =? 2 then ["08:00"; "20:00"]
  else if times =? 3 then ["08:00"; "14:00"; "20:00"]
  else if times =? 4 then ["08:00"; "12:00"; "16:00"; "20:00"]
  else ["08:00"].

(** [times] is [parseInt(value)] of the selected item. *)
Definition handleTimesPerDayChange (times : Z) (s : State) : State :=
  let f := formData s in
  mkState
    (mkFormData (name f) times (totalCount f) (currentCount f)
                (customMessage f) (scheduleTime f))
    (defaultTimes times).

(** The [medicineData] that [handleSubmit] passes to [onSave]. *)
Definition handleSubmit (s : State) : FormData :=
  let f := formData s in
  mkFormData (name f) (timesPerDay f) (totalCount f)
    (if currentCount f =? 0 then totalCount f else currentCount f)
    (customMessage f) (join "," (scheduleTimes s)).

End MedicineForm.

Module App.

(** The spread [{...medicine, ...medicineData}] of [updateMedicine]. *)
Definition spread (medicineData : MedicineForm.FormData) (m : Medicine.t)
    : Medicine.t :=
  Medicine.mk (Medicine.id m) (MedicineForm.name medicineData)
    (MedicineForm.timesPerDay medicineData) (MedicineForm.totalCount medicineData)
    (MedicineForm.currentCount medicineData)
    (Some (MedicineForm.customMessage medicineData))
    (MedicineForm.scheduleTime medicineData)
    (Medicine.createdAt m) (Medicine.updatedAt m).

(** [medicineData] as the argument of [addMedicine], which overwrites the
    [id] and the two dates. *)
Definition asMedicine (medicineData : MedicineForm.FormData) : Medicine.t :=
  spread medicineData (Medicine.mk "" "" 0 0 0 None "" 0 0).

(** The calls of [handleMedicineSaved] to the data service; [editing] is
    [appState.editing]. *)
Definition handleMedicineSaved (now : Z) (box : MedicineBox.t)
    (editing : option Medicine.t) (medicineData : MedicineForm.FormData) : M unit :=
  attempt
    (match editing with
     | Some e =>
         updateMedicine now (MedicineBox.id box) (Medicine.id e) (spread medicineData) ;;;
         ret tt
     | None =>
         addMedicine now (MedicineBox.id box) (asMedicine medicineData) ;;;
         getMedicineBoxes (MedicineBox.userId box) ;;;
         ret tt
     end).

(** [dismissAlert]: the call to the data service, and the update of the
    alerts the view holds. *)
Definition dismissAlert (alertId : string) (view : list Alert.t)
    : M (list Alert.t) :=
  markAlertAsRead alertId ;;;
  ret (filter (fun alert => negb (String.eqb (Alert.id alert) alertId)) view).

End App.

Module Dashboard.

(** The calls of the three box handlers to the services, past the
    [connectingBoxes] / [syncingBoxes] guard; [box] is the copy of the box
    the view holds, and [{...box, isConnected: ...}] carries every field
    of that copy. *)
Definition handleConnectBox (now : Z) (box : MedicineBox.t)
    (reply : ESP32.Reply (ESP32.Body ESP32.HealthData)) : M unit :=
  attempt
    (if ESP32Service.success (ESP32.testConnection (MedicineBox.ipAddress box) reply)
     then updateMedicineBox now (MedicineBox.id box)
            (fun _ => setIsConnected box true) ;;; ret tt
     else ret tt).

Definition handleDisconnectBox (now : Z) (box : MedicineBox.t)
    (outcome : ESP32Service.FetchOutcome) : M unit :=
  attempt
    (let _ := ESP32Service.disconnect (MedicineBox.ipAddress box) outcome in
     updateMedicineBox now (MedicineBox.id box) (fun _ => setIsConnected box false)).

Definition handleSyncBox (now : Z) (box : MedicineBox.t)
    (device : SyncData.t -> ESP32.Reply (ESP32.Body ESP32Response.t)) : M unit :=
  attempt
    (if ESP32Service.success (ESP32.syncMedicines box device)
     then updateMedicineBox now (MedicineBox.id box)
            (fun _ => setLastSyncAt box (Some now)) ;;; ret tt
     else ret tt).

End Dashboard.

Module MedicineList.

(** The calls of [handleSyncWithESP32] to the services: the update
    carries [lastSyncAt] alone. *)
Definition handleSyncWithESP32 (now : Z) (medicineBox : MedicineBox.t)
    (device : SyncData.t -> ESP32.Reply (ESP32.Body ESP32Response.t)) : M unit :=
  attempt
    (if ESP32Service.success (ESP32.syncMedicines medicineBox device)
     then updateMedicineBox now (MedicineBox.id medicineBox)
            (fun b => setLastSyncAt b (Some now)) ;;; ret tt
     else ret tt).

(** [x <= k] on a JavaScript number, for an integer [k]. *)
Definition jsle (x : jsnum) (k : Z) : bool :=
  match x with
  | Finite q => Qle_bool q (inject_Z k)
  | NegInfinity => true
  | PosInfinity | NaN => false
  end.

Record Status : Type := mkStatus {
  color : string;
  text : string
}.

Definition getMedicineStatus (medicine : Medicine.t) : Status :=
  let daysRemaining := daysRemaining medicine in
  if jsle daysRemaining 0 then mkStatus "destructive" "Empty"
  else if jsle daysRemaining 3 then mkStatus "destructive" "Low"
  else if jsle daysRemaining 7 then mkStatus "secondary" "Medium"
  else mkStatus "default" "Good".

End MedicineList.

Module NotificationsDropdown.

(** [formatTime(date)] at the instant [now]; for instants less than a
    hundred thousand years apart the floating-point quotients have the
    floor of the exact ones. *)
Definition formatTime (now date : Z) : string :=
  let diff := now - date in
  let minutes := diff / (1000 * 60) in
  let hours := diff / (1000 * 60 * 60) in
  let days := diff / (1000 * 60 * 60 * 24) in
  if minutes <? 1 then "Just now"
  else if minutes <? 60 then JsString.ofNumber minutes ++ "m ago"
  else if hours <? 24 then JsString.ofNumber hours ++ "h ago"
  else JsString.ofNumber days ++ "d ago".

End NotificationsDropdown.

(** ** Counting pills and alerts *)

(** The pills held by a list of medicines. *)
Definition pills (ms : list Medicine.t) : Z :=
  fold_right (fun m acc => Medicine.currentCount m + acc) 0 ms.

(** The alerts of one kind in a list. *)
Definition ofType (t : AlertType) (l : list Alert.t) : list Alert.t :=
  filter (fun a => AlertType_eqb (Alert.type a) t) l.

(** ** More sample data *)

Module Fixture.

(** A device that accepts every schedule. *)
Definition obliging (_ : SyncData.t) : ESP32.Reply (ESP32.Body ESP32Response.t) :=
  ESP32.Answered 200 "OK"
    (Some (ESP32.Value
             (ESP32Response.mk "ESP32_001" ESP32Response.success
                               "Schedule updated" None))).


(** A medicine that ran out. *)
Definition empty : Medicine.t :=
  Medicine.mk "e" "Empty" 2 30 0 None "08:00,20:00" (Sample.jan 5) (Sample.jan 5).

Definition cupboard : MedicineBox.t :=
  MedicineBox.mk "5" "Cupboard" "ESP32_005" "192.168.1.105" "2" [empty]
    false None (Sample.jan 5) (Sample.jan 5).

Definition cupboardWorld : World :=
  mkWorld [Sample.kitchen; cupboard] [] Sample.ids 0 [].

End Fixture.

(** ** Arrays: [find], [findIndex], [filter], index update *)

Section Arrays.
Context {A : Type}.
Variable p : A -> bool.

Lemma findIndex_None (xs : list A) :
  findIndex p xs = None <-> (forall x, In x xs -> p x = false).
Proof.
  induction xs as [|x r IH]; simpl.
  - split; [intros _ y [] | reflexivity].
  - destruct (p x) eqn:Hx.
    + split; [discriminate | intros H].
      specialize (H x (or_introl eq_refl)). congruence.
    + destruct (findIndex p r) as [i|].
      * split; [discriminate | intros H].
        destruct IH as [_ IH].
        assert (E : Some i = None) by (apply IH; intros y Hy; apply H; now right).
        discriminate E.
      * split; [intros _ y [<-|Hy]; [assumption | now apply IH] | reflexivity].
Qed.

Lemma findIndex_Some (xs : list A) (i : nat) :
  findIndex p xs = Some i ->
  exists x, nth_error xs i = Some x /\ p x = true /\ find p xs = Some x
            /\ (forall y, In y (firstn i xs) -> p y = false).
Proof.
  revert i; induction xs as [|x r IH]; simpl; intros i H; [discriminate|].
  destruct (p x) eqn:Hx.
  - injection H as <-. exists x; simpl. repeat split; auto. intros y [].
  - destruct (findIndex p r) as [j|]; [|discriminate].
    injection H as <-. destruct (IH j eq_refl) as (y & Hn & Hp & Hf & Hb).
    exists y; simpl. repeat split; auto.
    intros z [<-|Hz]; auto.
Qed.

Lemma find_findIndex (xs : list A) (x : A) :
  find p xs = Some x ->
  exists i, findIndex p xs = Some i /\ nth_error xs i = Some x.
Proof.
  induction xs as [|y r IH]; simpl; [discriminate|].
  destruct (p y) eqn:Hy.
  - intros [= <-]. now exists O.
  - intros H. destruct (IH H) as (i & -> & Hn). now exists (S i).
Qed.

Lemma find_None_findIndex (xs : list A) :
  find p xs = None <-> findIndex p xs = None.
Proof.
  rewrite findIndex_None. split.
  - intros H x Hx. exact (find_none p xs H x Hx).
  - intros H. induction xs as [|y r IH]; simpl; [reflexivity|].
    rewrite (H y (or_introl eq_refl)). apply IH. intros x Hx. apply H. now right.
Qed.

Lemma filter_length_le (xs : list A) :
  (List.length (filter p xs) <= List.length xs)%nat.
Proof.
  induction xs as [|x r IH]; simpl; [lia|]. destruct (p x); simpl; lia.
Qed.

(** A filter keeps the length exactly when it drops nothing. *)
Lemma filter_length_same (xs : list A) :
  List.length (filter p xs) = List.length xs <-> (forall x, In x xs -> p x = true).
Proof.
  induction xs as [|x r IH]; simpl.
  - split; [intros _ y [] | reflexivity].
  - destruct (p x) eqn:Hx; simpl.
    + split.
      * intros H y [<-|Hy]; [assumption|]. apply IH; [lia | assumption].
      * intros H. f_equal. apply IH. intros y Hy. apply H. now right.
    + split.
      * intros H. pose proof (filter_length_le r). lia.
      * intros H. specialize (H x (or_introl eq_refl)). congruence.
Qed.

Lemma filter_same (xs : list A) :
  (forall x, In x xs -> p x = true) -> filter p xs = xs.
Proof.
  induction xs as [|x r IH]; simpl; intros H; [reflexivity|].
  rewrite (H x (or_introl eq_refl)). f_equal. apply IH. intros y Hy. apply H. now right.
Qed.

Lemma updateAt_split (f : A -> A) (xs : list A) (i : nat) (x : A) :
  nth_error xs i = Some x ->
  updateAt i f xs = (firstn i xs ++ f x :: skipn (S i) xs)%list.
Proof.
  revert i; induction xs as [|y r IH]; intros [|i]; simpl; try discriminate.
  - now intros [= ->].
  - intros H. now rewrite (IH i H).
Qed.

End Arrays.

Lemma NoDup_map_inj {A B} (f : A -> B) (l : list A) (x y : A) :
  NoDup (map f l) -> In x l -> In y l -> f x = f y -> x = y.
Proof.
  induction l as [|a l IH]; simpl; intros Hnd Hx Hy E; [destruct Hx|].
  inversion Hnd as [|? ? Hn Hnd']; subst.
  destruct Hx as [->|Hx], Hy as [->|Hy]; auto.
  - exfalso. apply Hn. rewrite E. now apply in_map.
  - exfalso. apply Hn. rewrite <- E. now apply in_map.
Qed.

Lemma append_neq {A} (l : list A) (x : A) : l <> (l ++ [x])%list.
Proof.
  intros H. apply (f_equal (@List.length A)) in H.
  rewrite length_app in H. simpl in H. lia.
Qed.

(** ** The device client *)

(** C9, as the code has it: [ESP32Service.disconnect] reports success
    exactly when the device answered with a 2xx status or the request
    threw (network error or timeout); a response with any other status is
    reported as a failure, with the message "Disconnect signal failed". *)
Theorem disconnect_success_iff (ipAddress : string)
    (outcome : ESP32Service.FetchOutcome) :
  (ESP32Service.success (ESP32Service.disconnect ipAddress outcome) = true <->
     match outcome with
     | ESP32Service.Responded status _ => 200 <= status <= 299
     | ESP32Service.NetworkError | ESP32Service.TimedOut => True
     end)
  /\ (forall status text,
        outcome = ESP32Service.Responded status text ->
        ~ (200 <= status <= 299) ->
        ESP32Service.disconnect ipAddress outcome
        = ESP32Service.mkResult false "Disconnect signal failed").
Proof.
  split.
  - destruct outcome as [status text| |]; simpl; [|tauto|tauto].
    unfold ESP32Service.ok. rewrite andb_true_iff, !Z.leb_le. tauto.
  - intros status text -> H. simpl.
    assert (E : ESP32Service.ok status = false).
    { unfold ESP32Service.ok. apply andb_false_iff.
      destruct (Z.leb_spec 200 status); [right|left; reflexivity].
      apply Z.leb_gt. lia. }
    now rewrite E.
Qed.

Lemma disconnect_success_iff_witness :
  ESP32Service.disconnect "192.168.1.101"
    (ESP32Service.Responded 503 "Service Unavailable")
  = ESP32Service.mkResult false "Disconnect signal failed".
Proof.
  apply (proj2 (disconnect_success_iff "192.168.1.101"
                  (ESP32Service.Responded 503 "Service Unavailable"))
           503 "Service Unavailable" eq_refl).
  lia.
Defined.

(** C9, as stated, fails: a device that answers HTTP 500 makes
    [disconnect] report [success = false]. *)
Lemma disconnect_always_succeeds_cex :
  ESP32Service.success
    (ESP32Service.disconnect "192.168.1.101"
       (ESP32Service.Responded 500 "Internal Server Error")) = false
  /\ ~ (forall ip outcome,
          ESP32Service.success (ESP32Service.disconnect ip outcome) = true).
Proof.
  split; [reflexivity|].
  intros H.
  specialize (H "192.168.1.101" (ESP32Service.Responded 500 "Internal Server Error")).
  discriminate H.
Qed.

(** ** Retention of alerts *)

(** C4: [getAlerts] returns exactly the stored alerts created less than
    24 hours before [now], in their order; an alert created 25 hours ago is
    absent and a stored one created 23 hours ago is present; the pruned set
    is saved if and only if at least one alert was dropped. *)
Theorem getAlerts_retention (now : Z) (userId : string) (w : World) :
  exists recent w',
    getAlerts now userId w = (inr recent, w')
    /\ recent = filter (fun a => now - 86400000 <? Alert.createdAt a) (stored_alerts w)
    /\ (forall a, In a recent <->
                  In a (stored_alerts w) /\ now - Alert.createdAt a < 86400000)
    /\ (forall a, Alert.createdAt a = now - 25 * 3600000 -> ~ In a recent)
    /\ (forall a, In a (stored_alerts w) ->
                  Alert.createdAt a = now - 23 * 3600000 -> In a recent)
    /\ persisted w' = (stored_boxes w, recent)
    /\ (effects w' = (effects w ++ [Saved ALERTS])%list <->
        exists a, In a (stored_alerts w) /\ 86400000 <= now - Alert.createdAt a)
    /\ (effects w' = effects w <->
        forall a, In a (stored_alerts w) -> now - Alert.createdAt a < 86400000).
Proof.
  set (keep := fun a : Alert.t => now - 86400000 <? Alert.createdAt a).
  assert (Hin : forall a, In a (filter keep (stored_alerts w)) <->
                  In a (stored_alerts w) /\ now - Alert.createdAt a < 86400000).
  { intros a. rewrite filter_In. unfold keep. rewrite Z.ltb_lt. intuition lia. }
  assert (Hkeep : forall a, keep a = true <-> now - Alert.createdAt a < 86400000).
  { intros a. unfold keep. rewrite Z.ltb_lt. lia. }
  assert (H25 : forall a, Alert.createdAt a = now - 25 * 3600000 ->
                          ~ In a (filter keep (stored_alerts w))).
  { intros a Ha [_ Hb]%Hin. lia. }
  assert (H23 : forall a, In a (stored_alerts w) ->
                          Alert.createdAt a = now - 23 * 3600000 ->
                          In a (filter keep (stored_alerts w))).
  { intros a Ha Hb. apply Hin. split; [assumption | lia]. }
  unfold getAlerts, bind, getAlertsFromStorage, ret.
  change (24 * 60 * 60 * 1000) with 86400000. fold keep.
  destruct (Nat.eqb (List.length (filter keep (stored_alerts w)))
                    (List.length (stored_alerts w))) eqn:Hlen; simpl.
  - apply Nat.eqb_eq in Hlen.
    pose proof (proj1 (filter_length_same keep _) Hlen) as Hall.
    exists (filter keep (stored_alerts w)), w.
    split; [reflexivity|]. split; [reflexivity|].
    split; [exact Hin|]. split; [exact H25|]. split; [exact H23|].
    split; [unfold persisted; now rewrite (filter_same keep _ Hall)|].
    split; split.
    + intros E. exfalso. exact (append_neq _ _ E).
    + intros (a & Ha & Hold). apply Hall, Hkeep in Ha. lia.
    + intros _ a Ha. now apply Hkeep, Hall.
    + reflexivity.
  - apply Nat.eqb_neq in Hlen.
    assert (Hdrop : exists a, In a (stored_alerts w)
                              /\ 86400000 <= now - Alert.createdAt a).
    { destruct (forallb keep (stored_alerts w)) eqn:Hf.
      - exfalso. apply Hlen. apply filter_length_same.
        intros x Hx. rewrite forallb_forall in Hf. now apply Hf.
      - assert (Hex : existsb (fun a => negb (keep a)) (stored_alerts w) = true).
        { clear -Hf. induction (stored_alerts w) as [|x r IH]; simpl in *;
            [discriminate|]. destruct (keep x); simpl in *; auto. }
        apply existsb_exists in Hex. destruct Hex as (a & Ha & Hn).
        exists a; split; [assumption|].
        apply negb_true_iff in Hn.
        destruct (Z.lt_ge_cases (now - Alert.createdAt a) 86400000) as [Hlt|];
          [|assumption].
        apply Hkeep in Hlt. congruence. }
    eexists _, _. split; [reflexivity|]. simpl.
    split; [reflexivity|].
    split; [exact Hin|]. split; [exact H25|]. split; [exact H23|].
    split; [reflexivity|].
    split; split.
    + intros _. exact Hdrop.
    + reflexivity.
    + intros E. symmetry in E. exfalso. exact (append_neq _ _ E).
    + intros Hall. destruct Hdrop as (a & Ha & Hold). specialize (Hall a Ha). lia.
Qed.

Lemma getAlerts_retention_witness :
  exists recent w',
    getAlerts Sample.eightOClock "1" Sample.agedWorld = (inr recent, w')
    /\ List.length recent = 1%nat
    /\ ~ In (Sample.lowVitaminD false (Sample.eightOClock - 25 * 3600000)) recent.
Proof.
  destruct (getAlerts_retention Sample.eightOClock "1" Sample.agedWorld)
    as (recent & w' & Hrun & Hrec & _ & H25 & _).
  exists recent, w'. split; [exact Hrun|]. split.
  - rewrite Hrec. reflexivity.
  - apply H25. reflexivity.
Defined.

(** ** Cascading deletes *)

(** C5: [deleteMedicine] (on an existing box) keeps exactly the alerts
    whose [medicineId] differs from the deleted medicine's id;
    [deleteMedicineBox] (on an existing box) keeps exactly the alerts
    whose [boxName] differs from the deleted box's name and whose
    [medicineId] is the id of none of its medicines. *)
Theorem cascade_delete_alerts (now : Z) (w : World) :
  (forall boxId medicineId,
      (exists box, In box (stored_boxes w) /\ MedicineBox.id box = boxId) ->
      exists w',
        deleteMedicine now boxId medicineId w = (inr tt, w')
        /\ stored_alerts w'
           = filter (fun a => negb (String.eqb (Alert.medicineId a) medicineId))
                    (stored_alerts w)
        /\ (forall a, In a (stored_alerts w') <->
                      In a (stored_alerts w) /\ Alert.medicineId a <> medicineId))
  /\ (forall id boxToDelete,
        find (hasId id) (stored_boxes w) = Some boxToDelete ->
        exists w',
          deleteMedicineBox id w = (inr tt, w')
          /\ stored_alerts w'
             = filter (fun a => negb (belongsToDeletedBox boxToDelete a))
                      (stored_alerts w)
          /\ (forall a, In a (stored_alerts w') <->
                In a (stored_alerts w)
                /\ ~ (Alert.boxName a = MedicineBox.name boxToDelete
                      \/ exists med, In med (MedicineBox.medicines boxToDelete)
                                     /\ Medicine.id med = Alert.medicineId a))).
Proof.
  split.
  - intros boxId medicineId (box & Hbox & Hid).
    unfold deleteMedicine, bind, getMedicineBoxesFromStorage.
    destruct (findIndex (hasId boxId) (stored_boxes w)) as [i|] eqn:Hf.
    + eexists. split; [reflexivity|]. simpl. split; [reflexivity|].
      intros a. rewrite filter_In, negb_true_iff, String.eqb_neq. tauto.
    + exfalso. rewrite findIndex_None in Hf. specialize (Hf box Hbox).
      unfold hasId in Hf. rewrite Hid, String.eqb_refl in Hf. discriminate.
  - intros id boxToDelete Hf.
    unfold deleteMedicineBox, bind, getMedicineBoxesFromStorage. rewrite Hf.
    eexists. split; [reflexivity|]. simpl. split; [reflexivity|].
    intros a. rewrite filter_In, negb_true_iff.
    unfold belongsToDeletedBox.
    split; intros [Ha Hb]; (split; [assumption|]).
    + apply orb_false_iff in Hb. destruct Hb as [Hn He].
      apply String.eqb_neq in Hn.
      intros [Heq|(med & Hmed & Hmid)]; [contradiction|].
      assert (Hex : existsb (fun med => String.eqb (Medicine.id med) (Alert.medicineId a))
                      (MedicineBox.medicines boxToDelete) = true).
      { apply existsb_exists. exists med. split; [assumption|].
        now apply String.eqb_eq. }
      congruence.
    + apply orb_false_iff. split.
      * apply String.eqb_neq. intros Heq. apply Hb. now left.
      * destruct (existsb _ _) eqn:Hex; [|reflexivity].
        apply existsb_exists in Hex. destruct Hex as (med & Hmed & Hmid).
        apply String.eqb_eq in Hmid. exfalso. apply Hb. right. now exists med.
Qed.

Lemma cascade_delete_alerts_witness :
  (exists w', deleteMedicine Sample.eightOClock "1" "1" Sample.world = (inr tt, w')
              /\ stored_alerts w' = [])
  /\ (exists w', deleteMedicineBox "3" Sample.agedWorld = (inr tt, w')
                 /\ List.length (stored_alerts w') = 1%nat).
Proof.
  destruct (cascade_delete_alerts Sample.eightOClock Sample.world) as [Hmed _].
  destruct (cascade_delete_alerts Sample.eightOClock Sample.agedWorld) as [_ Hbox].
  split.
  - destruct (Hmed "1" "1") as (w' & Hrun & Hal & _).
    + exists Sample.kitchen. split; [left; reflexivity | reflexivity].
    + exists w'. split; [exact Hrun|]. rewrite Hal. reflexivity.
  - destruct (Hbox "3" Sample.travel eq_refl) as (w' & Hrun & Hal & _).
    exists w'. split; [exact Hrun|]. rewrite Hal. reflexivity.
Defined.

(** ** Read state of an alert *)

(** What [markAlertAsRead] stores: on an id found in the store it
    persists the unread alerts of the store other than the first alert
    with that id, so the marked alert and every alert that was already
    read leave the store, and the unread alerts with another id stay,
    unchanged and in order; the boxes are untouched.  On an id that is not
    in the store nothing is written. *)
Lemma markAlertAsRead_keeps_unread_others (alertId : string) (w : World) :
  (findIndex (fun a => String.eqb (Alert.id a) alertId) (stored_alerts w) = None ->
   markAlertAsRead alertId w = (inr tt, w))
  /\ (forall i,
        findIndex (fun a => String.eqb (Alert.id a) alertId) (stored_alerts w) = Some i ->
        exists w',
          markAlertAsRead alertId w = (inr tt, w')
          /\ stored_boxes w' = stored_boxes w
          /\ stored_alerts w'
             = (filter unread (firstn i (stored_alerts w))
                ++ filter unread (skipn (S i) (stored_alerts w)))%list
          /\ (forall a, In a (stored_alerts w') ->
                        In a (stored_alerts w) /\ Alert.isRead a = false)
          /\ (forall a, In a (stored_alerts w) -> Alert.isRead a = false ->
                        Alert.id a <> alertId -> In a (stored_alerts w'))
          /\ (List.length (stored_alerts w') < List.length (stored_alerts w))%nat).
Proof.
  unfold markAlertAsRead, bind, getAlertsFromStorage. split.
  - intros ->. reflexivity.
  - intros i Hf. rewrite Hf.
    destruct (findIndex_Some _ _ _ Hf) as (x & Hn & Hp & _ & _).
    eexists. split; [reflexivity|]. simpl. split; [reflexivity|].
    rewrite (updateAt_split _ _ _ _ Hn), filter_app. simpl.
    fold unread. change (filter (fun a => negb (Alert.isRead a))) with (filter unread).
    pose proof (firstn_skipn i (stored_alerts w)) as Hsplit.
    assert (Hsk : skipn i (stored_alerts w) = x :: skipn (S i) (stored_alerts w)).
    { clear -Hn. revert i Hn. induction (stored_alerts w) as [|y r IH];
        intros [|i] Hn; simpl in *; try discriminate.
      - now injection Hn as ->.
      - now apply IH. }
    rewrite Hsk in Hsplit.
    split; [reflexivity|]. split; [|split].
    + intros a Ha. apply in_app_or in Ha. rewrite <- Hsplit.
      destruct Ha as [Ha|Ha]; apply filter_In in Ha; destruct Ha as [Ha Hu];
        apply negb_true_iff in Hu; (split; [|assumption]);
        apply in_or_app; [left | right; right]; assumption.
    + intros a Ha Hu Hid. rewrite <- Hsplit in Ha. apply in_or_app.
      apply in_app_or in Ha. destruct Ha as [Ha|[<-|Ha]].
      * left. apply filter_In. split; [assumption|]. unfold unread. now rewrite Hu.
      * apply String.eqb_eq in Hp. contradiction.
      * right. apply filter_In. split; [assumption|]. unfold unread. now rewrite Hu.
    + change (match stored_alerts w with [] => [] | _ :: l => skipn i l end)
        with (skipn (S i) (stored_alerts w)).
      apply (f_equal (@List.length Alert.t)) in Hsplit.
      rewrite length_app in Hsplit. cbn [Datatypes.length] in Hsplit.
      rewrite length_app, <- Hsplit.
      pose proof (filter_length_le unread (firstn i (stored_alerts w))).
      pose proof (filter_length_le unread (skipn (S i) (stored_alerts w))).
      lia.
Qed.

Lemma markAlertAsRead_keeps_unread_others_witness :
  exists w', markAlertAsRead "1" Sample.agedWorld = (inr tt, w')
             /\ stored_alerts w' = [].
Proof.
  destruct (proj2 (markAlertAsRead_keeps_unread_others "1" Sample.agedWorld)
              O eq_refl) as (w' & Hrun & _ & Hal & _).
  exists w'. split; [exact Hrun|]. rewrite Hal. reflexivity.
Defined.

(** C7 does not hold of the code.  On a store that holds the unread alert
    "1" and the alert "2", read before, [markAlertAsRead "1"] resolves
    and leaves an empty store: neither the marked alert nor the other one
    is persisted any more, where the claim has both stay, alert "1" now
    read.  The sibling [markAllAlertsAsRead] on the same store keeps both
    alerts, read. *)
Theorem markAlertAsRead_empties_store :
  let marked := markAlertAsRead "1" Sample.agedWorld in
  let all := markAllAlertsAsRead "1" Sample.agedWorld in
  map (fun a => (Alert.id a, Alert.isRead a)) (stored_alerts Sample.agedWorld)
  = [("1", false); ("2", true)]
  /\ fst marked = inr tt
  /\ stored_alerts (snd marked) = []
  /\ ~ (forall a, In a (stored_alerts Sample.agedWorld) ->
          exists a', In a' (stored_alerts (snd marked))
                     /\ Alert.id a' = Alert.id a)
  /\ fst all = inr tt
  /\ map (fun a => (Alert.id a, Alert.isRead a)) (stored_alerts (snd all))
     = [("1", true); ("2", true)].
Proof.
  simpl. split; [reflexivity|]. split; [reflexivity|]. split; [reflexivity|].
  split; [|split; reflexivity].
  intros H. destruct (H _ (or_introl eq_refl)) as (a' & [] & _).
Qed.

(** ** Unknown identifiers *)

(** C8, as the code has it: with a box id that matches no stored box,
    [updateMedicineBox], [addMedicine], [updateMedicine] and
    [deleteMedicine] reject with "Medicine box not found" and leave the
    persisted state unchanged, while [deleteMedicineBox] logs a warning,
    resolves and leaves the persisted state unchanged; [updateMedicine]
    with a medicine id that matches no medicine of the (found) box rejects
    with "Medicine not found" and leaves the persisted state unchanged. *)
Theorem unknown_id_outcomes (now : Z) (w : World) :
  (forall id,
      (forall box, In box (stored_boxes w) -> MedicineBox.id box <> id) ->
      (forall updates,
          updateMedicineBox now id updates w = (inl "Medicine box not found", w))
      /\ (forall medicineData,
            exists w', addMedicine now id medicineData w
                       = (inl "Medicine box not found", w')
                       /\ persisted w' = persisted w)
      /\ (forall medicineId updates,
            updateMedicine now id medicineId updates w
            = (inl "Medicine box not found", w))
      /\ (forall medicineId,
            deleteMedicine now id medicineId w = (inl "Medicine box not found", w))
      /\ (exists w', deleteMedicineBox id w = (inr tt, w')
                     /\ persisted w' = persisted w
                     /\ effects w'
                        = (effects w
                           ++ [Warned ("No medicine box found with id: " ++ id)])%list))
  /\ (forall boxId box medicineId updates,
        find (hasId boxId) (stored_boxes w) = Some box ->
        (forall med, In med (MedicineBox.medicines box) -> Medicine.id med <> medicineId) ->
        updateMedicine now boxId medicineId updates w = (inl "Medicine not found", w)).
Proof.
  split.
  - intros id Hnone.
    assert (Hidx : findIndex (hasId id) (stored_boxes w) = None).
    { apply findIndex_None. intros box Hbox. unfold hasId.
      apply String.eqb_neq. now apply Hnone. }
    assert (Hfind : find (hasId id) (stored_boxes w) = None)
      by now apply find_None_findIndex.
    split; [|split; [|split; [|split]]].
    + intros updates. unfold updateMedicineBox, bind, getMedicineBoxesFromStorage.
      now rewrite Hidx.
    + intros data. unfold addMedicine, bind, getMedicineBoxesFromStorage, randomId.
      rewrite Hidx. eexists. split; reflexivity.
    + intros medicineId updates.
      unfold updateMedicine, bind, getMedicineBoxesFromStorage. now rewrite Hidx.
    + intros medicineId.
      unfold deleteMedicine, bind, getMedicineBoxesFromStorage. now rewrite Hidx.
    + unfold deleteMedicineBox, bind, getMedicineBoxesFromStorage. rewrite Hfind.
      eexists. split; [reflexivity|]. split; reflexivity.
  - intros boxId box medicineId updates Hfind Hnone.
    destruct (find_findIndex _ _ _ Hfind) as (i & Hidx & Hnth).
    assert (Hmed : findIndex (medHasId medicineId) (MedicineBox.medicines box) = None).
    { apply findIndex_None. intros med Hmed. unfold medHasId.
      apply String.eqb_neq. now apply Hnone. }
    unfold updateMedicine, bind, getMedicineBoxesFromStorage.
    now rewrite Hidx, Hnth, Hmed.
Qed.

Lemma unknown_id_outcomes_witness :
  deleteMedicine Sample.eightOClock "7" "1" Sample.world
  = (inl "Medicine box not found", Sample.world)
  /\ updateMedicine Sample.eightOClock "1" "3" (fun m => m) Sample.world
     = (inl "Medicine not found", Sample.world).
Proof.
  destruct (unknown_id_outcomes Sample.eightOClock Sample.world) as [Hbox Hmed].
  split.
  - apply Hbox. intros box [<-|[<-|[<-|[]]]]; discriminate.
  - apply (Hmed "1" Sample.kitchen "3" (fun m => m) eq_refl).
    intros med [<-|[<-|[]]]; discriminate.
Defined.

(** C8, as stated, fails: [deleteMedicineBox] with an id that matches no
    box resolves instead of rejecting; and [deleteMedicine] with a
    medicine id that matches no medicine of the box resolves and rewrites
    the box (its [updatedAt]). *)
Lemma unknown_id_rejects_cex :
  (forall box, In box (stored_boxes Sample.world) -> MedicineBox.id box <> "7")
  /\ fst (deleteMedicineBox "7" Sample.world) = inr tt
  /\ ~ (forall id w,
          find (hasId id) (stored_boxes w) = None ->
          exists e w', deleteMedicineBox id w = (inl e, w'))
  /\ (forall med, In med (allMedicines (stored_boxes Sample.world)) ->
                  Medicine.id med <> "7")
  /\ fst (deleteMedicine Sample.eightOClock "1" "7" Sample.world) = inr tt
  /\ persisted (snd (deleteMedicine Sample.eightOClock "1" "7" Sample.world))
     <> persisted Sample.world.
Proof.
  split; [intros box [<-|[<-|[<-|[]]]]; discriminate|].
  split; [reflexivity|].
  split.
  { intros H. destruct (H "7" Sample.world eq_refl) as (e & w' & Hrun).
    discriminate Hrun. }
  split; [intros med [<-|[<-|[<-|[<-|[]]]]]; discriminate|].
  split; [reflexivity|].
  intros H. discriminate H.
Qed.

(** ** The low-stock tick *)

(** The guard of the code and the real-valued wording agree, whatever the
    sign of [timesPerDay]; a zero [timesPerDay] satisfies neither. *)
Lemma lowStock_spec (medicine : Medicine.t) :
  lowStock medicine = true <-> lowStockSpec medicine.
Proof.
  unfold lowStock, lowStockSpec, daysRemaining, jsdiv.
  destruct (Z.eqb_spec (Medicine.timesPerDay medicine) 0) as [E|E].
  - rewrite E. split.
    + destruct (0 <? Medicine.currentCount medicine);
        [|destruct (Medicine.currentCount medicine <? 0)]; discriminate.
    + intros [H _]. exfalso. unfold Qlt, Qdiv, Qmult, Qinv, inject_Z in H.
      simpl in H. lia.
  - simpl. rewrite andb_true_iff, negb_true_iff, Qle_bool_iff.
    split.
    + intros [Hle Hgt]. split; [|assumption].
      apply Qnot_le_lt. intros H. apply Qle_bool_iff in H. congruence.
    + intros [Hgt Hle]. split; [assumption|].
      destruct (Qle_bool _ 0) eqn:Hb; [|reflexivity].
      apply Qle_bool_iff in Hb. exfalso. exact (Qlt_not_le _ _ Hgt Hb).
Qed.

Lemma isLowAlertFor_spec (medicineId : string) (a : Alert.t) :
  isLowAlertFor medicineId a = true <->
  Alert.medicineId a = medicineId /\ Alert.type a = low_count.
Proof.
  unfold isLowAlertFor. rewrite andb_true_iff, String.eqb_eq.
  destruct (Alert.type a); simpl; intuition discriminate.
Qed.

Section LowTick.
Variable now : Z.
Variable rand : nat -> string.

Lemma LowRun_nil (tk : Tick) : LowRun [] tk tk.
Proof.
  exists []. rewrite !app_nil_r.
  split; [reflexivity|]. split; [reflexivity|]. split; [intros ? []|intros ? []].
Qed.

Lemma LowRun_app (ms1 ms2 : list Medicine.t) (tk tk1 tk2 : Tick) :
  LowRun ms1 tk tk1 -> LowRun ms2 tk1 tk2 -> LowRun (ms1 ++ ms2) tk tk2.
Proof.
  intros (a1 & Ha1 & Hn1 & Hs1 & Hc1) (a2 & Ha2 & Hn2 & Hs2 & Hc2).
  exists (a1 ++ a2)%list.
  split; [now rewrite Ha2, Ha1, app_assoc|].
  split; [now rewrite Hn2, Hn1, app_assoc|].
  split.
  - intros a Ha. apply in_app_or in Ha. destruct Ha as [Ha|Ha].
    + destruct (Hs1 a Ha) as (Ht & m & Hm & Hid & Hlow & Hno).
      split; [assumption|]. exists m. repeat split; auto. apply in_or_app; now left.
    + destruct (Hs2 a Ha) as (Ht & m & Hm & Hid & Hlow & Hno).
      split; [assumption|]. exists m. repeat split; auto.
      * apply in_or_app; now right.
      * rewrite Ha1, existsb_app in Hno. now apply orb_false_iff in Hno.
  - intros m Hm Hlow. apply in_app_or in Hm. destruct Hm as [Hm|Hm].
    + rewrite Ha2, existsb_app, (Hc1 m Hm Hlow). reflexivity.
    + now apply Hc2.
Qed.

Lemma LowRun_step (box : MedicineBox.t) (m : Medicine.t) (tk : Tick) :
  LowRun [m] tk (stepLowMedicine now rand box tk m).
Proof.
  unfold stepLowMedicine. fold (lowStock m).
  destruct (lowStock m) eqn:Hlow.
  - destruct (existsb (isLowAlertFor (Medicine.id m)) (alerts tk)) eqn:Hex.
    + exists []. rewrite !app_nil_r.
      split; [reflexivity|]. split; [reflexivity|]. split; [intros ? []|].
      intros m' [<-|[]] _. assumption.
    + exists [lowCountAlert now (rand (draws tk)) box m]. simpl.
      split; [reflexivity|]. split; [reflexivity|]. split.
      * intros a [<-|[]]. split; [reflexivity|]. exists m. simpl. auto.
      * intros m' [<-|[]] _. rewrite existsb_app. simpl.
        unfold isLowAlertFor at 2. simpl. rewrite String.eqb_refl. simpl.
        apply orb_true_r.
  - exists []. rewrite !app_nil_r.
    split; [reflexivity|]. split; [reflexivity|]. split; [intros ? []|].
    intros m' [<-|[]] H. congruence.
Qed.

Lemma LowRun_medicines (box : MedicineBox.t) (ms : list Medicine.t) (tk : Tick) :
  LowRun ms tk (fold_left (stepLowMedicine now rand box) ms tk).
Proof.
  revert tk; induction ms as [|m ms IH]; intros tk; simpl.
  - apply LowRun_nil.
  - change (m :: ms) with ([m] ++ ms)%list.
    eapply LowRun_app; [apply LowRun_step | apply IH].
Qed.

Lemma LowRun_boxes (boxes : list MedicineBox.t) (tk : Tick) :
  LowRun (allMedicines boxes) tk (fold_left (stepLowBox now rand) boxes tk).
Proof.
  revert tk; induction boxes as [|b bs IH]; intros tk; simpl.
  - apply LowRun_nil.
  - eapply LowRun_app; [apply LowRun_medicines | apply IH].
Qed.

End LowTick.

(** C6: on a store whose counts and frequencies are below [2 ^ 52] in
    absolute value (where the rounded quotient of the code compares with
    0 and 3 as the real-valued one), [checkLowMedicines] emits a
    [low_count] alert for a medicine id if and only if a medicine with
    that id satisfies [0 < currentCount / timesPerDay <= 3] (real-valued)
    and the alert store holds no [low_count] alert for that id, read or
    unread; it emits nothing but [low_count] alerts; and when medicine ids
    are unique, it emits one for a medicine if and only if that medicine
    satisfies the bound and has no [low_count] alert in the store. *)
Theorem checkLowMedicines_emits_iff (now : Z) (w : World) :
  Forall exactQuotient (allMedicines (stored_boxes w)) ->
  exists new w',
    checkLowMedicines now w = (inr new, w')
    /\ (forall a, In a new -> Alert.type a = low_count)
    /\ (forall medicineId,
          (exists a, In a new /\ Alert.medicineId a = medicineId
                     /\ Alert.type a = low_count)
          <->
          ((exists m, In m (allMedicines (stored_boxes w))
                      /\ Medicine.id m = medicineId /\ lowStockSpec m)
           /\ ~ (exists a, In a (stored_alerts w)
                           /\ Alert.medicineId a = medicineId
                           /\ Alert.type a = low_count)))
    /\ (NoDup (map Medicine.id (allMedicines (stored_boxes w))) ->
        forall m, In m (allMedicines (stored_boxes w)) ->
          ((exists a, In a new /\ Alert.medicineId a = Medicine.id m
                      /\ Alert.type a = low_count)
           <->
           (lowStockSpec m
            /\ ~ (exists a, In a (stored_alerts w)
                            /\ Alert.medicineId a = Medicine.id m
                            /\ Alert.type a = low_count)))).
Proof.
  intros _.
  unfold checkLowMedicines, bind, getMedicineBoxesFromStorage, getAlertsFromStorage.
  destruct (LowRun_boxes now (random w) (stored_boxes w)
              (mkTick (stored_alerts w) [] (drawn w)))
    as (added & Hal & Hnew & Hsound & Hcomplete).
  simpl in Hal, Hnew, Hsound.
  eexists _, _. split; [reflexivity|]. rewrite Hnew.
  assert (Hnone : forall i,
             existsb (isLowAlertFor i) (stored_alerts w) = false <->
             ~ (exists a, In a (stored_alerts w)
                          /\ Alert.medicineId a = i /\ Alert.type a = low_count)).
  { intros i. split.
    - intros Hex (a & Ha & Hid & Ht).
      assert (existsb (isLowAlertFor i) (stored_alerts w) = true); [|congruence].
      apply existsb_exists. exists a. split; [assumption|].
      now apply isLowAlertFor_spec.
    - intros Hno. destruct (existsb _ _) eqn:Hex; [|reflexivity].
      apply existsb_exists in Hex. destruct Hex as (a & Ha & Hp).
      apply isLowAlertFor_spec in Hp. exfalso. apply Hno. exists a. tauto. }
  split; [intros a Ha; now apply Hsound|].
  assert (Hiff : forall medicineId,
             (exists a, In a added /\ Alert.medicineId a = medicineId
                        /\ Alert.type a = low_count)
             <->
             ((exists m, In m (allMedicines (stored_boxes w))
                         /\ Medicine.id m = medicineId /\ lowStockSpec m)
              /\ ~ (exists a, In a (stored_alerts w)
                              /\ Alert.medicineId a = medicineId
                              /\ Alert.type a = low_count))).
  { intros medicineId. split.
    - intros (a & Ha & Hid & _).
      destruct (Hsound a Ha) as (_ & m & Hm & Hidm & Hlow & Hno).
      split.
      + exists m. split; [assumption|]. split; [congruence|]. now apply lowStock_spec.
      + apply Hnone. congruence.
    - intros [(m & Hm & Hid & Hlow) Hno].
      apply lowStock_spec in Hlow. apply Hnone in Hno.
      specialize (Hcomplete m Hm Hlow). rewrite Hal, existsb_app, Hid, Hno in Hcomplete.
      simpl in Hcomplete. apply existsb_exists in Hcomplete.
      destruct Hcomplete as (a & Ha & Hp). apply isLowAlertFor_spec in Hp.
      exists a. tauto. }
  split; [exact Hiff|].
  intros Hnd m Hm. rewrite Hiff. split.
  - intros [(m2 & Hm2 & Hid & Hlow) Hno]. split; [|assumption].
    now rewrite <- (NoDup_map_inj Medicine.id _ _ _ Hnd Hm2 Hm Hid).
  - intros [Hlow Hno]. split; [|assumption]. now exists m.
Qed.

Lemma checkLowMedicines_emits_iff_witness :
  exists new w',
    checkLowMedicines Sample.eightOClock Sample.shelfWorld = (inr new, w')
    /\ (exists a, In a new /\ Alert.medicineId a = "b" /\ Alert.type a = low_count).
Proof.
  destruct (checkLowMedicines_emits_iff Sample.eightOClock Sample.shelfWorld)
    as (new & w' & Hrun & _ & Hiff & _).
  { repeat (constructor; [split; simpl; lia|]). constructor. }
  exists new, w'. split; [exact Hrun|].
  apply Hiff. split.
  - eexists. split; [right; right; right; left; reflexivity|].
    split; [reflexivity|]. split; [reflexivity | unfold Qle; simpl; lia].
  - intros (a & [] & _).
Defined.

(** C10: [checkLowMedicines] never throws, leaves the medicine-boxes
    collection as it was, and writes nothing but the alerts collection,
    to which it only appends the alerts it returns. *)
Theorem checkLowMedicines_frame (now : Z) (w : World) :
  exists new w',
    checkLowMedicines now w = (inr new, w')
    /\ stored_boxes w' = stored_boxes w
    /\ stored_alerts w' = (stored_alerts w ++ new)%list
    /\ effects w' = (effects w ++ [Saved ALERTS])%list.
Proof.
  unfold checkLowMedicines, bind, getMedicineBoxesFromStorage, getAlertsFromStorage.
  destruct (LowRun_boxes now (random w) (stored_boxes w)
              (mkTick (stored_alerts w) [] (drawn w)))
    as (added & Hal & Hnew & _).
  simpl in Hal, Hnew.
  eexists _, _. split; [reflexivity|]. simpl.
  split; [reflexivity|]. split; [|reflexivity].
  now rewrite Hal, Hnew.
Qed.

(** ** The dose tick *)

Lemma prefix_append (n b : string) : String.prefix n (n ++ b) = true.
Proof.
  induction n as [|c n IH]; simpl.
  - now destruct b.
  - destruct (ascii_dec c c) as [_|H]; [assumption | now destruct H].
Qed.

Lemma includes_prefix (n b : string) : JsString.includes (n ++ b) n = true.
Proof.
  assert (H : forall s, String.prefix n s = true -> JsString.includes s n = true).
  { intros [|c s] Hp; cbn [JsString.includes]; now rewrite Hp. }
  apply H, prefix_append.
Qed.

Lemma includes_append (a s n : string) :
  JsString.includes s n = true -> JsString.includes (a ++ s) n = true.
Proof.
  intros H. induction a as [|c a IH]; simpl; [assumption|].
  rewrite IH. apply orb_true_r.
Qed.

Lemma existsb_eqb_In (s : string) (l : list string) :
  existsb (String.eqb s) l = true <-> In s l.
Proof.
  rewrite existsb_exists. split.
  - intros (x & Hx & He). apply String.eqb_eq in He. now subst.
  - intros H. exists s. split; [assumption | apply String.eqb_refl].
Qed.

Lemma with_medicines_same (b : MedicineBox.t) :
  MedicineBox.with_medicines b (MedicineBox.medicines b) = b.
Proof. now destruct b. Qed.

Section DoseTick.
Variable L : Locale.
Variable now : Z.
Variable rand : nat -> string.

Lemma hasTimeAlert_spec (i : string) (l : list Alert.t) :
  hasTimeAlert L now i l = true <-> timeAlertExists L now i (currentTime L now) l.
Proof.
  unfold hasTimeAlert, timeAlertExists, isTimeAlertFor, currentDate.
  rewrite existsb_exists. split.
  - intros (a & Ha & Hp). exists a.
    rewrite !andb_true_iff, !String.eqb_eq in Hp.
    destruct Hp as [[[H1 H2] H3] H4].
    repeat split; auto. now destruct (Alert.type a).
  - intros (a & Ha & H1 & H2 & H3 & H4). exists a. split; [assumption|].
    rewrite !andb_true_iff, !String.eqb_eq, H2. auto.
Qed.

(** Alerts of other medicines do not change what a medicine sees. *)
Lemma hasTimeAlert_others (i : string) (l added : list Alert.t) :
  (forall a, In a added -> Alert.medicineId a <> i) ->
  hasTimeAlert L now i (l ++ added) = hasTimeAlert L now i l.
Proof.
  intros H. unfold hasTimeAlert. rewrite existsb_app.
  replace (existsb _ added) with false; [apply orb_false_r|].
  symmetry. induction added as [|a r IH]; simpl; [reflexivity|].
  rewrite IH by (intros x Hx; apply H; now right).
  unfold isTimeAlertFor.
  rewrite (proj2 (String.eqb_neq _ _) (H a (or_introl eq_refl))). reflexivity.
Qed.

Lemma unreadLow_others (i : string) (l added : list Alert.t) :
  (forall a, In a added -> Alert.medicineId a <> i \/ Alert.type a <> low_count) ->
  existsb (isUnreadLowAlertFor i) (l ++ added) = existsb (isUnreadLowAlertFor i) l.
Proof.
  intros H. rewrite existsb_app.
  replace (existsb _ added) with false; [apply orb_false_r|].
  symmetry. induction added as [|a r IH]; simpl; [reflexivity|].
  rewrite IH by (intros x Hx; apply H; now right).
  unfold isUnreadLowAlertFor.
  destruct (H a (or_introl eq_refl)) as [Hn|Hn].
  - rewrite (proj2 (String.eqb_neq _ _) Hn). reflexivity.
  - destruct (Alert.type a); try contradiction; simpl;
      now rewrite ?andb_false_r.
Qed.

Lemma due_grows (m : Medicine.t) (l added : list Alert.t) :
  due L now m l = false -> due L now m (l ++ added) = false.
Proof.
  unfold due, hasTimeAlert. rewrite existsb_app.
  destruct (existsb (String.eqb _) _); [|reflexivity].
  destruct (0 <? _); [|reflexivity]. simpl.
  intros H. apply negb_false_iff in H. now rewrite H.
Qed.

(** *** One schedule token *)

(** The step leaves the state alone unless the token is the current
    minute, pills are left and the dose is not recorded yet; then it
    deducts one pill and pushes the alerts of [emitted]. *)
Lemma stepScheduleTime_idle (box : MedicineBox.t) (m : Medicine.t) (tk : Tick)
    (tok : string) :
  tok <> currentTime L now
  \/ (0 <? Medicine.currentCount m) = false
  \/ hasTimeAlert L now (Medicine.id m) (alerts tk) = true ->
  stepScheduleTime L now rand box (m, tk) tok = (m, tk).
Proof.
  unfold stepScheduleTime, hasTimeAlert. intros H.
  destruct (String.eqb_spec tok (currentTime L now)) as [->|Hne]; simpl;
    [|reflexivity].
  destruct (0 <? Medicine.currentCount m); [|reflexivity].
  destruct H as [H|[H|H]]; [now destruct H | discriminate | now rewrite H].
Qed.

Lemma stepScheduleTime_fires (box : MedicineBox.t) (m : Medicine.t) (tk : Tick) :
  0 < Medicine.currentCount m ->
  hasTimeAlert L now (Medicine.id m) (alerts tk) = false ->
  exists added tk',
    stepScheduleTime L now rand box (m, tk) (currentTime L now) = (deducted now m, tk')
    /\ alerts tk' = (alerts tk ++ added)%list
    /\ newAlerts tk' = (newAlerts tk ++ added)%list
    /\ (forall a, In a added -> Alert.medicineId a = Medicine.id m)
    /\ map Alert.type added
       = emitted (Medicine.currentCount m - 1)
                 (existsb (isUnreadLowAlertFor (Medicine.id m)) (alerts tk))
    /\ hasTimeAlert L now (Medicine.id m) (alerts tk') = true.
Proof.
  intros Hpos Hnone. unfold stepScheduleTime.
  rewrite String.eqb_refl, (proj2 (Z.ltb_lt _ _) Hpos). cbn [andb].
  unfold hasTimeAlert in Hnone. rewrite Hnone. cbv zeta.
  fold (deducted now m).
  assert (Hc : Medicine.currentCount (deducted now m) = Medicine.currentCount m - 1)
    by (simpl; lia).
  assert (Hid : Medicine.id (deducted now m) = Medicine.id m) by reflexivity.
  rewrite Hc, Hid.
  set (ta := timeAlert now (rand (draws tk)) box (deducted now m) (currentTime L now)).
  assert (Hta : isTimeAlertFor L now (Medicine.id m) (currentTime L now) ta = true).
  { unfold isTimeAlertFor, ta, timeAlert, currentDate.
    cbn [Alert.medicineId Alert.type Alert.createdAt Alert.message
         AlertType_eqb deducted Medicine.id Medicine.with_updatedAt
         Medicine.with_currentCount].
    rewrite !String.eqb_refl. cbn [andb].
    apply includes_append, includes_append, includes_append, includes_prefix. }
  assert (Hlow : existsb (isUnreadLowAlertFor (Medicine.id m)) (alerts (push ta tk))
                 = existsb (isUnreadLowAlertFor (Medicine.id m)) (alerts tk)).
  { unfold push. simpl. apply unreadLow_others.
    intros a [<-|[]]. right. discriminate. }
  rewrite Hlow. unfold emitted.
  assert (Hgrow : forall l, hasTimeAlert L now (Medicine.id m) ((alerts tk ++ ta :: l))%list = true).
  { intros l. unfold hasTimeAlert. rewrite existsb_app. simpl. rewrite Hta.
    apply orb_true_r. }
  destruct ((Medicine.currentCount m - 1 <=? 3) && (0 <? Medicine.currentCount m - 1));
    [destruct (existsb (isUnreadLowAlertFor (Medicine.id m)) (alerts tk))|];
    destruct (Medicine.currentCount m - 1 =? 0);
    eexists _, _; (split; [reflexivity|]); unfold push; simpl;
    rewrite <- ?app_assoc; simpl;
    (split; [reflexivity|]); (split; [reflexivity|]);
    (split; [intros a Ha; simpl in Ha; intuition (subst; reflexivity)|]);
    (split; [reflexivity | apply Hgrow]).
Qed.

(** *** One medicine *)

Lemma fold_idle (box : MedicineBox.t) (m : Medicine.t) (tk : Tick)
    (toks : list string) :
  ~ In (currentTime L now) toks
  \/ (0 <? Medicine.currentCount m) = false
  \/ hasTimeAlert L now (Medicine.id m) (alerts tk) = true ->
  fold_left (stepScheduleTime L now rand box) toks (m, tk) = (m, tk).
Proof.
  intros H. induction toks as [|tok toks IH]; cbn [fold_left]; [reflexivity|].
  rewrite stepScheduleTime_idle.
  - apply IH. destruct H as [H|H]; [left|right; exact H].
    intros Hin. apply H. now right.
  - destruct H as [H|H]; [left|right; exact H].
    intros ->. apply H. now left.
Qed.

Lemma due_false (m : Medicine.t) (l : list Alert.t) :
  due L now m l = false <->
  (~ In (currentTime L now) (scheduleTimes m)
   \/ (0 <? Medicine.currentCount m) = false
   \/ hasTimeAlert L now (Medicine.id m) l = true).
Proof.
  unfold due. rewrite !andb_false_iff, negb_false_iff.
  rewrite <- existsb_eqb_In.
  destruct (existsb (String.eqb (currentTime L now)) (scheduleTimes m));
    intuition congruence.
Qed.

Lemma due_true (m : Medicine.t) (l : list Alert.t) :
  due L now m l = true <->
  (In (currentTime L now) (scheduleTimes m)
   /\ 0 < Medicine.currentCount m
   /\ hasTimeAlert L now (Medicine.id m) l = false).
Proof.
  unfold due. rewrite !andb_true_iff, negb_true_iff, Z.ltb_lt, existsb_eqb_In.
  tauto.
Qed.

Lemma stepMedicine_idle (box : MedicineBox.t) (m : Medicine.t) (tk : Tick) :
  due L now m (alerts tk) = false -> stepMedicine L now rand box m tk = (m, tk).
Proof.
  intros H. apply fold_idle. now apply due_false.
Qed.

Lemma stepMedicine_fires (box : MedicineBox.t) (m : Medicine.t) (tk : Tick) :
  due L now m (alerts tk) = true ->
  exists tk', stepMedicine L now rand box m tk = (deducted now m, tk')
              /\ Fired L now m tk tk'.
Proof.
  intros H. apply due_true in H. destruct H as (Hin & Hpos & Hnone).
  unfold stepMedicine. induction (scheduleTimes m) as [|tok toks IH];
    [destruct Hin|]. cbn [fold_left].
  destruct (String.eqb_spec tok (currentTime L now)) as [->|Hne].
  - destruct (stepScheduleTime_fires box m tk Hpos Hnone)
      as (added & tk' & Hstep & Hfired).
    rewrite Hstep. exists tk'. split; [|exists added; exact Hfired].
    apply fold_idle. right; right. apply Hfired.
  - rewrite stepScheduleTime_idle by now left.
    apply IH. destruct Hin as [Hin|Hin]; [congruence | assumption].
Qed.

(** *** The walk over medicines and boxes *)

Lemma DoseRun_nil (tk : Tick) : DoseRun L now [] [] tk tk.
Proof.
  exists []. rewrite !app_nil_r.
  split; [reflexivity|]. split; [reflexivity|]. split; [constructor|].
  split; intros ? [].
Qed.

Lemma DoseRun_app (ms1 ms1' ms2 ms2' : list Medicine.t) (tk tk1 tk2 : Tick) :
  DoseRun L now ms1 ms1' tk tk1 -> DoseRun L now ms2 ms2' tk1 tk2 ->
  DoseRun L now (ms1 ++ ms2) (ms1' ++ ms2') tk tk2.
Proof.
  intros (a1 & Ha1 & Hn1 & Hs1 & Ho1 & Hq1) (a2 & Ha2 & Hn2 & Hs2 & Ho2 & Hq2).
  exists (a1 ++ a2)%list.
  split; [now rewrite Ha2, Ha1, app_assoc|].
  split; [now rewrite Hn2, Hn1, app_assoc|].
  split; [now apply Forall2_app|].
  split.
  - intros a Ha. apply in_app_or in Ha.
    destruct Ha as [Ha|Ha]; [destruct (Ho1 a Ha) as (x & Hx & E)
                            |destruct (Ho2 a Ha) as (x & Hx & E)];
      exists x; (split; [apply in_or_app; auto | exact E]).
  - intros m' Hm'. apply in_app_or in Hm'. destruct Hm' as [Hm'|Hm'].
    + rewrite Ha2. apply due_grows. now apply Hq1.
    + now apply Hq2.
Qed.

Lemma DoseRun_step (box : MedicineBox.t) (m : Medicine.t) (tk : Tick) :
  exists m' tk', stepMedicine L now rand box m tk = (m', tk')
                 /\ DoseRun L now [m] [m'] tk tk'.
Proof.
  destruct (due L now m (alerts tk)) eqn:Hdue.
  - destruct (stepMedicine_fires box m tk Hdue)
      as (tk' & Hstep & added & Ha & Hn & Hid & _ & Hblock).
    exists (deducted now m), tk'. split; [assumption|].
    exists added. split; [assumption|]. split; [assumption|].
    split; [constructor; [|constructor]; right; split; [|reflexivity];
            now apply due_true in Hdue|].
    split.
    + intros a Ha'. exists m. split; [now left | now apply Hid].
    + intros m' [<-|[]]. apply due_false. right; right. exact Hblock.
  - exists m, tk. split; [now apply stepMedicine_idle|].
    exists []. rewrite !app_nil_r.
    split; [reflexivity|]. split; [reflexivity|].
    split; [constructor; [now left | constructor]|].
    split; [intros ? [] | now intros m' [<-|[]]].
Qed.

Lemma DoseRun_medicines (box : MedicineBox.t) (ms : list Medicine.t) (tk : Tick) :
  exists ms' tk', forEachMedicine L now rand box ms tk = (ms', tk')
                  /\ DoseRun L now ms ms' tk tk'.
Proof.
  revert tk; induction ms as [|m ms IH]; intros tk; simpl.
  - exists [], tk. split; [reflexivity | apply DoseRun_nil].
  - destruct (DoseRun_step box m tk) as (m' & tk1 & -> & H1).
    destruct (IH tk1) as (ms' & tk2 & -> & H2).
    exists (m' :: ms'), tk2. split; [reflexivity|].
    exact (DoseRun_app [m] [m'] ms ms' _ _ _ H1 H2).
Qed.

Lemma DoseRun_boxes (bs : list MedicineBox.t) (tk : Tick) :
  exists bs' tk', forEachBox L now rand bs tk = (bs', tk')
                  /\ Forall2 (BoxStepped now) bs bs'
                  /\ DoseRun L now (allMedicines bs) (allMedicines bs') tk tk'.
Proof.
  revert tk; induction bs as [|b bs IH]; intros tk; simpl.
  - exists [], tk. split; [reflexivity|]. split; [constructor | apply DoseRun_nil].
  - destruct (DoseRun_medicines b (MedicineBox.medicines b) tk)
      as (ms' & tk1 & -> & H1).
    destruct (IH tk1) as (bs' & tk2 & -> & HF & H2).
    eexists _, tk2. split; [reflexivity|]. split.
    + constructor; [|assumption]. exists ms'. split; [reflexivity|].
      destruct H1 as (? & _ & _ & HS & _). exact HS.
    + simpl. exact (DoseRun_app _ _ _ _ _ _ _ H1 H2).
Qed.

(** Nothing is due: the walk changes nothing. *)
Lemma forEachMedicine_idle (box : MedicineBox.t) (ms : list Medicine.t) (tk : Tick) :
  (forall m, In m ms -> due L now m (alerts tk) = false) ->
  forEachMedicine L now rand box ms tk = (ms, tk).
Proof.
  induction ms as [|m ms IH]; intros H; simpl; [reflexivity|].
  rewrite stepMedicine_idle by (apply H; now left).
  rewrite IH by (intros x Hx; apply H; now right). reflexivity.
Qed.

Lemma forEachBox_idle (bs : list MedicineBox.t) (tk : Tick) :
  (forall m, In m (allMedicines bs) -> due L now m (alerts tk) = false) ->
  forEachBox L now rand bs tk = (bs, tk).
Proof.
  induction bs as [|b bs IH]; intros H; simpl; [reflexivity|].
  simpl in H.
  rewrite forEachMedicine_idle by (intros x Hx; apply H, in_or_app; now left).
  rewrite IH by (intros x Hx; apply H, in_or_app; now right).
  now rewrite with_medicines_same.
Qed.

End DoseTick.

(** *** Following one medicine through the walk *)

Lemma alertsOf_none (i : string) (l : list Alert.t) :
  (forall a, In a l -> Alert.medicineId a <> i) -> alertsOf i l = [].
Proof.
  induction l as [|a l IH]; intros H; simpl; [reflexivity|].
  rewrite (proj2 (String.eqb_neq _ _) (H a (or_introl eq_refl))).
  apply IH. intros x Hx. apply H. now right.
Qed.

Lemma alertsOf_all (i : string) (l : list Alert.t) :
  (forall a, In a l -> Alert.medicineId a = i) -> alertsOf i l = l.
Proof.
  intros H. apply filter_same. intros a Ha. apply String.eqb_eq. now apply H.
Qed.

Lemma Forall2_nth_error_r {A B} (R : A -> B -> Prop) (l : list A) (l' : list B) :
  Forall2 R l l' ->
  forall i y, nth_error l' i = Some y ->
              exists x, nth_error l i = Some x /\ R x y.
Proof.
  induction 1 as [|x y l l' HR HF IH]; intros [|i] z; simpl; try discriminate.
  - intros [= <-]. now exists x.
  - apply IH.
Qed.

Lemma medicineAt_split (boxes : list MedicineBox.t) (i j : nat) (m : Medicine.t) :
  medicineAt boxes i j = Some m ->
  exists bs1 b bs2 ms1 ms2,
    boxes = (bs1 ++ b :: bs2)%list /\ List.length bs1 = i
    /\ MedicineBox.medicines b = (ms1 ++ m :: ms2)%list /\ List.length ms1 = j.
Proof.
  unfold medicineAt. destruct (nth_error boxes i) as [b|] eqn:Hb; [|discriminate].
  intros Hm.
  destruct (nth_error_split _ _ Hb) as (bs1 & bs2 & -> & <-).
  destruct (nth_error_split _ _ Hm) as (ms1 & ms2 & E & <-).
  now exists bs1, b, bs2, ms1, ms2.
Qed.

Lemma medicineAt_middle (bs1 bs2 : list MedicineBox.t) (b : MedicineBox.t)
    (ms1 ms2 : list Medicine.t) (m : Medicine.t) :
  MedicineBox.medicines b = (ms1 ++ m :: ms2)%list ->
  medicineAt (bs1 ++ b :: bs2) (List.length bs1) (List.length ms1) = Some m.
Proof.
  intros E. unfold medicineAt.
  rewrite nth_error_app2, Nat.sub_diag by lia. simpl.
  rewrite E, nth_error_app2, Nat.sub_diag by lia. reflexivity.
Qed.

(** With identifiers that identify, every other medicine of the store has
    another id. *)
Lemma NoDup_others (bs1 bs2 : list MedicineBox.t) (b : MedicineBox.t)
    (ms1 ms2 : list Medicine.t) (m : Medicine.t) :
  MedicineBox.medicines b = (ms1 ++ m :: ms2)%list ->
  NoDup (map Medicine.id (allMedicines (bs1 ++ b :: bs2))) ->
  forall x, In x ((allMedicines bs1 ++ ms1) ++ ms2 ++ allMedicines bs2) ->
            Medicine.id x <> Medicine.id m.
Proof.
  intros E Hnd x Hx Hid.
  unfold allMedicines in Hnd. rewrite flat_map_app in Hnd. simpl in Hnd.
  rewrite E in Hnd. rewrite <- app_assoc in Hnd. simpl in Hnd.
  rewrite app_assoc, map_app in Hnd. simpl in Hnd.
  apply NoDup_remove_2 in Hnd. apply Hnd.
  rewrite <- Hid, <- map_app. now apply in_map.
Qed.

Section Target.
Variable L : Locale.
Variable now : Z.
Variable rand : nat -> string.

Lemma DoseRun_Miss (i : string) (ms ms' : list Medicine.t) (tk tk' : Tick) :
  DoseRun L now ms ms' tk tk' ->
  (forall x, In x ms -> Medicine.id x <> i) ->
  Miss i tk tk' /\ List.length ms' = List.length ms.
Proof.
  intros (added & Ha & Hn & HS & Ho & _) Hids. split.
  - exists added. split; [assumption|]. split; [assumption|].
    intros a Hin. destruct (Ho a Hin) as (x & Hx & ->). now apply Hids.
  - symmetry. exact (Forall2_length HS).
Qed.

Lemma Miss_Hit (m : Medicine.t) (u : bool) (tk tk1 tk2 : Tick) :
  Miss (Medicine.id m) tk tk1 -> Hit m u tk1 tk2 -> Hit m u tk tk2.
Proof.
  intros (a1 & Ha1 & Hn1 & Ho) (a2 & Ha2 & Hn2 & Ht).
  exists (a1 ++ a2)%list.
  split; [now rewrite Ha2, Ha1, app_assoc|].
  split; [now rewrite Hn2, Hn1, app_assoc|].
  unfold alertsOf. rewrite filter_app.
  fold (alertsOf (Medicine.id m) a1) (alertsOf (Medicine.id m) a2).
  now rewrite (alertsOf_none _ _ Ho).
Qed.

Lemma Hit_Miss (m : Medicine.t) (u : bool) (tk tk1 tk2 : Tick) :
  Hit m u tk tk1 -> Miss (Medicine.id m) tk1 tk2 -> Hit m u tk tk2.
Proof.
  intros (a1 & Ha1 & Hn1 & Ht) (a2 & Ha2 & Hn2 & Ho).
  exists (a1 ++ a2)%list.
  split; [now rewrite Ha2, Ha1, app_assoc|].
  split; [now rewrite Hn2, Hn1, app_assoc|].
  unfold alertsOf. rewrite filter_app.
  fold (alertsOf (Medicine.id m) a1) (alertsOf (Medicine.id m) a2).
  now rewrite (alertsOf_none _ _ Ho), app_nil_r.
Qed.

Lemma Miss_sees (i : string) (tk tk' : Tick) (m : Medicine.t) :
  Miss i tk tk' -> Medicine.id m = i ->
  due L now m (alerts tk') = due L now m (alerts tk)
  /\ existsb (isUnreadLowAlertFor i) (alerts tk')
     = existsb (isUnreadLowAlertFor i) (alerts tk).
Proof.
  intros (added & Ha & _ & Ho) Hid. rewrite Ha. split.
  - unfold due. rewrite Hid. now rewrite hasTimeAlert_others.
  - apply unreadLow_others. intros a Hin. left. now apply Ho.
Qed.

Lemma forEachMedicine_app (box : MedicineBox.t) (ms1 ms2 : list Medicine.t)
    (tk : Tick) :
  forEachMedicine L now rand box (ms1 ++ ms2) tk
  = let (a, tk1) := forEachMedicine L now rand box ms1 tk in
    let (b, tk2) := forEachMedicine L now rand box ms2 tk1 in
    ((a ++ b)%list, tk2).
Proof.
  revert tk; induction ms1 as [|m ms1 IH]; intros tk; simpl.
  - now destruct (forEachMedicine L now rand box ms2 tk).
  - destruct (stepMedicine L now rand box m tk) as [m' tk1].
    rewrite IH. destruct (forEachMedicine L now rand box ms1 tk1) as [a tk2].
    now destruct (forEachMedicine L now rand box ms2 tk2).
Qed.

Lemma forEachBox_app (bs1 bs2 : list MedicineBox.t) (tk : Tick) :
  forEachBox L now rand (bs1 ++ bs2) tk
  = let (a, tk1) := forEachBox L now rand bs1 tk in
    let (b, tk2) := forEachBox L now rand bs2 tk1 in
    ((a ++ b)%list, tk2).
Proof.
  revert tk; induction bs1 as [|x bs1 IH]; intros tk; simpl.
  - now destruct (forEachBox L now rand bs2 tk).
  - destruct (forEachMedicine L now rand x (MedicineBox.medicines x) tk) as [ms' tk1].
    rewrite IH. destruct (forEachBox L now rand bs1 tk1) as [a tk2].
    now destruct (forEachBox L now rand bs2 tk2).
Qed.

Lemma target_medicines (box : MedicineBox.t) (ms1 ms2 : list Medicine.t)
    (m : Medicine.t) (tk : Tick) :
  (forall x, In x ms1 -> Medicine.id x <> Medicine.id m) ->
  (forall x, In x ms2 -> Medicine.id x <> Medicine.id m) ->
  due L now m (alerts tk) = true ->
  exists ms1' ms2' tk',
    forEachMedicine L now rand box (ms1 ++ m :: ms2) tk
    = ((ms1' ++ deducted now m :: ms2')%list, tk')
    /\ List.length ms1' = List.length ms1
    /\ Hit m (existsb (isUnreadLowAlertFor (Medicine.id m)) (alerts tk)) tk tk'.
Proof.
  intros H1 H2 Hdue. rewrite forEachMedicine_app.
  destruct (DoseRun_medicines L now rand box ms1 tk) as (ms1' & tk1 & -> & D1).
  destruct (DoseRun_Miss _ _ _ _ _ D1 H1) as [M1 Hlen].
  destruct (Miss_sees _ _ _ m M1 eq_refl) as [Hd Hu].
  simpl. rewrite <- Hd in Hdue.
  destruct (stepMedicine_fires L now rand box m tk1 Hdue)
    as (tk2 & -> & added & Ha & Hn & Hid & Ht & _).
  destruct (DoseRun_medicines L now rand box ms2 tk2) as (ms2' & tk3 & -> & D2).
  destruct (DoseRun_Miss _ _ _ _ _ D2 H2) as [M2 _].
  exists ms1', ms2', tk3. split; [reflexivity|]. split; [assumption|].
  eapply Miss_Hit; [exact M1|]. eapply Hit_Miss; [|exact M2].
  exists added. split; [assumption|]. split; [assumption|].
  now rewrite (alertsOf_all _ _ Hid), Ht, Hu.
Qed.

Lemma target_boxes (bs1 bs2 : list MedicineBox.t) (b : MedicineBox.t)
    (ms1 ms2 : list Medicine.t) (m : Medicine.t) (tk : Tick) :
  MedicineBox.medicines b = (ms1 ++ m :: ms2)%list ->
  (forall x, In x ((allMedicines bs1 ++ ms1) ++ ms2 ++ allMedicines bs2) ->
             Medicine.id x <> Medicine.id m) ->
  due L now m (alerts tk) = true ->
  exists boxes' tk',
    forEachBox L now rand (bs1 ++ b :: bs2) tk = (boxes', tk')
    /\ medicineAt boxes' (List.length bs1) (List.length ms1) = Some (deducted now m)
    /\ Hit m (existsb (isUnreadLowAlertFor (Medicine.id m)) (alerts tk)) tk tk'.
Proof.
  intros E Hids Hdue. rewrite forEachBox_app.
  destruct (DoseRun_boxes L now rand bs1 tk) as (bs1' & tk1 & -> & HF1 & D1).
  assert (I1 : forall x, In x (allMedicines bs1) -> Medicine.id x <> Medicine.id m)
    by (intros x Hx; apply Hids; apply in_or_app; left; apply in_or_app; now left).
  assert (I2 : forall x, In x ms1 -> Medicine.id x <> Medicine.id m)
    by (intros x Hx; apply Hids; apply in_or_app; left; apply in_or_app; now right).
  assert (I3 : forall x, In x ms2 -> Medicine.id x <> Medicine.id m)
    by (intros x Hx; apply Hids; apply in_or_app; right; apply in_or_app; now left).
  assert (I4 : forall x, In x (allMedicines bs2) -> Medicine.id x <> Medicine.id m)
    by (intros x Hx; apply Hids; apply in_or_app; right; apply in_or_app; now right).
  destruct (DoseRun_Miss _ _ _ _ _ D1 I1) as [M1 _].
  destruct (Miss_sees _ _ _ m M1 eq_refl) as [Hd Hu].
  simpl. rewrite E. rewrite <- Hd in Hdue.
  destruct (target_medicines b ms1 ms2 m tk1 I2 I3 Hdue)
    as (ms1' & ms2' & tk2 & -> & Hlen & H2).
  destruct (DoseRun_boxes L now rand bs2 tk2) as (bs2' & tk3 & -> & HF2 & D2).
  destruct (DoseRun_Miss _ _ _ _ _ D2 I4) as [M2 _].
  eexists _, tk3. split; [reflexivity|]. split.
  - rewrite (Forall2_length HF1), <- Hlen.
    now apply (medicineAt_middle _ _ _ ms1' ms2').
  - rewrite Hu in H2. eapply Miss_Hit; [exact M1|]. eapply Hit_Miss; eassumption.
Qed.

(** The medicine at position [(i, j)] of a store with unique medicine
    ids, when it is due: the tick leaves its deducted copy at the same
    position and emits, for it, the alerts of one deduction. *)
Lemma target_run (boxes : list MedicineBox.t) (stored : list Alert.t)
    (d : nat) (i j : nat) (m : Medicine.t) :
  medicineAt boxes i j = Some m ->
  NoDup (map Medicine.id (allMedicines boxes)) ->
  due L now m stored = true ->
  exists boxes' tk',
    forEachBox L now rand boxes (mkTick stored [] d) = (boxes', tk')
    /\ medicineAt boxes' i j = Some (deducted now m)
    /\ map Alert.type (alertsOf (Medicine.id m) (newAlerts tk'))
       = emitted (Medicine.currentCount m - 1)
                 (existsb (isUnreadLowAlertFor (Medicine.id m)) stored).
Proof.
  intros Hat Hnd Hdue.
  destruct (medicineAt_split _ _ _ _ Hat)
    as (bs1 & b & bs2 & ms1 & ms2 & -> & <- & E & <-).
  destruct (target_boxes bs1 bs2 b ms1 ms2 m (mkTick stored [] d) E
              (NoDup_others _ _ _ _ _ _ E Hnd) Hdue)
    as (boxes' & tk' & Hrun & Hm & added & _ & Hn & Ht).
  exists boxes', tk'. split; [assumption|]. split; [assumption|].
  simpl in Hn. now rewrite Hn.
Qed.

End Target.

Lemma due_same_minute (L : Locale) (now1 now2 : Z) (m : Medicine.t)
    (l : list Alert.t) :
  currentTime L now1 = currentTime L now2 ->
  currentDate L now1 = currentDate L now2 ->
  due L now1 m l = due L now2 m l.
Proof.
  intros Ht Hd. unfold due, hasTimeAlert, isTimeAlertFor. now rewrite Ht, Hd.
Qed.

(** ** The dose tick: the properties of the specification *)

Lemma checkMedicineTimes_run (L : Locale) (now : Z) (w : World)
    (boxes' : list MedicineBox.t) (tk' : Tick) :
  forEachBox L now (random w) (stored_boxes w)
             (mkTick (stored_alerts w) [] (drawn w)) = (boxes', tk') ->
  checkMedicineTimes L now w
  = (inr (newAlerts tk'),
     mkWorld boxes' (alerts tk') (random w) (draws tk')
             (effects w ++ [Saved MEDICINE_BOXES; Saved ALERTS])).
Proof.
  intros H.
  unfold checkMedicineTimes, bind, getMedicineBoxesFromStorage, getAlertsFromStorage.
  rewrite H. unfold setDrawn, saveBoxes, saveAlerts, ret. simpl.
  now rewrite <- app_assoc.
Qed.

(** C1: in a store whose medicine ids are unique, a medicine whose
    schedule holds the current minute, with [0 < currentCount <= 2 ^ 53]
    (the counts whose predecessor the code computes exactly) and no
    [medicine_time] alert for it, this token and today's date, has its
    [currentCount] decreased by exactly 1 by [checkMedicineTimes]; in any
    store the tick leaves the count of each medicine up to [2 ^ 53] as it
    was or one lower than a positive count; and no count, whatever its
    size, becomes negative. *)
Theorem dose_tick_deducts_one (L : Locale) (now : Z) (w : World) :
  (forall i j m,
      medicineAt (stored_boxes w) i j = Some m ->
      NoDup (map Medicine.id (allMedicines (stored_boxes w))) ->
      In (currentTime L now) (scheduleTimes m) ->
      0 < Medicine.currentCount m ->
      exactDecrement m ->
      ~ timeAlertExists L now (Medicine.id m) (currentTime L now) (stored_alerts w) ->
      exists new w' m',
        checkMedicineTimes L now w = (inr new, w')
        /\ medicineAt (stored_boxes w') i j = Some m'
        /\ Medicine.id m' = Medicine.id m
        /\ Medicine.currentCount m' = Medicine.currentCount m - 1)
  /\ (exists new w',
        checkMedicineTimes L now w = (inr new, w')
        /\ forall i j m',
            medicineAt (stored_boxes w') i j = Some m' ->
            exists m,
              medicineAt (stored_boxes w) i j = Some m
              /\ (exactDecrement m ->
                  Medicine.currentCount m' = Medicine.currentCount m
                  \/ (0 < Medicine.currentCount m
                      /\ Medicine.currentCount m' = Medicine.currentCount m - 1))
              /\ (0 <= Medicine.currentCount m -> 0 <= Medicine.currentCount m')).
Proof.
  split.
  - intros i j m Hat Hnd Hin Hpos _ Hnone.
    assert (Hdue : due L now m (stored_alerts w) = true).
    { apply due_true. split; [assumption|]. split; [assumption|].
      destruct (hasTimeAlert L now (Medicine.id m) (stored_alerts w)) eqn:E;
        [|reflexivity].
      apply hasTimeAlert_spec in E. contradiction. }
    destruct (target_run L now (random w) _ _ (drawn w) i j m Hat Hnd Hdue)
      as (boxes' & tk' & Hrun & Hm & _).
    rewrite (checkMedicineTimes_run _ _ _ _ _ Hrun).
    eexists _, _, (deducted now m). split; [reflexivity|]. simpl.
    split; [assumption|]. split; [reflexivity | lia].
  - destruct (DoseRun_boxes L now (random w) (stored_boxes w)
                (mkTick (stored_alerts w) [] (drawn w)))
      as (boxes' & tk' & Hrun & HF & _).
    rewrite (checkMedicineTimes_run _ _ _ _ _ Hrun).
    eexists _, _. split; [reflexivity|]. simpl.
    intros i j m'. unfold medicineAt.
    destruct (nth_error boxes' i) as [b'|] eqn:Hb'; [|discriminate].
    destruct (Forall2_nth_error_r _ _ _ HF i b' Hb') as (b & -> & ms' & -> & HS).
    simpl. intros Hm'.
    destruct (Forall2_nth_error_r _ _ _ HS j m' Hm') as (m & Hm & Hstep).
    exists m. split; [assumption|].
    destruct Hstep as [->|[Hpos ->]]; simpl.
    + split; [intros _; now left | trivial].
    + split; [intros _; right; split; [assumption | lia] | lia].
Qed.

Lemma dose_tick_deducts_one_witness :
  exists new w' m',
    checkMedicineTimes utc Sample.eightOClock Sample.world = (inr new, w')
    /\ medicineAt (stored_boxes w') 0 0 = Some m'
    /\ Medicine.id m' = "1"
    /\ Medicine.currentCount m' = 4.
Proof.
  refine (proj1 (dose_tick_deducts_one utc Sample.eightOClock Sample.world)
            O O _ eq_refl _ _ _ _ _).
  - repeat constructor; simpl; intuition discriminate.
  - left. reflexivity.
  - reflexivity.
  - unfold exactDecrement. simpl. lia.
  - intros (a & [<-|[]] & _ & Ht & _). discriminate Ht.
Defined.

(** C2: a second [checkMedicineTimes] in the same clock minute of the
    same calendar date, run on the state the first one left, returns no
    new alert and leaves the boxes (every count) and the alert store as
    they were: no further dose is deducted and no [medicine_time] alert is
    duplicated. *)
Theorem checkMedicineTimes_idempotent (L : Locale) (now1 now2 : Z) (w : World) :
  currentTime L now1 = currentTime L now2 ->
  currentDate L now1 = currentDate L now2 ->
  exists new1 w1 w2,
    checkMedicineTimes L now1 w = (inr new1, w1)
    /\ checkMedicineTimes L now2 w1 = (inr [], w2)
    /\ persisted w2 = persisted w1.
Proof.
  intros Ht Hd.
  destruct (DoseRun_boxes L now1 (random w) (stored_boxes w)
              (mkTick (stored_alerts w) [] (drawn w)))
    as (boxes' & tk' & Hrun & _ & added & _ & _ & _ & _ & Hquiet).
  rewrite (checkMedicineTimes_run _ _ _ _ _ Hrun).
  set (w1 := mkWorld boxes' (alerts tk') (random w) (draws tk')
                     (effects w ++ [Saved MEDICINE_BOXES; Saved ALERTS])).
  assert (Hidle : forEachBox L now2 (random w1) (stored_boxes w1)
                    (mkTick (stored_alerts w1) [] (drawn w1))
                  = (boxes', mkTick (alerts tk') [] (draws tk'))).
  { apply forEachBox_idle. simpl. intros m Hm.
    rewrite <- (due_same_minute L now1 now2 m _ Ht Hd). now apply Hquiet. }
  eexists _, w1, _. split; [reflexivity|].
  rewrite (checkMedicineTimes_run _ _ _ _ _ Hidle). split; reflexivity.
Qed.

Lemma checkMedicineTimes_idempotent_witness :
  exists new1 w1 w2,
    checkMedicineTimes utc Sample.eightOClock Sample.world = (inr new1, w1)
    /\ checkMedicineTimes utc (Sample.eightOClock + 30000) w1 = (inr [], w2)
    /\ persisted w2 = persisted w1.
Proof.
  apply (checkMedicineTimes_idempotent utc Sample.eightOClock
           (Sample.eightOClock + 30000) Sample.world); reflexivity.
Defined.

(** C3: in a store whose medicine ids are unique, when the dose tick
    fires for a medicine (the current minute is one of its tokens, no
    [medicine_time] alert blocks it) that holds 4 pills and has no unread
    [low_count] alert, the tick leaves 3 pills and emits for it exactly a
    [medicine_time] and one [low_count] alert, no [out_of_stock]; when it
    holds 1 pill, the tick leaves 0 pills and emits for it exactly a
    [medicine_time] and an [out_of_stock] alert, no [low_count]. *)
Theorem dose_tick_low_and_out_of_stock (L : Locale) (now : Z) (w : World)
    (i j : nat) (m : Medicine.t) :
  medicineAt (stored_boxes w) i j = Some m ->
  NoDup (map Medicine.id (allMedicines (stored_boxes w))) ->
  In (currentTime L now) (scheduleTimes m) ->
  ~ timeAlertExists L now (Medicine.id m) (currentTime L now) (stored_alerts w) ->
  (Medicine.currentCount m = 4 ->
   (forall a, In a (stored_alerts w) ->
              ~ (Alert.medicineId a = Medicine.id m /\ Alert.type a = low_count
                 /\ Alert.isRead a = false)) ->
   exists new w' m',
     checkMedicineTimes L now w = (inr new, w')
     /\ medicineAt (stored_boxes w') i j = Some m'
     /\ Medicine.currentCount m' = 3
     /\ map Alert.type (alertsOf (Medicine.id m) new) = [medicine_time; low_count])
  /\ (Medicine.currentCount m = 1 ->
      exists new w' m',
        checkMedicineTimes L now w = (inr new, w')
        /\ medicineAt (stored_boxes w') i j = Some m'
        /\ Medicine.currentCount m' = 0
        /\ map Alert.type (alertsOf (Medicine.id m) new)
           = [medicine_time; out_of_stock]).
Proof.
  intros Hat Hnd Hin Hnone.
  assert (Hdue : 0 < Medicine.currentCount m -> due L now m (stored_alerts w) = true).
  { intros Hpos. apply due_true. split; [assumption|]. split; [assumption|].
    destruct (hasTimeAlert L now (Medicine.id m) (stored_alerts w)) eqn:E;
      [|reflexivity].
    apply hasTimeAlert_spec in E. contradiction. }
  split.
  - intros Hc Hlow.
    destruct (target_run L now (random w) _ _ (drawn w) i j m Hat Hnd (Hdue ltac:(lia)))
      as (boxes' & tk' & Hrun & Hm & Hty).
    rewrite (checkMedicineTimes_run _ _ _ _ _ Hrun).
    eexists _, _, (deducted now m). split; [reflexivity|]. simpl.
    split; [assumption|]. split; [lia|].
    rewrite Hty, Hc.
    replace (existsb (isUnreadLowAlertFor (Medicine.id m)) (stored_alerts w))
      with false; [reflexivity|].
    symmetry. destruct (existsb _ _) eqn:E; [|reflexivity].
    apply existsb_exists in E. destruct E as (a & Ha & Hp).
    unfold isUnreadLowAlertFor in Hp.
    rewrite !andb_true_iff, String.eqb_eq, negb_true_iff in Hp.
    destruct Hp as [[H1 H2] H3]. exfalso. apply (Hlow a Ha).
    split; [assumption|]. split; [now destruct (Alert.type a) | assumption].
  - intros Hc.
    destruct (target_run L now (random w) _ _ (drawn w) i j m Hat Hnd (Hdue ltac:(lia)))
      as (boxes' & tk' & Hrun & Hm & Hty).
    rewrite (checkMedicineTimes_run _ _ _ _ _ Hrun).
    eexists _, _, (deducted now m). split; [reflexivity|]. simpl.
    split; [assumption|]. split; [lia|].
    rewrite Hty, Hc. reflexivity.
Qed.

Lemma dose_tick_low_and_out_of_stock_witness :
  (exists new w' m',
      checkMedicineTimes utc Sample.eightOClock Sample.shelfWorld = (inr new, w')
      /\ medicineAt (stored_boxes w') 1 0 = Some m'
      /\ Medicine.currentCount m' = 3
      /\ map Alert.type (alertsOf "a" new) = [medicine_time; low_count])
  /\ (exists new w' m',
        checkMedicineTimes utc Sample.eightOClock Sample.shelfWorld = (inr new, w')
        /\ medicineAt (stored_boxes w') 1 1 = Some m'
        /\ Medicine.currentCount m' = 0
        /\ map Alert.type (alertsOf "b" new) = [medicine_time; out_of_stock]).
Proof.
  assert (Hnd : NoDup (map Medicine.id (allMedicines (stored_boxes Sample.shelfWorld)))).
  { repeat constructor; simpl; intuition discriminate. }
  split.
  - refine (proj1 (dose_tick_low_and_out_of_stock utc Sample.eightOClock
                     Sample.shelfWorld 1 0 _ eq_refl Hnd _ _) eq_refl _).
    + left. reflexivity.
    + intros (a & [] & _).
    + intros a [].
  - refine (proj2 (dose_tick_low_and_out_of_stock utc Sample.eightOClock
                     Sample.shelfWorld 1 1 _ eq_refl Hnd _ _) eq_refl).
    + right. left. reflexivity.
    + intros (a & [] & _).
Defined.

(** ** Beyond the specification: schedules between form, store and engine *)

Lemma split_not_nil (sep : ascii) (s : string) : JsString.split sep s <> [].
Proof.
  induction s as [|c r IH]; simpl; [discriminate|].
  destruct (Ascii.eqb c sep); [discriminate|].
  destruct (JsString.split sep r); discriminate.
Qed.

Lemma join_cons (sep x : string) (rest : list string) :
  rest <> [] -> join sep (x :: rest) = x ++ sep ++ join sep rest.
Proof. destruct rest; [contradiction | reflexivity]. Qed.

Lemma join_String (sep : string) (c : ascii) (h : string) (t : list string) :
  join sep (String c h :: t) = String c (join sep (h :: t)).
Proof. destruct t; reflexivity. Qed.

(** Joining the pieces of a split gives the string back. *)
Lemma join_split (s : string) : join "," (JsString.split ","%char s) = s.
Proof.
  induction s as [|c r IH]; simpl; [reflexivity|].
  destruct (Ascii.eqb_spec c ","%char) as [->|Hc].
  - rewrite join_cons by apply split_not_nil. simpl. now rewrite IH.
  - destruct (JsString.split ","%char r) as [|h t] eqn:E.
    + exfalso. exact (split_not_nil _ _ E).
    + rewrite join_String. now rewrite IH.
Qed.

Lemma split_commaFree (t : string) :
  commaFree t -> JsString.split ","%char t = [t].
Proof.
  unfold commaFree. induction t as [|c r IH]; simpl; intros H; [reflexivity|].
  destruct (Ascii.eqb_spec c ","%char) as [->|Hc]; [exfalso; apply H; now left|].
  rewrite IH by (intros Hin; apply H; now right). reflexivity.
Qed.

Lemma split_append (t rest : string) :
  commaFree t ->
  JsString.split ","%char (t ++ String ","%char rest)
  = t :: JsString.split ","%char rest.
Proof.
  unfold commaFree. induction t as [|c r IH]; simpl; intros H; [reflexivity|].
  destruct (Ascii.eqb_spec c ","%char) as [->|Hc]; [exfalso; apply H; now left|].
  rewrite IH by (intros Hin; apply H; now right). reflexivity.
Qed.

Lemma split_join (ts : list string) :
  ts <> [] -> (forall t, In t ts -> commaFree t) ->
  JsString.split ","%char (join "," ts) = ts.
Proof.
  induction ts as [|t rest IH]; intros Hne Hfree; [contradiction|].
  destruct rest as [|u rest].
  - simpl. apply split_commaFree, Hfree. now left.
  - rewrite join_cons by discriminate.
    change ("," ++ join "," (u :: rest)) with (String ","%char (join "," (u :: rest))).
    rewrite split_append by (apply Hfree; now left).
    f_equal. apply IH; [discriminate|]. intros x Hx. apply Hfree. now right.
Qed.

(** X1: opening a medicine in the edit form and submitting the form
    untouched hands [onSave] the medicine's own name, frequency, total and
    schedule string; the custom message becomes a string (empty when
    absent) and a current count of 0 is replaced by the total count. *)
Theorem edit_submit_untouched (m : Medicine.t) :
  let d := MedicineForm.handleSubmit (MedicineForm.edit m) in
  MedicineForm.name d = Medicine.name m
  /\ MedicineForm.timesPerDay d = Medicine.timesPerDay m
  /\ MedicineForm.totalCount d = Medicine.totalCount m
  /\ MedicineForm.scheduleTime d = Medicine.scheduleTime m
  /\ MedicineForm.customMessage d = orElse (Medicine.customMessage m) ""
  /\ (Medicine.currentCount m <> 0 ->
      MedicineForm.currentCount d = Medicine.currentCount m)
  /\ (Medicine.currentCount m = 0 ->
      MedicineForm.currentCount d = Medicine.totalCount m).
Proof.
  simpl. rewrite join_split.
  repeat split; try reflexivity.
  - intros H. now rewrite (proj2 (Z.eqb_neq _ _) H).
  - intros ->. reflexivity.
Qed.

Lemma edit_submit_untouched_witness :
  MedicineForm.currentCount (MedicineForm.handleSubmit (MedicineForm.edit Fixture.empty))
  = 30.
Proof.
  apply (proj2 (proj2 (proj2 (proj2 (proj2 (proj2
           (edit_submit_untouched Fixture.empty))))))).
  reflexivity.
Defined.

(** X2: the schedule a form submits is read back by the dose tick token
    for token: when the form holds at least one time, each without a comma
    and without white space around it, the medicine saved from the form
    has exactly these times as its schedule tokens. *)
Theorem submitted_schedule_read_back (s : MedicineForm.State) (m : Medicine.t) :
  MedicineForm.scheduleTimes s <> [] ->
  (forall t, In t (MedicineForm.scheduleTimes s) ->
             commaFree t /\ JsString.trim t = t) ->
  scheduleTimes (App.spread (MedicineForm.handleSubmit s) m)
  = MedicineForm.scheduleTimes s.
Proof.
  intros Hne Hok. unfold scheduleTimes. simpl.
  rewrite split_join; [|assumption|intros t Ht; now apply Hok].
  rewrite (map_ext_in JsString.trim (fun t => t)); [apply map_id|].
  intros t Ht. now apply Hok.
Qed.

Lemma submitted_schedule_read_back_witness :
  scheduleTimes
    (App.spread
       (MedicineForm.handleSubmit
          (MedicineForm.handleTimesPerDayChange 3 MedicineForm.initial))
       Fixture.empty)
  = ["08:00"; "14:00"; "20:00"].
Proof.
  apply (submitted_schedule_read_back
           (MedicineForm.handleTimesPerDayChange 3 MedicineForm.initial)
           Fixture.empty).
  - discriminate.
  - intros t [<-|[<-|[<-|[]]]]; (split; [|reflexivity]);
      unfold commaFree; simpl; intuition discriminate.
Defined.

(** ** Beyond the specification: alerts *)

Lemma filter_filter_same {A} (p : A -> bool) (l : list A) :
  filter p (filter p l) = filter p l.
Proof.
  apply filter_same. intros x Hx. now apply filter_In in Hx.
Qed.

Lemma filter_none {A} (p : A -> bool) (l : list A) :
  (forall x, In x l -> p x = false) -> filter p l = [].
Proof.
  induction l as [|x l IH]; intros H; simpl; [reflexivity|].
  rewrite (H x (or_introl eq_refl)). apply IH. intros y Hy. apply H. now right.
Qed.

(** X3: [deleteAlert] keeps exactly the alerts with another id, in order,
    and leaves the boxes alone; with an id no alert carries the store
    keeps its content; deleting again changes nothing. *)
Theorem deleteAlert_exact (alertId : string) (w : World) :
  exists w',
    deleteAlert alertId w = (inr tt, w')
    /\ stored_boxes w' = stored_boxes w
    /\ stored_alerts w'
       = filter (fun a => negb (String.eqb (Alert.id a) alertId)) (stored_alerts w)
    /\ (forall a, In a (stored_alerts w') <->
                  In a (stored_alerts w) /\ Alert.id a <> alertId)
    /\ ((forall a, In a (stored_alerts w) -> Alert.id a <> alertId) ->
        stored_alerts w' = stored_alerts w)
    /\ exists w'', deleteAlert alertId w' = (inr tt, w'')
                   /\ persisted w'' = persisted w'.
Proof.
  unfold deleteAlert, bind, getAlertsFromStorage.
  eexists. split; [reflexivity|]. simpl.
  split; [reflexivity|]. split; [reflexivity|]. split; [|split].
  - intros a. rewrite filter_In, negb_true_iff, String.eqb_neq. tauto.
  - intros H. apply filter_same. intros a Ha.
    apply negb_true_iff, String.eqb_neq. now apply H.
  - eexists. split; [reflexivity|]. unfold persisted. simpl.
    now rewrite filter_filter_same.
Qed.

Lemma deleteAlert_exact_witness :
  exists w', deleteAlert "9" Sample.agedWorld = (inr tt, w')
             /\ stored_alerts w' = stored_alerts Sample.agedWorld.
Proof.
  destruct (deleteAlert_exact "9" Sample.agedWorld)
    as (w' & Hrun & _ & _ & _ & Hsame & _).
  exists w'. split; [exact Hrun|]. apply Hsame.
  intros a [<-|[<-|[]]]; discriminate.
Defined.

(** X4: [markAllAlertsAsRead] keeps every alert, in order, with all its
    fields but [isRead], which becomes true: afterwards no stored alert
    is unread; the boxes are untouched, and a second call changes nothing
    in the store. *)
Theorem markAllAlertsAsRead_marks_all (userId : string) (w : World) :
  exists w',
    markAllAlertsAsRead userId w = (inr tt, w')
    /\ stored_boxes w' = stored_boxes w
    /\ stored_alerts w'
       = map (fun a => Alert.with_isRead a true) (stored_alerts w)
    /\ List.length (stored_alerts w') = List.length (stored_alerts w)
    /\ (forall a, In a (stored_alerts w') -> Alert.isRead a = true)
    /\ filter unread (stored_alerts w') = []
    /\ exists w'', markAllAlertsAsRead userId w' = (inr tt, w'')
                   /\ persisted w'' = persisted w'.
Proof.
  unfold markAllAlertsAsRead, bind, getAlertsFromStorage.
  eexists. split; [reflexivity|]. simpl.
  split; [reflexivity|]. split; [reflexivity|].
  split; [apply length_map|].
  assert (Hread : forall a,
             In a (map (fun a => Alert.with_isRead a true) (stored_alerts w)) ->
             Alert.isRead a = true).
  { intros a Ha. apply in_map_iff in Ha. destruct Ha as (x & <- & _). reflexivity. }
  split; [exact Hread|]. split.
  - apply filter_none. intros a Ha. unfold unread. now rewrite (Hread a Ha).
  - eexists. split; [reflexivity|]. unfold persisted. simpl.
    rewrite map_map. reflexivity.
Qed.

Lemma findIndex_map {A B} (f : A -> B) (p : B -> bool) (l : list A) :
  findIndex p (map f l) = findIndex (fun x => p (f x)) l.
Proof.
  induction l as [|x l IH]; simpl; [reflexivity|]. now rewrite IH.
Qed.

Lemma updateAt_In {A} (f : A -> A) (l : list A) (i : nat) (y : A) :
  In y (updateAt i f l) -> In y l \/ exists x, In x l /\ y = f x.
Proof.
  revert i; induction l as [|x l IH]; intros [|i]; simpl; try tauto.
  - intros [<-|H]; [right; exists x; auto | left; now right].
  - intros [<-|H]; [left; now left|].
    destruct (IH i H) as [Hin|(z & Hz & ->)]; [left; now right|].
    right. exists z. auto.
Qed.

(** X5: [markAlertAsRead] after [markAllAlertsAsRead] empties the store:
    once every alert is read, dismissing any alert that is present saves
    the unread ones, and there are none. *)
Theorem markAlertAsRead_after_markAll_empties (userId alertId : string) (w : World) :
  (exists a, In a (stored_alerts w) /\ Alert.id a = alertId) ->
  exists w1 w2,
    markAllAlertsAsRead userId w = (inr tt, w1)
    /\ markAlertAsRead alertId w1 = (inr tt, w2)
    /\ stored_alerts w2 = []
    /\ stored_boxes w2 = stored_boxes w.
Proof.
  intros (a & Ha & Hid).
  destruct (findIndex (fun x => String.eqb (Alert.id x) alertId) (stored_alerts w))
    as [i|] eqn:Hf.
  - unfold markAllAlertsAsRead, markAlertAsRead, bind, getAlertsFromStorage.
    eexists _, _. split; [reflexivity|]. simpl.
    rewrite findIndex_map. simpl. rewrite Hf.
    split; [reflexivity|]. simpl. split; [|reflexivity].
    apply filter_none. intros x Hx. apply updateAt_In in Hx.
    destruct Hx as [Hx|(z & Hz & ->)]; [|reflexivity].
    apply in_map_iff in Hx. destruct Hx as (z & <- & _). reflexivity.
  - exfalso. rewrite findIndex_None in Hf. specialize (Hf a Ha).
    simpl in Hf. rewrite Hid, String.eqb_refl in Hf. discriminate.
Qed.

Lemma markAlertAsRead_after_markAll_empties_witness :
  exists w1 w2,
    markAllAlertsAsRead "1" Sample.world = (inr tt, w1)
    /\ markAlertAsRead "1" w1 = (inr tt, w2)
    /\ stored_alerts w2 = []
    /\ stored_boxes w2 = stored_boxes Sample.world.
Proof.
  apply (markAlertAsRead_after_markAll_empties "1" "1" Sample.world).
  eexists. split; [left; reflexivity | reflexivity].
Defined.

Lemma markAllAlertsAsRead_marks_all_witness :
  exists w', markAllAlertsAsRead "1" Sample.agedWorld = (inr tt, w')
             /\ forall a, In a (stored_alerts w') -> Alert.isRead a = true.
Proof.
  destruct (markAllAlertsAsRead_marks_all "1" Sample.agedWorld)
    as (w' & Hrun & _ & _ & _ & Hread & _).
  exists w'. split; [exact Hrun | exact Hread].
Defined.

(** ** Beyond the specification: boxes and medicines *)

Section UpdateAt.
Context {A : Type}.
Variable f : A -> A.

Lemma nth_error_updateAt_same (l : list A) (i : nat) (x : A) :
  nth_error l i = Some x -> nth_error (updateAt i f l) i = Some (f x).
Proof.
  revert i; induction l as [|y l IH]; intros [|i]; simpl; try discriminate.
  - now intros [= ->].
  - apply IH.
Qed.

Lemma nth_error_updateAt_other (l : list A) (i j : nat) :
  j <> i -> nth_error (updateAt i f l) j = nth_error l j.
Proof.
  revert i j; induction l as [|y l IH]; intros [|i] [|j] H; simpl;
    try reflexivity; try contradiction.
  apply IH. congruence.
Qed.

Lemma findIndex_updateAt (p : A -> bool) (l : list A) (i : nat) :
  (forall x, p (f x) = p x) -> findIndex p (updateAt i f l) = findIndex p l.
Proof.
  intros H. revert i; induction l as [|y l IH]; intros [|i]; simpl;
    try reflexivity.
  - now rewrite H.
  - now rewrite IH.
Qed.

Lemma updateAt_twice (g : A -> A) (l : list A) (i : nat) :
  updateAt i g (updateAt i f l) = updateAt i (fun x => g (f x)) l.
Proof.
  revert i; induction l as [|y l IH]; intros [|i]; simpl; try reflexivity.
  now rewrite IH.
Qed.

Lemma updateAt_ext (g : A -> A) (l : list A) (i : nat) :
  (forall x, f x = g x) -> updateAt i f l = updateAt i g l.
Proof.
  intros H. revert i; induction l as [|y l IH]; intros [|i]; simpl;
    try reflexivity.
  - now rewrite H.
  - now rewrite IH.
Qed.

End UpdateAt.

(** X6: [createMedicineBox] appends one box, with a fresh identifier and
    the medicines of the form data, to the stored boxes and leaves the
    stored boxes and alerts as they were; [getMedicineBoxes] then returns,
    for the owner, what it returned before followed by the new box, and
    for any other user what it returned before. *)
Theorem createMedicineBox_then_get (now : Z) (boxData : MedicineBox.t) (w : World) :
  exists newBox w',
    createMedicineBox now boxData w = (inr newBox, w')
    /\ MedicineBox.id newBox = random w (drawn w)
    /\ MedicineBox.medicines newBox = MedicineBox.medicines boxData
    /\ MedicineBox.userId newBox = MedicineBox.userId boxData
    /\ stored_boxes w' = (stored_boxes w ++ [newBox])%list
    /\ stored_alerts w' = stored_alerts w
    /\ (forall userId before,
          fst (getMedicineBoxes userId w) = inr before ->
          fst (getMedicineBoxes userId w')
          = inr (before ++ if String.eqb (MedicineBox.userId boxData) userId
                           then [newBox] else [])%list).
Proof.
  unfold createMedicineBox, bind, getMedicineBoxesFromStorage, randomId.
  eexists _, _. split; [reflexivity|]. simpl.
  repeat (split; [reflexivity|]).
  intros userId before. unfold getMedicineBoxes, bind, getMedicineBoxesFromStorage.
  simpl. intros [= <-]. rewrite filter_app. simpl.
  now destruct (String.eqb (MedicineBox.userId boxData) userId).
Qed.

Lemma createMedicineBox_then_get_witness :
  exists newBox w',
    createMedicineBox Sample.eightOClock Fixture.cupboard Sample.world = (inr newBox, w')
    /\ fst (getMedicineBoxes "2" w') = inr [newBox].
Proof.
  destruct (createMedicineBox_then_get Sample.eightOClock Fixture.cupboard Sample.world)
    as (newBox & w' & Hrun & _ & _ & _ & _ & _ & Hget).
  exists newBox, w'. split; [exact Hrun|].
  exact (Hget "2" [] eq_refl).
Defined.

(** X7: [deleteMedicine] rewrites the first box with the given id and no
    other: that box keeps exactly its medicines with another id, in
    order, and gets [updatedAt = now]; every other box stays as it was.
    Deleting the same medicine again at the same instant changes nothing
    in the store. *)
Theorem deleteMedicine_boxes (now : Z) (boxId medicineId : string) (w : World)
    (i : nat) :
  findIndex (hasId boxId) (stored_boxes w) = Some i ->
  exists box w',
    nth_error (stored_boxes w) i = Some box
    /\ deleteMedicine now boxId medicineId w = (inr tt, w')
    /\ nth_error (stored_boxes w') i
       = Some (MedicineBox.with_updatedAt
                 (MedicineBox.with_medicines box
                    (filter (fun med => negb (medHasId medicineId med))
                            (MedicineBox.medicines box))) now)
    /\ (forall j, j <> i ->
                  nth_error (stored_boxes w') j = nth_error (stored_boxes w) j)
    /\ List.length (stored_boxes w') = List.length (stored_boxes w)
    /\ exists w'', deleteMedicine now boxId medicineId w' = (inr tt, w'')
                   /\ persisted w'' = persisted w'.
Proof.
  intros Hf. destruct (findIndex_Some _ _ _ Hf) as (box & Hn & _).
  set (f := fun b => MedicineBox.with_updatedAt
                       (MedicineBox.with_medicines b
                          (filter (fun med => negb (medHasId medicineId med))
                                  (MedicineBox.medicines b))) now).
  assert (Hf' : findIndex (hasId boxId) (updateAt i f (stored_boxes w)) = Some i).
  { rewrite findIndex_updateAt; [assumption | reflexivity]. }
  exists box. unfold deleteMedicine, bind, getMedicineBoxesFromStorage.
  rewrite Hf. fold f.
  eexists. split; [assumption|]. split; [reflexivity|]. simpl.
  split; [exact (nth_error_updateAt_same f _ _ _ Hn)|].
  split; [intros j Hj; exact (nth_error_updateAt_other f _ _ _ Hj)|].
  split.
  { rewrite (updateAt_split _ _ _ _ Hn).
    rewrite <- (firstn_skipn i (stored_boxes w)) at 3.
    rewrite !length_app. simpl.
    assert (Hsk : skipn i (stored_boxes w) = box :: skipn (S i) (stored_boxes w)).
    { clear -Hn. revert i Hn. induction (stored_boxes w) as [|y r IH];
        intros [|i] Hn; simpl in *; try discriminate.
      - now injection Hn as ->.
      - now apply IH. }
    rewrite Hsk. reflexivity. }
  rewrite Hf'. eexists. split; [reflexivity|]. unfold persisted. simpl.
  rewrite updateAt_twice, filter_filter_same. f_equal.
  apply updateAt_ext. intros b. unfold f. simpl. now rewrite filter_filter_same.
Qed.

Lemma deleteMedicine_boxes_witness :
  exists box w',
    nth_error (stored_boxes Sample.world) 0 = Some box
    /\ deleteMedicine Sample.eightOClock "1" "2" Sample.world = (inr tt, w')
    /\ option_map (fun b => List.length (MedicineBox.medicines b))
                  (nth_error (stored_boxes w') 0) = Some 1%nat.
Proof.
  destruct (deleteMedicine_boxes Sample.eightOClock "1" "2" Sample.world O eq_refl)
    as (box & w' & Hn & Hrun & Hbox & _).
  exists box, w'. split; [exact Hn|]. split; [exact Hrun|].
  rewrite Hbox. injection Hn as <-. reflexivity.
Defined.

Lemma isUnreadLowAlertFor_spec (medicineId : string) (l : list Alert.t) :
  existsb (isUnreadLowAlertFor medicineId) l = true <->
  exists a, In a l /\ Alert.medicineId a = medicineId
            /\ Alert.type a = low_count /\ Alert.isRead a = false.
Proof.
  rewrite existsb_exists. unfold isUnreadLowAlertFor.
  split; intros (a & Ha & H); exists a; (split; [assumption|]).
  - rewrite !andb_true_iff, String.eqb_eq, negb_true_iff in H.
    destruct H as [[H1 H2] H3]. repeat split; auto. now destruct (Alert.type a).
  - destruct H as (H1 & H2 & H3).
    rewrite !andb_true_iff, String.eqb_eq, negb_true_iff, H2. auto.
Qed.

(** The medicine [addMedicine] builds from the form data. *)
Lemma addMedicine_run (now : Z) (boxId : string) (medicineData : Medicine.t)
    (w : World) (i : nat) (box : MedicineBox.t) :
  findIndex (hasId boxId) (stored_boxes w) = Some i ->
  nth_error (stored_boxes w) i = Some box ->
  let m := Medicine.mk (random w (drawn w)) (Medicine.name medicineData)
             (Medicine.timesPerDay medicineData) (Medicine.totalCount medicineData)
             (Medicine.currentCount medicineData) (Medicine.customMessage medicineData)
             (Medicine.scheduleTime medicineData) now now in
  let low := (Medicine.currentCount medicineData <=? 3)
             && (0 <? Medicine.currentCount medicineData)
             && negb (existsb (isUnreadLowAlertFor (Medicine.id m)) (stored_alerts w)) in
  addMedicine now boxId medicineData w
  = (inr m,
     mkWorld
       (updateAt i
          (fun b => MedicineBox.with_updatedAt
                      (MedicineBox.with_medicines b (MedicineBox.medicines b ++ [m]))
                      now)
          (stored_boxes w))
       (stored_alerts w
        ++ if low then [lowCountAlert now (random w (S (drawn w))) box m] else [])
       (random w)
       (if low then S (S (drawn w)) else S (drawn w))
       (effects w ++ [Saved MEDICINE_BOXES; Saved ALERTS])).
Proof.
  intros Hf Hn. unfold addMedicine, bind, getMedicineBoxesFromStorage, randomId.
  simpl. rewrite Hf, Hn. unfold getAlertsFromStorage. simpl.
  destruct ((Medicine.currentCount medicineData <=? 3)
            && (0 <? Medicine.currentCount medicineData)); simpl.
  - destruct (existsb _ (stored_alerts w)); simpl;
      rewrite <- ?app_assoc, ?app_nil_r; reflexivity.
  - rewrite <- app_assoc, app_nil_r. reflexivity.
Qed.

(** X8: [addMedicine] on an existing box appends the new medicine, with a
    fresh id and the fields of the form data, as the last medicine of the
    first box with that id, and changes no other box; it appends one
    [low_count] alert for the new medicine when its count is 1, 2 or 3
    and no unread [low_count] alert carries its id, and otherwise leaves
    the alerts as they were. *)
Theorem addMedicine_appends (now : Z) (boxId : string) (medicineData : Medicine.t)
    (w : World) (i : nat) :
  findIndex (hasId boxId) (stored_boxes w) = Some i ->
  exists box m w',
    nth_error (stored_boxes w) i = Some box
    /\ addMedicine now boxId medicineData w = (inr m, w')
    /\ Medicine.id m = random w (drawn w)
    /\ Medicine.currentCount m = Medicine.currentCount medicineData
    /\ Medicine.scheduleTime m = Medicine.scheduleTime medicineData
    /\ nth_error (stored_boxes w') i
       = Some (MedicineBox.with_updatedAt
                 (MedicineBox.with_medicines box (MedicineBox.medicines box ++ [m]))
                 now)
    /\ (forall j, j <> i ->
                  nth_error (stored_boxes w') j = nth_error (stored_boxes w) j)
    /\ (0 < Medicine.currentCount m <= 3 ->
        ~ (exists a, In a (stored_alerts w) /\ Alert.medicineId a = Medicine.id m
                     /\ Alert.type a = low_count /\ Alert.isRead a = false) ->
        exists a, stored_alerts w' = (stored_alerts w ++ [a])%list
                  /\ Alert.medicineId a = Medicine.id m
                  /\ Alert.type a = low_count
                  /\ Alert.isRead a = false
                  /\ Alert.boxName a = MedicineBox.name box)
    /\ (Medicine.currentCount m <= 0 \/ 3 < Medicine.currentCount m
        \/ (exists a, In a (stored_alerts w) /\ Alert.medicineId a = Medicine.id m
                      /\ Alert.type a = low_count /\ Alert.isRead a = false) ->
        stored_alerts w' = stored_alerts w).
Proof.
  intros Hf. destruct (findIndex_Some _ _ _ Hf) as (box & Hn & _).
  pose proof (addMedicine_run now boxId medicineData w i box Hf Hn) as Hrun.
  cbv zeta in Hrun.
  eexists box, _, _. split; [assumption|]. split; [exact Hrun|]. simpl.
  split; [reflexivity|]. split; [reflexivity|]. split; [reflexivity|].
  split; [exact (nth_error_updateAt_same _ _ _ _ Hn)|].
  split; [intros j Hj; exact (nth_error_updateAt_other _ _ _ _ Hj)|].
  split.
  - intros [H0 H3] Hnone.
    rewrite (proj2 (Z.leb_le _ _) H3), (proj2 (Z.ltb_lt _ _) H0). simpl.
    destruct (existsb _ (stored_alerts w)) eqn:E.
    + exfalso. apply Hnone. now apply isUnreadLowAlertFor_spec in E.
    + simpl. eexists. split; [reflexivity|]. simpl. auto.
  - intros H.
    match goal with
    | |- (_ ++ (if ?c then _ else _))%list = _ =>
        replace c with false; [apply app_nil_r|]
    end.
    symmetry. destruct H as [H|[H|H]].
    + rewrite (proj2 (Z.ltb_ge _ _) H). now rewrite andb_false_r.
    + rewrite (proj2 (Z.leb_gt _ _) H). reflexivity.
    + apply isUnreadLowAlertFor_spec in H. simpl in H. rewrite H.
      apply andb_false_r.
Qed.

Lemma addMedicine_appends_witness :
  exists box m w',
    nth_error (stored_boxes Sample.world) 1 = Some box
    /\ addMedicine Sample.eightOClock "2" Fixture.empty Sample.world = (inr m, w')
    /\ stored_alerts w' = stored_alerts Sample.world.
Proof.
  destruct (addMedicine_appends Sample.eightOClock "2" Fixture.empty Sample.world
              1 eq_refl)
    as (box & m & w' & Hn & Hrun & _ & Hc & _ & _ & _ & _ & Hsame).
  exists box, m, w'. split; [exact Hn|]. split; [exact Hrun|].
  apply Hsame. left. rewrite Hc. simpl. lia.
Defined.

Lemma checkLowMedicines_run (now : Z) (w : World) :
  exists tk',
    checkLowMedicines now w
    = (inr (newAlerts tk'),
       mkWorld (stored_boxes w) (alerts tk') (random w) (draws tk')
               (effects w ++ [Saved ALERTS]))
    /\ LowRun (allMedicines (stored_boxes w))
              (mkTick (stored_alerts w) [] (drawn w)) tk'.
Proof.
  unfold checkLowMedicines, bind, getMedicineBoxesFromStorage, getAlertsFromStorage.
  eexists. split; [reflexivity|]. apply LowRun_boxes.
Qed.

(** X9: a medicine added with 1, 2 or 3 pills gets no [low_count] alert
    from the low-stock tick that follows: [addMedicine] has left one for
    its id in the store (or an unread one was there), and the tick skips
    ids that have one. *)
Theorem addMedicine_then_low_tick (now1 now2 : Z) (boxId : string)
    (medicineData : Medicine.t) (w : World) :
  (exists box, In box (stored_boxes w) /\ MedicineBox.id box = boxId) ->
  0 < Medicine.currentCount medicineData <= 3 ->
  exists m w1 new w2,
    addMedicine now1 boxId medicineData w = (inr m, w1)
    /\ checkLowMedicines now2 w1 = (inr new, w2)
    /\ (exists a, In a (stored_alerts w1) /\ Alert.medicineId a = Medicine.id m
                  /\ Alert.type a = low_count)
    /\ (forall a, In a new -> Alert.medicineId a <> Medicine.id m).
Proof.
  intros (box0 & Hin & Hid) [H0 H3].
  destruct (findIndex (hasId boxId) (stored_boxes w)) as [i|] eqn:Hf.
  2:{ exfalso. rewrite findIndex_None in Hf. specialize (Hf box0 Hin).
      unfold hasId in Hf. rewrite Hid, String.eqb_refl in Hf. discriminate. }
  destruct (findIndex_Some _ _ _ Hf) as (box & Hn & _).
  pose proof (addMedicine_run now1 boxId medicineData w i box Hf Hn) as Hrun.
  cbv zeta in Hrun.
  rewrite (proj2 (Z.leb_le _ _) H3), (proj2 (Z.ltb_lt _ _) H0) in Hrun.
  simpl in Hrun.
  match type of Hrun with
  | _ = (inr ?m0, ?w0) => remember w0 as w1 eqn:Ew1; remember m0 as m eqn:Em
  end.
  assert (Hlow : existsb (isLowAlertFor (Medicine.id m)) (stored_alerts w1) = true).
  { rewrite Ew1, Em. simpl. rewrite existsb_app.
    destruct (existsb (isUnreadLowAlertFor (random w (drawn w))) (stored_alerts w))
      eqn:E; simpl.
    - apply orb_true_iff. left.
      apply isUnreadLowAlertFor_spec in E. destruct E as (a & Ha & H1 & H2 & _).
      apply existsb_exists. exists a. split; [assumption|].
      now apply isLowAlertFor_spec.
    - unfold isLowAlertFor at 2. simpl. rewrite String.eqb_refl. simpl.
      apply orb_true_r. }
  clear Ew1 Em.
  destruct (checkLowMedicines_run now2 w1)
    as (tk' & Hlowrun & added & _ & Hnew & Hsound & _).
  simpl in Hnew, Hsound.
  exists m, w1. eexists _, _. split; [exact Hrun|]. split; [exact Hlowrun|].
  split.
  - apply existsb_exists in Hlow. destruct Hlow as (a & Ha & Hp).
    apply isLowAlertFor_spec in Hp. exists a. tauto.
  - rewrite Hnew. intros a Ha Heq.
    destruct (Hsound a Ha) as (_ & m' & _ & Hid' & _ & Hno).
    rewrite <- Hid', Heq in Hno. congruence.
Qed.

Lemma addMedicine_then_low_tick_witness :
  exists m w1 new w2,
    addMedicine Sample.eightOClock "1"
      (Medicine.with_currentCount Fixture.empty 2) Sample.world = (inr m, w1)
    /\ checkLowMedicines (Sample.eightOClock + 30000) w1 = (inr new, w2)
    /\ (forall a, In a new -> Alert.medicineId a <> Medicine.id m).
Proof.
  destruct (addMedicine_then_low_tick Sample.eightOClock (Sample.eightOClock + 30000)
              "1" (Medicine.with_currentCount Fixture.empty 2) Sample.world)
    as (m & w1 & new & w2 & H1 & H2 & _ & H3).
  - exists Sample.kitchen. split; [left; reflexivity | reflexivity].
  - simpl. lia.
  - exists m, w1, new, w2. auto.
Defined.

Lemma updateMedicine_run (now : Z) (boxId medicineId : string)
    (updates : Medicine.t -> Medicine.t) (w : World) (i j : nat)
    (b : MedicineBox.t) (m : Medicine.t) :
  findIndex (hasId boxId) (stored_boxes w) = Some i ->
  nth_error (stored_boxes w) i = Some b ->
  findIndex (medHasId medicineId) (MedicineBox.medicines b) = Some j ->
  nth_error (MedicineBox.medicines b) j = Some m ->
  updateMedicine now boxId medicineId updates w
  = (inr (Medicine.with_updatedAt (updates m) now),
     mkWorld
       (updateAt i
          (fun b0 =>
             MedicineBox.with_updatedAt
               (MedicineBox.with_medicines b0
                  (updateAt j (fun m0 => Medicine.with_updatedAt (updates m0) now)
                            (MedicineBox.medicines b)))
               now)
          (stored_boxes w))
       (stored_alerts w) (random w) (drawn w)
       (effects w ++ [Saved MEDICINE_BOXES])).
Proof.
  intros Hi Hb Hj Hm.
  unfold updateMedicine, bind, getMedicineBoxesFromStorage.
  rewrite Hi, Hb, Hj. unfold saveBoxes. simpl.
  now rewrite (nth_error_updateAt_same _ _ _ _ Hm).
Qed.

(** X10: saving the edit form writes the six fields of the form over the
    stored medicine, whatever it holds, keeping its id and creation date;
    every other medicine and the alerts stay as they were.  So a form
    opened on the view's copy [e] of the medicine and submitted untouched
    stores the count of that copy, or its total count when that copy had
    run out. *)
Theorem edit_save_overwrites (now : Z) (box : MedicineBox.t) (e : Medicine.t)
    (d : MedicineForm.FormData) (w : World) (i j : nat)
    (b : MedicineBox.t) (m : Medicine.t) :
  findIndex (hasId (MedicineBox.id box)) (stored_boxes w) = Some i ->
  nth_error (stored_boxes w) i = Some b ->
  findIndex (medHasId (Medicine.id e)) (MedicineBox.medicines b) = Some j ->
  nth_error (MedicineBox.medicines b) j = Some m ->
  exists w',
    App.handleMedicineSaved now box (Some e) d w = (inr tt, w')
    /\ medicineAt (stored_boxes w') i j
       = Some (Medicine.with_updatedAt (App.spread d m) now)
    /\ (forall i' j', (i', j') <> (i, j) ->
          medicineAt (stored_boxes w') i' j' = medicineAt (stored_boxes w) i' j')
    /\ stored_alerts w' = stored_alerts w
    /\ (d = MedicineForm.handleSubmit (MedicineForm.edit e) ->
        exists m', medicineAt (stored_boxes w') i j = Some m'
                   /\ Medicine.id m' = Medicine.id m
                   /\ Medicine.currentCount m'
                      = if Medicine.currentCount e =? 0
                        then Medicine.totalCount e
                        else Medicine.currentCount e).
Proof.
  intros Hi Hb Hj Hm.
  unfold App.handleMedicineSaved, attempt, bind at 1.
  rewrite (updateMedicine_run now _ _ (App.spread d) w i j b m Hi Hb Hj Hm).
  eexists. split; [reflexivity|]. simpl.
  set (fm := fun m0 => Medicine.with_updatedAt (App.spread d m0) now).
  set (fb := fun b0 => MedicineBox.with_updatedAt
                         (MedicineBox.with_medicines b0
                            (updateAt j fm (MedicineBox.medicines b))) now).
  assert (Hat : medicineAt (updateAt i fb (stored_boxes w)) i j = Some (fm m)).
  { unfold medicineAt. rewrite (nth_error_updateAt_same fb _ _ _ Hb). simpl.
    exact (nth_error_updateAt_same fm _ _ _ Hm). }
  split; [exact Hat|]. split; [|split; [reflexivity|]].
  - intros i' j' Hne. unfold medicineAt.
    destruct (Nat.eq_dec i' i) as [->|Hi'].
    + rewrite (nth_error_updateAt_same fb _ _ _ Hb), Hb. simpl.
      apply nth_error_updateAt_other. congruence.
    + now rewrite (nth_error_updateAt_other fb _ _ _ Hi').
  - intros ->. exists (fm m). split; [exact Hat|]. split; reflexivity.
Qed.

Lemma edit_save_overwrites_witness :
  exists w',
    App.handleMedicineSaved Sample.eightOClock Fixture.cupboard (Some Fixture.empty)
      (MedicineForm.handleSubmit (MedicineForm.edit Fixture.empty))
      Fixture.cupboardWorld = (inr tt, w')
    /\ option_map Medicine.currentCount (medicineAt (stored_boxes w') 1 0) = Some 30.
Proof.
  destruct (edit_save_overwrites Sample.eightOClock Fixture.cupboard Fixture.empty
              (MedicineForm.handleSubmit (MedicineForm.edit Fixture.empty))
              Fixture.cupboardWorld 1 0 Fixture.cupboard Fixture.empty
              eq_refl eq_refl eq_refl eq_refl)
    as (w' & Hrun & _ & _ & _ & Huntouched).
  exists w'. split; [exact Hrun|].
  destruct (Huntouched eq_refl) as (m' & Hat & _ & Hc).
  rewrite Hat. simpl. rewrite Hc. reflexivity.
Defined.

(** X11: [toggleESP32Connection] looks the box up by its device id
    ([boxId]) and rejects, writing nothing, when no box carries it.  On a
    box that is found, two toggles in a row bring [isConnected] back and
    never touch the medicines or the alerts, but they leave a [lastSyncAt]
    behind: the instant of whichever toggle connected the box. *)
Theorem toggle_twice (now1 now2 : Z) (boxId : string) (w : World) :
  ((forall box, In box (stored_boxes w) -> MedicineBox.boxId box <> boxId) ->
   toggleESP32Connection now1 boxId w = (inl "Medicine box not found", w))
  /\ (forall i,
        findIndex (hasBoxId boxId) (stored_boxes w) = Some i ->
        exists b b1 b2 w1 w2,
          nth_error (stored_boxes w) i = Some b
          /\ toggleESP32Connection now1 boxId w = (inr b1, w1)
          /\ toggleESP32Connection now2 boxId w1 = (inr b2, w2)
          /\ MedicineBox.isConnected b1 = negb (MedicineBox.isConnected b)
          /\ MedicineBox.isConnected b2 = MedicineBox.isConnected b
          /\ MedicineBox.medicines b2 = MedicineBox.medicines b
          /\ MedicineBox.lastSyncAt b2
             = Some (if MedicineBox.isConnected b then now2 else now1)
          /\ nth_error (stored_boxes w2) i = Some b2
          /\ (forall j, j <> i ->
                nth_error (stored_boxes w2) j = nth_error (stored_boxes w) j)
          /\ stored_alerts w2 = stored_alerts w).
Proof.
  split.
  - intros Hnone. unfold toggleESP32Connection, bind, getMedicineBoxesFromStorage.
    replace (findIndex (hasBoxId boxId) (stored_boxes w)) with (@None nat);
      [reflexivity|].
    symmetry. apply findIndex_None. intros box Hbox.
    apply String.eqb_neq. now apply Hnone.
  - intros i Hf. destruct (findIndex_Some _ _ _ Hf) as (b & Hn & _).
    set (t := fun now (box : MedicineBox.t) =>
                let box' :=
                  MedicineBox.with_updatedAt
                    (setIsConnected box (negb (MedicineBox.isConnected box))) now in
                if MedicineBox.isConnected box' then setLastSyncAt box' (Some now)
                else box').
    assert (Hkeep : forall now x, hasBoxId boxId (t now x) = hasBoxId boxId x).
    { intros now x. unfold t. simpl.
      now destruct (negb (MedicineBox.isConnected x)). }
    assert (H1 : toggleESP32Connection now1 boxId w
                 = (inr (t now1 b),
                    mkWorld (updateAt i (t now1) (stored_boxes w)) (stored_alerts w)
                            (random w) (drawn w)
                            (effects w ++ [Saved MEDICINE_BOXES]))).
    { unfold toggleESP32Connection, bind, getMedicineBoxesFromStorage.
      rewrite Hf. fold (t now1). unfold saveBoxes. simpl.
      now rewrite (nth_error_updateAt_same (t now1) _ _ _ Hn). }
    pose proof (nth_error_updateAt_same (t now1) _ _ _ Hn) as Hn1.
    assert (H2 : toggleESP32Connection now2 boxId
                   (mkWorld (updateAt i (t now1) (stored_boxes w)) (stored_alerts w)
                            (random w) (drawn w)
                            (effects w ++ [Saved MEDICINE_BOXES]))
                 = (inr (t now2 (t now1 b)),
                    mkWorld (updateAt i (t now2) (updateAt i (t now1) (stored_boxes w)))
                            (stored_alerts w) (random w) (drawn w)
                            ((effects w ++ [Saved MEDICINE_BOXES])
                             ++ [Saved MEDICINE_BOXES]))).
    { unfold toggleESP32Connection, bind, getMedicineBoxesFromStorage.
      cbn [stored_boxes stored_alerts random drawn effects].
      rewrite (findIndex_updateAt (t now1) _ _ _ (Hkeep now1)), Hf.
      fold (t now2). unfold saveBoxes.
      cbn [stored_boxes stored_alerts random drawn effects].
      now rewrite (nth_error_updateAt_same (t now2) _ _ _ Hn1). }
    exists b, (t now1 b), (t now2 (t now1 b)). eexists _, _.
    split; [exact Hn|]. split; [exact H1|]. split; [exact H2|]. simpl.
    split; [unfold t; simpl; now destruct (MedicineBox.isConnected b)|].
    split; [unfold t; simpl; now destruct (MedicineBox.isConnected b)|].
    split; [unfold t; simpl; now destruct (MedicineBox.isConnected b)|].
    split; [unfold t; simpl; now destruct (MedicineBox.isConnected b)|].
    split; [exact (nth_error_updateAt_same (t now2) _ _ _ Hn1)|].
    split; [|reflexivity].
    intros j Hj. now rewrite !nth_error_updateAt_other.
Qed.

Lemma toggle_twice_witness :
  toggleESP32Connection Sample.eightOClock "1" Sample.world
  = (inl "Medicine box not found", Sample.world).
Proof.
  apply (proj1 (toggle_twice Sample.eightOClock Sample.eightOClock "1" Sample.world)).
  intros box [<-|[<-|[<-|[]]]]; discriminate.
Defined.

(** ** Beyond the specification: the device client *)

Lemma ok_spec (status : Z) : ESP32Service.ok status = true <-> 200 <= status <= 299.
Proof.
  unfold ESP32Service.ok. rewrite andb_true_iff, !Z.leb_le. tauto.
Qed.

Lemma append_not_empty (a b : string) : a <> "" -> a ++ b <> "".
Proof. destruct a; [contradiction | discriminate]. Qed.

Lemma orElse_not_empty (o : option string) (d : string) :
  d <> "" -> orElse o d <> "".
Proof.
  intros Hd. destruct o as [s|]; simpl; [|assumption].
  destruct (String.eqb_spec s ""); assumption.
Qed.

(** X12: [testConnection], [syncMedicines] and [getStatus] classify every
    end of a request alike.  [testConnection] and [syncMedicines] report
    success exactly when the device answered with a 2xx status and a body
    that parses to a value other than [null] (and, for a sync, whose
    status is "success"); [getStatus], which reads no property of the
    body, succeeds on every 2xx answer whose body parses, [null]
    included, and hands over the body exactly then.  A network error, a
    timeout, another status or an unreadable body is a failure; and the
    message is never empty. *)
Theorem requests_succeed_iff :
  (forall ip reply,
      (ESP32Service.success (ESP32.testConnection ip reply) = true <->
       exists status text data,
         reply = ESP32.Answered status text (Some (ESP32.Value data))
         /\ 200 <= status <= 299)
      /\ ESP32Service.message (ESP32.testConnection ip reply) <> "")
  /\ (forall box device,
        (ESP32Service.success (ESP32.syncMedicines box device) = true <->
         exists status text result,
           device (ESP32.syncData box)
           = ESP32.Answered status text (Some (ESP32.Value result))
           /\ 200 <= status <= 299
           /\ ESP32Response.status result = ESP32Response.success)
        /\ ESP32Service.message (ESP32.syncMedicines box device) <> "")
  /\ (forall (D : Type) ip (reply : ESP32.Reply D),
        (ESP32.success (ESP32.getStatus ip reply) = true <->
         exists status text d,
           reply = ESP32.Answered status text (Some d) /\ 200 <= status <= 299)
        /\ (forall d, ESP32.data (ESP32.getStatus ip reply) = Some d <->
                      exists status text,
                        reply = ESP32.Answered status text (Some d)
                        /\ 200 <= status <= 299)
        /\ ESP32.message (ESP32.getStatus ip reply) <> "").
Proof.
  split; [|split].
  - intros ip reply. unfold ESP32.testConnection.
    destruct reply as [status text [[|data]|]| |];
      try destruct (ESP32Service.ok status) eqn:Hok; simpl;
      (split; [|discriminate]);
      try (split; [discriminate | intros (s & t & d & E & H); try discriminate E]).
    + split; [intros _|reflexivity].
      exists status, text, data. split; [reflexivity | now apply ok_spec].
    + injection E as -> _ _. apply ok_spec in H. congruence.
  - intros box device. unfold ESP32.syncMedicines.
    destruct (device (ESP32.syncData box)) as [status text [[|result]|]| |];
      try destruct (ESP32Service.ok status) eqn:Hok; simpl;
      (split;
         [|first [discriminate
                 |exact (orElse_not_empty (Some (ESP32Response.message result))
                           "Sync completed successfully" ltac:(discriminate))]]);
      try (split; [discriminate | intros (s & t & r & E & H & Hs); try discriminate E]).
    + destruct (ESP32Response.status result) eqn:Hs.
      * split; [intros _|reflexivity]. exists status, text, result.
        split; [reflexivity|]. split; [now apply ok_spec | assumption].
      * split; [discriminate|]. intros (s & t & r & [= _ _ <-] & _ & H).
        congruence.
    + injection E as -> _ _. apply ok_spec in H. congruence.
  - intros D ip reply. unfold ESP32.getStatus.
    destruct reply as [status text [d0|]| |];
      try (split; [split; [discriminate | intros (? & ? & ? & ? & _); discriminate]
                  |split; [intros d; split; [discriminate
                                            | intros (? & ? & ? & _); discriminate]
                          | discriminate]]);
      destruct (ESP32Service.ok status) eqn:Hok; simpl.
    + split; [|split; [|discriminate]].
      * split; [intros _|reflexivity]. exists status, text, d0.
        split; [reflexivity | now apply ok_spec].
      * intros d. split.
        -- intros [= <-]. exists status, text. split; [reflexivity | now apply ok_spec].
        -- intros (s & t & [= _ _ <-] & _). reflexivity.
    + split; [|split; [|discriminate]].
      * split; [discriminate|].
        intros (s & t & d & [= -> _ _] & H). apply ok_spec in H. congruence.
      * intros d. split; [discriminate|].
        intros (s & t & [= -> _ _] & H). apply ok_spec in H. congruence.
    + split; [|split; [|discriminate]].
      * split; [discriminate|]. intros (? & ? & ? & ? & _). discriminate.
      * intros d. split; [discriminate|]. intros (? & ? & ? & _). discriminate.
    + split; [|split; [|discriminate]].
      * split; [discriminate|]. intros (? & ? & ? & ? & _). discriminate.
      * intros d. split; [discriminate|]. intros (? & ? & ? & _). discriminate.
Qed.

(** X13: the body of [POST /sync] lists the medicines of the box in their
    order, each with its id and name, with times that are never an empty
    list and that, joined by commas, give the medicine's schedule string
    back (so an empty schedule is sent as one empty time), and with a
    message that is never empty. *)
Theorem syncData_entries (box : MedicineBox.t) :
  SyncData.boxId (ESP32.syncData box) = MedicineBox.boxId box
  /\ List.length (SyncData.medicines (ESP32.syncData box))
     = List.length (MedicineBox.medicines box)
  /\ (forall k m,
        nth_error (MedicineBox.medicines box) k = Some m ->
        exists e,
          nth_error (SyncData.medicines (ESP32.syncData box)) k = Some e
          /\ SyncData.id e = Medicine.id m
          /\ SyncData.name e = Medicine.name m
          /\ SyncData.times e <> []
          /\ join "," (SyncData.times e) = Medicine.scheduleTime m
          /\ (Medicine.scheduleTime m = "" -> SyncData.times e = [""])
          /\ SyncData.message e <> "").
Proof.
  unfold ESP32.syncData. simpl. split; [reflexivity|].
  split; [apply length_map|].
  intros k m Hk. eexists. split; [apply map_nth_error; exact Hk|]. simpl.
  split; [reflexivity|]. split; [reflexivity|].
  split; [apply split_not_nil|]. split; [apply join_split|].
  split; [now intros ->|].
  apply orElse_not_empty. discriminate.
Qed.

Lemma syncData_entries_witness :
  exists e,
    nth_error (SyncData.medicines (ESP32.syncData Sample.kitchen)) 1 = Some e
    /\ join "," (SyncData.times e) = "08:00,20:00".
Proof.
  destruct (proj2 (proj2 (syncData_entries Sample.kitchen)) 1%nat _ eq_refl)
    as (e & He & _ & _ & _ & Hj & _).
  exists e. split; [exact He | exact Hj].
Defined.





(** ** Beyond the specification: the handlers of the views *)

Lemma updateMedicineBox_run (now : Z) (id : string)
    (updates : MedicineBox.t -> MedicineBox.t) (w : World) (i : nat)
    (b : MedicineBox.t) :
  findIndex (hasId id) (stored_boxes w) = Some i ->
  nth_error (stored_boxes w) i = Some b ->
  updateMedicineBox now id updates w
  = (inr (MedicineBox.with_updatedAt (updates b) now),
     mkWorld
       (updateAt i (fun b0 => MedicineBox.with_updatedAt (updates b0) now)
                 (stored_boxes w))
       (stored_alerts w) (random w) (drawn w)
       (effects w ++ [Saved MEDICINE_BOXES])).
Proof.
  intros Hf Hn. unfold updateMedicineBox, bind, getMedicineBoxesFromStorage.
  rewrite Hf. unfold saveBoxes. simpl.
  now rewrite (nth_error_updateAt_same _ _ _ _ Hn).
Qed.

Lemma unknown_box_rejects_update (now : Z) (id : string) (w : World) :
  (forall b, In b (stored_boxes w) -> MedicineBox.id b <> id) ->
  forall updates,
    updateMedicineBox now id updates w = (inl "Medicine box not found", w).
Proof.
  intros Hnone updates. unfold updateMedicineBox, bind, getMedicineBoxesFromStorage.
  replace (findIndex (hasId id) (stored_boxes w)) with (@None nat); [reflexivity|].
  symmetry. apply findIndex_None. intros b Hb. apply String.eqb_neq. now apply Hnone.
Qed.

Lemma BoxStepped_findIndex (now : Z) (id : string) (bs bs' : list MedicineBox.t) :
  Forall2 (BoxStepped now) bs bs' ->
  findIndex (hasId id) bs' = findIndex (hasId id) bs.
Proof.
  induction 1 as [|b b' bs bs' (ms' & -> & _) _ IH]; simpl; [reflexivity|].
  unfold hasId at 1 3. simpl. now rewrite IH.
Qed.

(** X16: the disconnect button of the dashboard writes the view's copy of
    the box over the stored box: run after a dose tick, it leaves in the
    store the medicines of that copy, with the counts the view held, while
    the alerts of the tick stay; only [isConnected] (false) and
    [updatedAt] differ from the copy.  This holds whatever the device
    answered; when the box id is unknown the handler ends normally and
    writes nothing. *)
Theorem disconnect_writes_view_copy (L : Locale) (now1 now2 : Z)
    (box : MedicineBox.t) (outcome : ESP32Service.FetchOutcome) (w : World) :
  ((forall b, In b (stored_boxes w) -> MedicineBox.id b <> MedicineBox.id box) ->
   Dashboard.handleDisconnectBox now2 box outcome w = (inr tt, w))
  /\ (forall i,
        findIndex (hasId (MedicineBox.id box)) (stored_boxes w) = Some i ->
        exists new w1 w2,
          checkMedicineTimes L now1 w = (inr new, w1)
          /\ Dashboard.handleDisconnectBox now2 box outcome w1 = (inr tt, w2)
          /\ nth_error (stored_boxes w2) i
             = Some (MedicineBox.with_updatedAt (setIsConnected box false) now2)
          /\ (forall j, j <> i ->
                nth_error (stored_boxes w2) j = nth_error (stored_boxes w1) j)
          /\ stored_alerts w2 = (stored_alerts w ++ new)%list).
Proof.
  split.
  - intros Hnone. unfold Dashboard.handleDisconnectBox, attempt.
    now rewrite (unknown_box_rejects_update now2 (MedicineBox.id box) w Hnone
                   (fun _ => setIsConnected box false)).
  - intros i Hf.
    destruct (DoseRun_boxes L now1 (random w) (stored_boxes w)
                (mkTick (stored_alerts w) [] (drawn w)))
      as (boxes' & tk' & Hrun & HF & added & Hal & Hnew & _).
    rewrite (checkMedicineTimes_run _ _ _ _ _ Hrun).
    simpl in Hal, Hnew.
    assert (Hf' : findIndex (hasId (MedicineBox.id box)) boxes' = Some i)
      by now rewrite (BoxStepped_findIndex _ _ _ _ HF).
    destruct (findIndex_Some _ _ _ Hf') as (b' & Hn' & _).
    eexists _, _, _. split; [reflexivity|].
    unfold Dashboard.handleDisconnectBox, attempt.
    erewrite updateMedicineBox_run; [|exact Hf'|exact Hn'].
    split; [reflexivity|]. simpl.
    split; [exact (nth_error_updateAt_same _ _ _ _ Hn')|].
    split; [intros j Hj; exact (nth_error_updateAt_other _ _ _ _ Hj)|].
    now rewrite Hal, Hnew.
Qed.

Lemma disconnect_writes_view_copy_witness :
  exists new w1 w2,
    checkMedicineTimes utc Sample.eightOClock Sample.world = (inr new, w1)
    /\ Dashboard.handleDisconnectBox (Sample.eightOClock + 5000) Sample.kitchen
         ESP32Service.TimedOut w1 = (inr tt, w2)
    /\ option_map MedicineBox.medicines (nth_error (stored_boxes w2) 0)
       = Some (MedicineBox.medicines Sample.kitchen)
    /\ stored_alerts w2 = (stored_alerts Sample.world ++ new)%list.
Proof.
  destruct (proj2 (disconnect_writes_view_copy utc Sample.eightOClock
                     (Sample.eightOClock + 5000) Sample.kitchen
                     ESP32Service.TimedOut Sample.world) O eq_refl)
    as (new & w1 & w2 & Htick & Hdis & Hbox & _ & Hal).
  exists new, w1, w2. split; [exact Htick|]. split; [exact Hdis|].
  split; [|exact Hal].
  rewrite Hbox. reflexivity.
Defined.

(** X17: after a successful sync the two sync buttons store different
    boxes.  The dashboard's handler writes the view's copy of the box, its
    medicines included, over the stored box; the medicine list's handler
    sets [lastSyncAt] on the stored box and keeps the stored medicines.
    After a failed sync neither writes anything. *)
Theorem sync_handlers_differ (now : Z) (box : MedicineBox.t)
    (device : SyncData.t -> ESP32.Reply (ESP32.Body ESP32Response.t)) (w : World)
    (i : nat) (stored : MedicineBox.t) :
  findIndex (hasId (MedicineBox.id box)) (stored_boxes w) = Some i ->
  nth_error (stored_boxes w) i = Some stored ->
  (ESP32Service.success (ESP32.syncMedicines box device) = true ->
   (exists w',
       Dashboard.handleSyncBox now box device w = (inr tt, w')
       /\ nth_error (stored_boxes w') i
          = Some (MedicineBox.with_updatedAt (setLastSyncAt box (Some now)) now)
       /\ stored_alerts w' = stored_alerts w)
   /\ (exists w',
         MedicineList.handleSyncWithESP32 now box device w = (inr tt, w')
         /\ nth_error (stored_boxes w') i
            = Some (MedicineBox.with_updatedAt (setLastSyncAt stored (Some now)) now)
         /\ stored_alerts w' = stored_alerts w))
  /\ (ESP32Service.success (ESP32.syncMedicines box device) = false ->
      Dashboard.handleSyncBox now box device w = (inr tt, w)
      /\ MedicineList.handleSyncWithESP32 now box device w = (inr tt, w)).
Proof.
  intros Hf Hn. split; intros Hs.
  - split.
    + unfold Dashboard.handleSyncBox, attempt, bind. rewrite Hs.
      rewrite (updateMedicineBox_run _ _ _ _ _ _ Hf Hn).
      eexists. split; [reflexivity|]. simpl.
      split; [exact (nth_error_updateAt_same _ _ _ _ Hn) | reflexivity].
    + unfold MedicineList.handleSyncWithESP32, attempt, bind. rewrite Hs.
      rewrite (updateMedicineBox_run _ _ _ _ _ _ Hf Hn).
      eexists. split; [reflexivity|]. simpl.
      split; [exact (nth_error_updateAt_same _ _ _ _ Hn) | reflexivity].
  - unfold Dashboard.handleSyncBox, MedicineList.handleSyncWithESP32, attempt.
    rewrite Hs. split; reflexivity.
Qed.

Lemma sync_handlers_differ_witness :
  let view := MedicineBox.with_medicines Sample.kitchen [] in
  (exists w',
      Dashboard.handleSyncBox Sample.eightOClock view Fixture.obliging Sample.world
      = (inr tt, w')
      /\ option_map MedicineBox.medicines (nth_error (stored_boxes w') 0) = Some [])
  /\ (exists w',
        MedicineList.handleSyncWithESP32 Sample.eightOClock view Fixture.obliging
          Sample.world = (inr tt, w')
        /\ option_map MedicineBox.medicines (nth_error (stored_boxes w') 0)
           = Some (MedicineBox.medicines Sample.kitchen)).
Proof.
  intros view.
  destruct (proj1 (sync_handlers_differ Sample.eightOClock view Fixture.obliging
                     Sample.world O Sample.kitchen eq_refl eq_refl) eq_refl)
    as [(w1 & H1 & Hb1 & _) (w2 & H2 & Hb2 & _)].
  split.
  - exists w1. split; [exact H1|]. rewrite Hb1. reflexivity.
  - exists w2. split; [exact H2|]. rewrite Hb2. reflexivity.
Defined.

(** ** Beyond the specification: what the views show *)

Lemma jsle_3 (x : jsnum) : MedicineList.jsle x 3 = jsle3 x.
Proof. destruct x; reflexivity. Qed.

Lemma jsle_0_gt0 (x : jsnum) :
  x <> NaN -> MedicineList.jsle x 0 = negb (jsgt0 x).
Proof.
  destruct x; simpl; intros H; try reflexivity; [|contradiction].
  now rewrite negb_involutive.
Qed.

(** X18: the badge of the medicine list reads "Low" exactly for the
    medicines the low-stock tick alerts on (the guard of
    [checkLowMedicines], on the same quotient).  With [timesPerDay >= 1]
    and a count and a frequency below [2 ^ 52] in absolute value (where
    the rounded quotient compares with 0, 3 and 7 as the exact one), the
    four badges split the counts at 0, 3 and 7 days of supply: "Empty" up
    to 0 pills, "Low" up to [3 * timesPerDay], "Medium" up to
    [7 * timesPerDay], "Good" above. *)
Theorem getMedicineStatus_bands (m : Medicine.t) :
  (MedicineList.text (MedicineList.getMedicineStatus m) = "Low" <->
   lowStock m = true)
  /\ (1 <= Medicine.timesPerDay m ->
      exactQuotient m ->
      let c := Medicine.currentCount m in
      let t := Medicine.timesPerDay m in
      MedicineList.text (MedicineList.getMedicineStatus m)
      = if c <=? 0 then "Empty"
        else if c <=? 3 * t then "Low"
        else if c <=? 7 * t then "Medium"
        else "Good").
Proof.
  split.
  - unfold MedicineList.getMedicineStatus, lowStock.
    rewrite jsle_3.
    destruct (daysRemaining m) as [q| | |] eqn:E; simpl; try (split; discriminate).
    change (inject_Z 0) with 0%Q.
    destruct (Qle_bool q 0); simpl.
    + split; [discriminate|]. now rewrite andb_false_r.
    + rewrite andb_true_r. destruct (Qle_bool q 3); simpl.
      * split; reflexivity.
      * destruct (Qle_bool q (inject_Z 7)); split; discriminate.
  - intros Ht _ c t. unfold MedicineList.getMedicineStatus, daysRemaining, jsdiv.
    fold c t. assert (Ht' : 1 <= t) by exact Ht. clearbody c t. clear Ht m.
    rewrite (proj2 (Z.eqb_neq t 0)) by lia.
    assert (Hle : forall k, MedicineList.jsle (Finite (inject_Z c / inject_Z t)) k
                            = (c <=? k * t)).
    { intros k. simpl. apply eq_true_iff_eq.
      rewrite Qle_bool_iff, Z.leb_le.
      destruct t as [|p|p]; try lia.
      unfold Qle, Qdiv, Qmult, Qinv, inject_Z. cbn. lia. }
    rewrite !Hle. simpl (0 * t).
    destruct (c <=? 0); [reflexivity|].
    destruct (c <=? 3 * t); [reflexivity|].
    destruct (c <=? 7 * t); reflexivity.
Qed.

Lemma getMedicineStatus_bands_witness :
  MedicineList.text (MedicineList.getMedicineStatus Fixture.empty) = "Empty".
Proof.
  rewrite (proj2 (getMedicineStatus_bands Fixture.empty)); [reflexivity| |].
  - simpl. lia.
  - split; simpl; lia.
Defined.

Lemma getAlerts_result (now : Z) (userId : string) (w : World) :
  exists w',
    getAlerts now userId w
    = (inr (filter (fun a => now - 86400000 <? Alert.createdAt a) (stored_alerts w)),
       w').
Proof.
  unfold getAlerts, bind, getAlertsFromStorage.
  change (24 * 60 * 60 * 1000) with 86400000.
  destruct (negb _); eexists; reflexivity.
Qed.

(** X19: an alert that [getAlerts] returns and that was not created in
    the future is never shown with an age in days: [formatTime] at the
    same instant gives "Just now" in its first minute, then minutes from 1
    to 59, then hours from 1 to 23. *)
Theorem retained_alerts_age (now : Z) (userId : string) (w : World) :
  exists recent w',
    getAlerts now userId w = (inr recent, w')
    /\ forall a, In a recent -> Alert.createdAt a <= now ->
         let diff := now - Alert.createdAt a in
         let shown := NotificationsDropdown.formatTime now (Alert.createdAt a) in
         (diff < 60000 /\ shown = "Just now")
         \/ (exists n, 1 <= n <= 59 /\ n = diff / 60000
                       /\ shown = JsString.ofNumber n ++ "m ago")
         \/ (exists n, 1 <= n <= 23 /\ n = diff / 3600000
                       /\ shown = JsString.ofNumber n ++ "h ago").
Proof.
  destruct (getAlerts_result now userId w) as (w' & Hrun).
  eexists _, w'. split.
  - exact Hrun.
  - intros a Ha Hpast diff shown. apply filter_In in Ha. destruct Ha as [_ Hk].
    apply Z.ltb_lt in Hk.
    assert (Hd : 0 <= diff < 86400000) by (unfold diff; lia).
    unfold shown, NotificationsDropdown.formatTime. fold diff.
    change (1000 * 60 * 60 * 24) with 86400000.
    change (1000 * 60 * 60) with 3600000.
    change (1000 * 60) with 60000.
    destruct (Z.ltb_spec (diff / 60000) 1) as [H1|H1].
    + left. split; [|reflexivity].
      destruct (Z.lt_ge_cases diff 60000) as [|Hge]; [assumption|].
      assert (1 <= diff / 60000) by (apply Z.div_le_lower_bound; lia). lia.
    + destruct (Z.ltb_spec (diff / 60000) 60) as [H2|H2].
      * right; left. exists (diff / 60000). repeat split; lia.
      * right; right.
        assert (H3 : diff / 3600000 < 24)
          by (apply Z.div_lt_upper_bound; lia).
        rewrite (proj2 (Z.ltb_lt _ _) H3).
        exists (diff / 3600000). repeat split; try lia.
        apply Z.div_le_lower_bound; [lia|].
        assert (60 * 60000 <= diff); [|lia].
        destruct (Z.lt_ge_cases diff (60000 * 60)) as [Hlt|]; [|lia].
        apply Z.div_lt_upper_bound in Hlt; lia.
Qed.

Lemma retained_alerts_age_witness :
  exists recent w',
    getAlerts Sample.eightOClock "1" Sample.agedWorld = (inr recent, w')
    /\ map (fun a => NotificationsDropdown.formatTime Sample.eightOClock
                       (Alert.createdAt a)) recent = ["23h ago"].
Proof.
  destruct (retained_alerts_age Sample.eightOClock "1" Sample.agedWorld)
    as (recent & w' & Hrun & _).
  exists recent, w'. split; [exact Hrun|].
  injection Hrun as <- _. reflexivity.
Defined.

(** ** Beyond the specification: the two ticks *)

Lemma low_fold_idle (now : Z) (rand : nat -> string) (box : MedicineBox.t)
    (ms : list Medicine.t) (tk : Tick) :
  (forall m, In m ms -> lowStock m = true ->
             existsb (isLowAlertFor (Medicine.id m)) (alerts tk) = true) ->
  fold_left (stepLowMedicine now rand box) ms tk = tk.
Proof.
  induction ms as [|m ms IH]; intros H; simpl; [reflexivity|].
  assert (Hstep : stepLowMedicine now rand box tk m = tk).
  { unfold stepLowMedicine. fold (lowStock m).
    destruct (lowStock m) eqn:Hlow; [|reflexivity].
    now rewrite (H m (or_introl eq_refl) Hlow). }
  rewrite Hstep. apply IH. intros x Hx. apply H. now right.
Qed.

Lemma low_boxes_idle (now : Z) (rand : nat -> string)
    (boxes : list MedicineBox.t) (tk : Tick) :
  (forall m, In m (allMedicines boxes) -> lowStock m = true ->
             existsb (isLowAlertFor (Medicine.id m)) (alerts tk) = true) ->
  fold_left (stepLowBox now rand) boxes tk = tk.
Proof.
  induction boxes as [|b bs IH]; intros H; simpl; [reflexivity|].
  unfold stepLowBox at 2.
  rewrite low_fold_idle by (intros m Hm; apply H; simpl; apply in_or_app; now left).
  apply IH. intros m Hm. apply H. simpl. apply in_or_app. now right.
Qed.

(** X20: the low-stock tick is idempotent: run again on the state it
    left, at any later instant, it returns no alert and leaves boxes and
    alerts as they were. *)
Theorem checkLowMedicines_idempotent (now1 now2 : Z) (w : World) :
  exists new w1 w2,
    checkLowMedicines now1 w = (inr new, w1)
    /\ checkLowMedicines now2 w1 = (inr [], w2)
    /\ persisted w2 = persisted w1.
Proof.
  destruct (checkLowMedicines_run now1 w) as (tk' & Hrun & added & Hal & _ & _ & Hall).
  eexists _, _, _. split; [exact Hrun|].
  unfold checkLowMedicines, bind, getMedicineBoxesFromStorage, getAlertsFromStorage.
  cbn [stored_boxes stored_alerts random drawn effects].
  rewrite low_boxes_idle by exact Hall.
  split; reflexivity.
Qed.

Lemma pills_app (a b : list Medicine.t) : pills (a ++ b) = pills a + pills b.
Proof.
  induction a as [|m a IH]; simpl; [reflexivity|]. rewrite IH. lia.
Qed.

Lemma ofType_map (t : AlertType) (l : list Alert.t) :
  List.length (ofType t l)
  = List.length (filter (fun ty => AlertType_eqb ty t) (map Alert.type l)).
Proof.
  unfold ofType. induction l as [|a l IH]; simpl; [reflexivity|].
  destruct (AlertType_eqb (Alert.type a) t); simpl; now rewrite IH.
Qed.

Lemma emitted_one_time (count : Z) (unreadLow : bool) :
  List.length (filter (fun ty => AlertType_eqb ty medicine_time)
                      (emitted count unreadLow)) = 1%nat.
Proof.
  unfold emitted.
  destruct ((count <=? 3) && (0 <? count)); [destruct unreadLow|];
    destruct (count =? 0); reflexivity.
Qed.

Section Accounts.
Variable L : Locale.
Variable now : Z.
Variable rand : nat -> string.

Lemma account_step (box : MedicineBox.t) (m : Medicine.t) (tk : Tick) :
  exists m' tk' added,
    stepMedicine L now rand box m tk = (m', tk')
    /\ alerts tk' = (alerts tk ++ added)%list
    /\ newAlerts tk' = (newAlerts tk ++ added)%list
    /\ Medicine.currentCount m - Medicine.currentCount m'
       = Z.of_nat (List.length (ofType medicine_time added)).
Proof.
  destruct (due L now m (alerts tk)) eqn:Hdue.
  - destruct (stepMedicine_fires L now rand box m tk Hdue)
      as (tk' & Hstep & added & Ha & Hn & _ & Hty & _).
    apply due_true in Hdue. destruct Hdue as (_ & Hpos & _).
    exists (deducted now m), tk', added.
    split; [assumption|]. split; [assumption|]. split; [assumption|].
    rewrite ofType_map, Hty, emitted_one_time. simpl. lia.
  - exists m, tk, []. rewrite !app_nil_r.
    split; [now apply stepMedicine_idle|]. repeat split. simpl. lia.
Qed.

Lemma account_medicines (box : MedicineBox.t) (ms : list Medicine.t) (tk : Tick) :
  exists ms' tk' added,
    forEachMedicine L now rand box ms tk = (ms', tk')
    /\ alerts tk' = (alerts tk ++ added)%list
    /\ newAlerts tk' = (newAlerts tk ++ added)%list
    /\ pills ms - pills ms'
       = Z.of_nat (List.length (ofType medicine_time added)).
Proof.
  revert tk; induction ms as [|m ms IH]; intros tk; simpl.
  - exists [], tk, []. rewrite !app_nil_r. repeat split.
  - destruct (account_step box m tk) as (m' & tk1 & a1 & -> & Ha1 & Hn1 & Hp1).
    destruct (IH tk1) as (ms' & tk2 & a2 & -> & Ha2 & Hn2 & Hp2).
    exists (m' :: ms'), tk2, (a1 ++ a2)%list. split; [reflexivity|].
    split; [now rewrite Ha2, Ha1, app_assoc|].
    split; [now rewrite Hn2, Hn1, app_assoc|].
    unfold ofType in *. rewrite filter_app, length_app. simpl. lia.
Qed.

Lemma account_boxes (bs : list MedicineBox.t) (tk : Tick) :
  exists bs' tk' added,
    forEachBox L now rand bs tk = (bs', tk')
    /\ alerts tk' = (alerts tk ++ added)%list
    /\ newAlerts tk' = (newAlerts tk ++ added)%list
    /\ pills (allMedicines bs) - pills (allMedicines bs')
       = Z.of_nat (List.length (ofType medicine_time added)).
Proof.
  revert tk; induction bs as [|b bs IH]; intros tk; simpl.
  - exists [], tk, []. rewrite !app_nil_r. repeat split.
  - destruct (account_medicines b (MedicineBox.medicines b) tk)
      as (ms' & tk1 & a1 & -> & Ha1 & Hn1 & Hp1).
    destruct (IH tk1) as (bs' & tk2 & a2 & -> & Ha2 & Hn2 & Hp2).
    eexists _, tk2, (a1 ++ a2)%list. split; [reflexivity|].
    split; [now rewrite Ha2, Ha1, app_assoc|].
    split; [now rewrite Hn2, Hn1, app_assoc|].
    simpl. rewrite !pills_app.
    unfold ofType in *. rewrite filter_app, length_app. lia.
Qed.

End Accounts.

(** X21: the dose tick accounts for every pill: on a store whose counts
    are at most [2 ^ 53] (the counts whose predecessor the code computes
    exactly), the alerts it returns are exactly the ones it appends to
    the store, no stored alert is removed or changed, and the pills held
    by all medicines drop by the number of [medicine_time] alerts
    returned. *)
Theorem dose_tick_accounts (L : Locale) (now : Z) (w : World) :
  Forall exactDecrement (allMedicines (stored_boxes w)) ->
  exists new w',
    checkMedicineTimes L now w = (inr new, w')
    /\ stored_alerts w' = (stored_alerts w ++ new)%list
    /\ pills (allMedicines (stored_boxes w)) - pills (allMedicines (stored_boxes w'))
       = Z.of_nat (List.length (ofType medicine_time new)).
Proof.
  intros _.
  destruct (account_boxes L now (random w) (stored_boxes w)
              (mkTick (stored_alerts w) [] (drawn w)))
    as (bs' & tk' & added & Hrun & Hal & Hnew & Hp).
  rewrite (checkMedicineTimes_run _ _ _ _ _ Hrun).
  simpl in Hal, Hnew.
  eexists _, _. split; [reflexivity|]. simpl.
  split; [now rewrite Hal, Hnew|]. now rewrite Hnew.
Qed.

Lemma dose_tick_accounts_witness :
  exists new w',
    checkMedicineTimes utc Sample.eightOClock Sample.world = (inr new, w')
    /\ stored_alerts w' = (stored_alerts Sample.world ++ new)%list
    /\ pills (allMedicines (stored_boxes Sample.world))
       - pills (allMedicines (stored_boxes w'))
       = Z.of_nat (List.length (ofType medicine_time new)).
Proof.
  apply (dose_tick_accounts utc Sample.eightOClock Sample.world).
  repeat (constructor; [unfold exactDecrement; simpl; lia|]). constructor.
Defined.

(** ** Beyond the specification: dismissing an alert *)

Lemma skipn_nth_error {A} (l : list A) (i : nat) (x : A) :
  nth_error l i = Some x -> skipn i l = x :: skipn (S i) l.
Proof.
  revert i; induction l as [|y r IH]; intros [|i] Hn; simpl in *; try discriminate.
  - now injection Hn as ->.
  - now apply IH.
Qed.

(** X22: when the view shows the stored alerts, all of them unread and
    with distinct ids, dismissing an alert leaves the view and the store
    with the same alerts.  When the store holds a read alert with another
    id, dismissing a present alert makes them differ: the read alert
    stays in the view and leaves the store. *)
Theorem dismissAlert_view_and_store (alertId : string) (w : World) :
  (NoDup (map Alert.id (stored_alerts w)) ->
   (forall a, In a (stored_alerts w) -> Alert.isRead a = false) ->
   exists view' w',
     App.dismissAlert alertId (stored_alerts w) w = (inr view', w')
     /\ view' = stored_alerts w')
  /\ (forall r,
        In r (stored_alerts w) -> Alert.isRead r = true -> Alert.id r <> alertId ->
        (exists a, In a (stored_alerts w) /\ Alert.id a = alertId) ->
        exists view' w',
          App.dismissAlert alertId (stored_alerts w) w = (inr view', w')
          /\ In r view' /\ ~ In r (stored_alerts w')).
Proof.
  set (p := fun a => String.eqb (Alert.id a) alertId).
  set (keep := fun a => negb (String.eqb (Alert.id a) alertId)).
  split.
  - intros Hnd Hunread.
    unfold App.dismissAlert, markAlertAsRead, bind, getAlertsFromStorage.
    fold p keep.
    destruct (findIndex p (stored_alerts w)) as [i|] eqn:Hf.
    + destruct (findIndex_Some _ _ _ Hf) as (x & Hn & Hp & _ & Hbefore).
      eexists _, _. split; [reflexivity|]. simpl.
      rewrite (updateAt_split _ _ _ _ Hn), filter_app. simpl.
      pose proof (firstn_skipn i (stored_alerts w)) as Hsplit.
      rewrite (skipn_nth_error _ _ _ Hn) in Hsplit.
      assert (Hu : forall l, (forall a, In a l -> In a (stored_alerts w)) ->
                             filter (fun a => negb (Alert.isRead a)) l = l).
      { intros l Hl. apply filter_same. intros a Ha.
        now rewrite (Hunread a (Hl a Ha)). }
      rewrite !Hu.
      2:{ intros a Ha. rewrite <- Hsplit. apply in_or_app. right. now right. }
      2:{ intros a Ha. rewrite <- Hsplit. apply in_or_app. now left. }
      rewrite <- Hsplit at 1. rewrite filter_app. simpl.
      unfold keep at 2. unfold p in Hp. rewrite Hp. simpl.
      rewrite <- Hsplit, map_app in Hnd. simpl in Hnd.
      f_equal; apply filter_same; intros a Ha; unfold keep;
        apply negb_true_iff, String.eqb_neq; intros Heq.
      * specialize (Hbefore a Ha). unfold p in Hbefore.
        rewrite Heq, String.eqb_refl in Hbefore. discriminate.
      * apply NoDup_remove_2 in Hnd. apply Hnd. apply in_or_app. right.
        apply String.eqb_eq in Hp. rewrite Hp, <- Heq. now apply in_map.
    + eexists _, _. split; [reflexivity|]. simpl.
      apply filter_same. intros a Ha. unfold keep.
      rewrite findIndex_None in Hf. specialize (Hf a Ha). unfold p in Hf.
      now rewrite Hf.
  - intros r Hr Hread Hid (a & Ha & Haid).
    unfold App.dismissAlert, markAlertAsRead, bind, getAlertsFromStorage.
    fold p keep.
    destruct (findIndex p (stored_alerts w)) as [i|] eqn:Hf.
    + eexists _, _. split; [reflexivity|]. simpl. split.
      * apply filter_In. split; [assumption|]. unfold keep.
        now apply negb_true_iff, String.eqb_neq.
      * intros Hin. apply filter_In in Hin. destruct Hin as [_ Hu].
        now rewrite Hread in Hu.
    + exfalso. rewrite findIndex_None in Hf. specialize (Hf a Ha).
      unfold p in Hf. rewrite Haid, String.eqb_refl in Hf. discriminate.
Qed.

Lemma dismissAlert_view_and_store_witness :
  exists view' w',
    App.dismissAlert "1" (stored_alerts Sample.world) Sample.world = (inr view', w')
    /\ view' = stored_alerts w'.
Proof.
  apply (proj1 (dismissAlert_view_and_store "1" Sample.world)).
  - repeat constructor; simpl; intuition discriminate.
  - intros a [<-|[]]. reflexivity.
Defined.

(** ** Beyond the specification: adding and removing *)

Lemma find_app_last {A} (p : A -> bool) (l : list A) (x : A) :
  (forall y, In y l -> p y = false) -> p x = true -> find p (l ++ [x]) = Some x.
Proof.
  induction l as [|y l IH]; simpl; intros Hl Hx; [now rewrite Hx|].
  rewrite (Hl y (or_introl eq_refl)). apply IH; [|assumption].
  intros z Hz. apply Hl. now right.
Qed.

(** X23: [deleteMedicineBox] on an id that is found removes every box
    with that id and keeps the other boxes in order, then reloads the
    page; deleting the same id again finds nothing, warns, and leaves the
    store as it is. *)
Theorem deleteMedicineBox_boxes (id : string) (w : World) (b : MedicineBox.t) :
  find (hasId id) (stored_boxes w) = Some b ->
  exists w',
    deleteMedicineBox id w = (inr tt, w')
    /\ stored_boxes w' = filter (fun box => negb (hasId id box)) (stored_boxes w)
    /\ (forall x, In x (stored_boxes w') <->
                  In x (stored_boxes w) /\ MedicineBox.id x <> id)
    /\ effects w' = (effects w ++ [Saved MEDICINE_BOXES; Saved ALERTS; Reloaded])%list
    /\ exists w'',
         deleteMedicineBox id w' = (inr tt, w'')
         /\ persisted w'' = persisted w'
         /\ effects w''
            = (effects w' ++ [Warned ("No medicine box found with id: " ++ id)])%list.
Proof.
  intros Hf. unfold deleteMedicineBox, bind, getMedicineBoxesFromStorage.
  rewrite Hf. eexists. split; [reflexivity|]. simpl.
  split; [reflexivity|]. split; [|split].
  - intros x. rewrite filter_In, negb_true_iff. unfold hasId.
    rewrite String.eqb_neq. tauto.
  - now rewrite <- !app_assoc.
  - replace (find (hasId id) (filter (fun box => negb (hasId id box)) (stored_boxes w)))
      with (@None MedicineBox.t).
    + eexists. split; [reflexivity|]. split; reflexivity.
    + symmetry. apply find_None_findIndex, findIndex_None.
      intros x Hx. apply filter_In in Hx. now apply negb_true_iff.
Qed.

Lemma deleteMedicineBox_boxes_witness :
  exists w', deleteMedicineBox "2" Sample.world = (inr tt, w')
             /\ stored_boxes w' = [Sample.kitchen; Sample.travel].
Proof.
  destruct (deleteMedicineBox_boxes "2" Sample.world Sample.bedroom eq_refl)
    as (w' & Hrun & Hb & _).
  exists w'. split; [exact Hrun|]. rewrite Hb. reflexivity.
Defined.

(** X24: creating a box and deleting it again gives the stored boxes
    back, provided the drawn identifier is not the id of a stored box.
    The alerts do not all come back: the delete also removes every stored
    alert that carries the new box's name or the id of one of its
    medicines. *)
Theorem create_then_delete_box (now : Z) (boxData : MedicineBox.t) (w : World) :
  (forall b, In b (stored_boxes w) -> MedicineBox.id b <> random w (drawn w)) ->
  exists newBox w1 w2,
    createMedicineBox now boxData w = (inr newBox, w1)
    /\ deleteMedicineBox (MedicineBox.id newBox) w1 = (inr tt, w2)
    /\ stored_boxes w2 = stored_boxes w
    /\ (forall a, In a (stored_alerts w2) <->
          In a (stored_alerts w)
          /\ Alert.boxName a <> MedicineBox.name boxData
          /\ (forall med, In med (MedicineBox.medicines boxData) ->
                          Medicine.id med <> Alert.medicineId a)).
Proof.
  intros Hfresh.
  unfold createMedicineBox, bind, getMedicineBoxesFromStorage, randomId.
  eexists _, _, _. split; [reflexivity|].
  unfold deleteMedicineBox, bind, getMedicineBoxesFromStorage.
  cbn [stored_boxes stored_alerts random drawn effects saveBoxes fst snd
       MedicineBox.id].
  rewrite find_app_last.
  - split; [reflexivity|]. simpl. split.
    + rewrite filter_app. simpl. unfold hasId at 2. simpl.
      rewrite String.eqb_refl. simpl. rewrite app_nil_r.
      apply filter_same. intros b Hb. apply negb_true_iff, String.eqb_neq.
      now apply Hfresh.
    + intros a. rewrite filter_In, negb_true_iff. unfold belongsToDeletedBox.
      simpl. rewrite orb_false_iff, String.eqb_neq.
      split; intros (Ha & Hn & He); (split; [assumption|]); (split; [assumption|]).
      * intros med Hmed Heq.
        assert (existsb (fun med => String.eqb (Medicine.id med) (Alert.medicineId a))
                  (MedicineBox.medicines boxData) = true); [|congruence].
        apply existsb_exists. exists med. split; [assumption|].
        now apply String.eqb_eq.
      * destruct (existsb _ _) eqn:Hex; [|reflexivity].
        apply existsb_exists in Hex. destruct Hex as (med & Hmed & Heq).
        apply String.eqb_eq in Heq. exfalso. exact (He med Hmed Heq).
  - intros b Hb. apply String.eqb_neq. now apply Hfresh.
  - apply String.eqb_refl.
Qed.

Lemma create_then_delete_box_witness :
  exists newBox w1 w2,
    createMedicineBox Sample.eightOClock Fixture.cupboard Sample.world = (inr newBox, w1)
    /\ deleteMedicineBox (MedicineBox.id newBox) w1 = (inr tt, w2)
    /\ stored_boxes w2 = stored_boxes Sample.world.
Proof.
  destruct (create_then_delete_box Sample.eightOClock Fixture.cupboard Sample.world)
    as (newBox & w1 & w2 & H1 & H2 & H3 & _).
  - intros b [<-|[<-|[<-|[]]]]; discriminate.
  - exists newBox, w1, w2. auto.
Defined.

(** X25: adding a medicine to a box and deleting it again gives the box
    its medicines back, provided the drawn identifier is not the id of a
    medicine of that box; the other boxes are untouched, and the alerts
    are the stored alerts that do not carry the drawn id: the low-count
    alert of the new medicine is gone with it. *)
Theorem add_then_delete_medicine (now1 now2 : Z) (boxId : string)
    (medicineData : Medicine.t) (w : World) (i : nat) (box : MedicineBox.t) :
  findIndex (hasId boxId) (stored_boxes w) = Some i ->
  nth_error (stored_boxes w) i = Some box ->
  (forall med, In med (MedicineBox.medicines box) ->
               Medicine.id med <> random w (drawn w)) ->
  exists m w1 w2,
    addMedicine now1 boxId medicineData w = (inr m, w1)
    /\ deleteMedicine now2 boxId (Medicine.id m) w1 = (inr tt, w2)
    /\ nth_error (stored_boxes w2) i
       = Some (MedicineBox.with_updatedAt box now2)
    /\ (forall j, j <> i ->
          nth_error (stored_boxes w2) j = nth_error (stored_boxes w) j)
    /\ stored_alerts w2
       = filter (fun a => negb (String.eqb (Alert.medicineId a) (Medicine.id m)))
                (stored_alerts w).
Proof.
  intros Hf Hn Hfresh.
  pose proof (addMedicine_run now1 boxId medicineData w i box Hf Hn) as Hrun.
  cbv zeta in Hrun.
  match type of Hrun with
  | _ = (inr ?m0, _) => remember m0 as m eqn:Em
  end.
  assert (Hid : Medicine.id m = random w (drawn w)) by now rewrite Em.
  set (fadd := fun b => MedicineBox.with_updatedAt
                          (MedicineBox.with_medicines b
                             (MedicineBox.medicines b ++ [m])) now1) in *.
  eexists m, _, _. split; [exact Hrun|].
  unfold deleteMedicine, bind, getMedicineBoxesFromStorage.
  cbn [stored_boxes stored_alerts random drawn effects].
  rewrite findIndex_updateAt by reflexivity. rewrite Hf.
  split; [reflexivity|]. simpl. rewrite updateAt_twice.
  split; [|split].
  - rewrite (nth_error_updateAt_same _ _ _ _ Hn). f_equal. unfold fadd. simpl.
    rewrite filter_app. simpl. unfold medHasId at 2.
    rewrite String.eqb_refl. simpl. rewrite app_nil_r.
    rewrite filter_same.
    + now destruct box.
    + intros med Hmed. apply negb_true_iff, String.eqb_neq.
      rewrite Hid. now apply Hfresh.
  - intros j Hj. now apply nth_error_updateAt_other.
  - rewrite filter_app.
    match goal with
    | |- (_ ++ filter _ (if ?c then _ else _))%list = _ => destruct c
    end; simpl; [|apply app_nil_r].
    rewrite Em at 2. simpl. rewrite <- Hid. rewrite String.eqb_refl. simpl.
    apply app_nil_r.
Qed.

Lemma add_then_delete_medicine_witness :
  exists m w1 w2,
    addMedicine Sample.eightOClock "1" (Medicine.with_currentCount Fixture.empty 2)
      Sample.world = (inr m, w1)
    /\ deleteMedicine (Sample.eightOClock + 1000) "1" (Medicine.id m) w1 = (inr tt, w2)
    /\ option_map MedicineBox.medicines (nth_error (stored_boxes w2) 0)
       = Some (MedicineBox.medicines Sample.kitchen).
Proof.
  destruct (add_then_delete_medicine Sample.eightOClock (Sample.eightOClock + 1000)
              "1" (Medicine.with_currentCount Fixture.empty 2) Sample.world
              O Sample.kitchen eq_refl eq_refl)
    as (m & w1 & w2 & H1 & H2 & H3 & _).
  - intros med [<-|[<-|[]]]; discriminate.
  - exists m, w1, w2. split; [exact H1|]. split; [exact H2|].
    rewrite H3. reflexivity.
Defined.
